(** * Azure Communication Services sample: result envelopes, configuration
      resolution and the chat session

    A shallow embedding of [samples/python/acs_sample.py] and
    [samples/python/test_email.py].

    The Python code is a set of thin wrappers around vendor SDK clients.
    The SDK, the secret store, the clock and the network are external
    collaborators: they are modelled by the [Platform] interface over an
    arbitrary collaborator state [W], so that every theorem holds for every
    behaviour of the collaborators (including stateful ones such as rate
    limits).  Python code is written in a small state-and-exception monad
    [M Self A] that threads the receiver object ([self]) and the process
    state ([Sys]: collaborator state, environment, argv, the log of
    collaborator calls and the lines printed). *)

From stdpp Require Import gmap strings list pretty.
From Stdlib Require Import ZArith Lia Ascii.

Set Warnings "-register-all".
Set Default Proof Using "Type*".
Local Open Scope string_scope.
Local Open Scope list_scope.

(** ** Python values

    Dictionaries keep insertion order, as in Python 3.7 and later, and are
    association lists with distinct keys.  A [datetime] is read only through
    [isoformat()].  [VObj cls attrs] is an instance of class [cls] with the
    data attributes [attrs]: what an SDK call hands back when the code goes
    on to read attributes off it that it may or may not have. *)

Record datetime : Type := { isoformat : string }.

Inductive pyval : Type :=
| VNone
| VBool (b : bool)
| VInt (n : Z)
| VStr (s : string)
| VList (l : list pyval)
| VDict (d : list (string * pyval))
| VDatetime (d : datetime)
| VObj (cls : string) (attrs : list (string * pyval)).

Definition pydict : Type := list (string * pyval).

(** [d.get(k)] *)
Fixpoint dict_get (k : string) (d : pydict) : option pyval :=
  match d with
  | [] => None
  | (k', v) :: d' => if String.eqb k k' then Some v else dict_get k d'
  end.

(** [d[k] = v] *)
Fixpoint dict_set (k : string) (v : pyval) (d : pydict) : pydict :=
  match d with
  | [] => [(k, v)]
  | (k', v') :: d' =>
      if String.eqb k k' then (k, v) :: d' else (k', v') :: dict_set k v d'
  end.

(** [{**d1, **d2}] *)
Definition dict_merge (d1 d2 : pydict) : pydict :=
  fold_left (fun d kv => dict_set kv.1 kv.2 d) d2 d1.

(** [k in d] *)
Definition has_key (k : string) (d : pydict) : Prop := is_Some (dict_get k d).

(** [x if x is not None else None] for optional strings put in a dict *)
Definition of_opt_str (o : option string) : pyval :=
  match o with Some s => VStr s | None => VNone end.

(** Truthiness of an [Optional[str]]: [None] and [""] are falsy. *)
Definition truthy_str (o : option string) : bool :=
  match o with
  | Some s => negb (String.eqb s "")
  | None => false
  end.

(** Truthiness of an [Optional[list]]: [None] and [[]] are falsy. *)
Definition truthy_list {A} (o : option (list A)) : bool :=
  match o with
  | Some (_ :: _) => true
  | _ => false
  end.

(** Truthiness of a Python value; a [datetime] and an instance of a class
    without [__bool__] or [__len__] are truthy. *)
Definition truthy (v : pyval) : bool :=
  match v with
  | VNone => false
  | VBool b => b
  | VInt n => negb (n =? 0)%Z
  | VStr s => negb (String.eqb s "")
  | VList l => match l with [] => false | _ => true end
  | VDict d => match d with [] => false | _ => true end
  | VDatetime _ => true
  | VObj _ _ => true
  end.

(** The name of a value's type, as an error message shows it. *)
Definition type_name (v : pyval) : string :=
  match v with
  | VNone => "NoneType"
  | VBool _ => "bool"
  | VInt _ => "int"
  | VStr _ => "str"
  | VList _ => "list"
  | VDict _ => "dict"
  | VDatetime _ => "datetime.datetime"
  | VObj cls _ => cls
  end.

(** ** Exceptions

    [exn] is an instance of a subclass of [Exception]; [exn_str e] is
    [str(e)].  [SystemExit] derives from [BaseException] only, so
    [except Exception] does not catch it. *)

Record exn : Type := Exn { exn_class : string; exn_str : string }.

Inductive signal : Type :=
| Exception (e : exn)
| SystemExit (code : Z).

Inductive outcome (A : Type) : Type :=
| Ok (a : A)
| Raise (sg : signal).
Arguments Ok {A} a.
Arguments Raise {A} sg.

(** What a collaborator call does: it returns, or it raises an
    [Exception]. *)
Inductive reply (A : Type) : Type :=
| Returns (a : A)
| Throws (e : exn).
Arguments Returns {A} a.
Arguments Throws {A} e.

(** [KeyError(k)]: [str] of a [KeyError] is the [repr] of the key. *)
Definition KeyError (k : string) : exn :=
  Exn "KeyError" ("'" +:+ k +:+ "'").

(** The [AttributeError] of a failed read [v.name]. *)
Definition AttributeError (v : pyval) (name : string) : exn :=
  Exn "AttributeError"
    ("'" +:+ type_name v +:+ "' object has no attribute '" +:+ name +:+ "'").

(** Sequencing of steps that may raise. *)
Definition and_then {A B} (o : outcome A) (k : A -> outcome B) : outcome B :=
  match o with
  | Ok a => k a
  | Raise sg => Raise sg
  end.

(** [v.name], for the data attributes the program reads ([id], [type],
    [content], [message], [sender_communication_identifier], [properties],
    [created_on]): an instance has the attribute or the read raises; the
    built-in values have none of them. *)
Definition getattr (v : pyval) (name : string) : outcome pyval :=
  match v with
  | VObj _ attrs =>
      match dict_get name attrs with
      | Some x => Ok x
      | None => Raise (Exception (AttributeError v name))
      end
  | _ => Raise (Exception (AttributeError v name))
  end.

(** [v.get(k)]: the method of a dictionary; any other value here has no
    callable [get]. *)
Definition call_get (v : pyval) (k : string) : outcome pyval :=
  match v with
  | VDict d => Ok (default VNone (dict_get k d))
  | VObj _ attrs =>
      match dict_get "get" attrs with
      | Some x =>
          Raise (Exception
                   (Exn "TypeError"
                      ("'" +:+ type_name x +:+ "' object is not callable")))
      | None => Raise (Exception (AttributeError v "get"))
      end
  | _ => Raise (Exception (AttributeError v "get"))
  end.

(** [v.isoformat()]: the method of a [datetime]; any other value here has
    no callable [isoformat]. *)
Definition call_isoformat (v : pyval) : outcome string :=
  match v with
  | VDatetime d => Ok (isoformat d)
  | VObj _ attrs =>
      match dict_get "isoformat" attrs with
      | Some x =>
          Raise (Exception
                   (Exn "TypeError"
                      ("'" +:+ type_name x +:+ "' object is not callable")))
      | None => Raise (Exception (AttributeError v "isoformat"))
      end
  | _ => Raise (Exception (AttributeError v "isoformat"))
  end.

(** ** SDK data, as the code reads it

    Fields that the code only copies into an envelope are arbitrary Python
    values; the two it also prints ([id] and [status] of an email result) are
    strings.  An access token's [expires_on] is an arbitrary value, on which
    [isoformat()] may raise; a chat message is an arbitrary value, off which
    every attribute read may raise. *)

Module SecretClient.
Record t : Type := { vault_url : string }.
End SecretClient.

Module SmsClient.
Record t : Type := { connection_string : string }.
End SmsClient.

Module SmsSendResult.
Record t : Type :=
  { message_id : pyval; to : pyval; http_status_code : pyval;
    successful : pyval }.
End SmsSendResult.

Module EmailClient.
Record t : Type := { connection_string : string }.
End EmailClient.

Module LROPoller.
Record t : Type := { operation : string }.
End LROPoller.

Module EmailSendResult.
Record t : Type := { id : string; status : string }.
End EmailSendResult.

Module CommunicationIdentityClient.
Record t : Type := { connection_string : string }.
End CommunicationIdentityClient.

Module CommunicationUserIdentifier.
Record t : Type := { properties : pydict }.
End CommunicationUserIdentifier.

Module AccessToken.
Record t : Type := { token : pyval; expires_on : pyval }.
End AccessToken.

Module CommunicationTokenCredential.
Record t : Type := { token : pyval }.
End CommunicationTokenCredential.

Module ChatClient.
Record t : Type :=
  { endpoint : string; credential : CommunicationTokenCredential.t }.
End ChatClient.

Module ChatParticipant.
Record t : Type :=
  { identifier : CommunicationUserIdentifier.t; display_name : string }.
End ChatParticipant.

Module ChatThreadProperties.
Record t : Type := { id : pyval; topic : pyval; created_on : datetime }.
End ChatThreadProperties.

Module CreateChatThreadResult.
Record t : Type := { chat_thread : ChatThreadProperties.t }.
End CreateChatThreadResult.

Module ChatThreadClient.
Record t : Type := { client : ChatClient.t; thread_id : string }.
End ChatThreadClient.

Module SendChatMessageResult.
Record t : Type := { id : pyval }.
End SendChatMessageResult.

(** The arguments of [SmsClient.send]. *)
Record sms_request : Type :=
  { from_ : string; sms_to : string; sms_message : string;
    enable_delivery_report : bool; tag : option string }.

(** The arguments of [ChatThreadClient.send_message]. *)
Record chat_send_request : Type :=
  { chat_content : string; sender_display_name : string;
    chat_message_type : string }.

(** The log of collaborator calls, in call order. *)
Inductive Call : Type :=
| CallDefaultAzureCredential
| CallSecretClient (vault_url : string)
| CallGetSecret (c : SecretClient.t) (name : string)
| CallSmsClient (connection_string : string)
| CallSmsSend (c : SmsClient.t) (r : sms_request)
| CallEmailClient (connection_string : string)
| CallBeginSend (c : EmailClient.t) (message : pydict)
| CallPollerResult (p : LROPoller.t)
| CallIdentityClient (connection_string : string)
| CallCreateUserAndToken (c : CommunicationIdentityClient.t)
    (scopes : list string)
| CallTokenCredential (access_token : pyval)
| CallChatClient (endpoint : string) (cred : CommunicationTokenCredential.t)
| CallCreateChatThread (c : ChatClient.t) (topic : string)
    (participants : list ChatParticipant.t)
| CallGetChatThreadClient (c : ChatClient.t) (thread_id : string)
| CallSendMessage (tc : ChatThreadClient.t) (r : chat_send_request)
| CallListMessages (tc : ChatThreadClient.t)
| CallUtcNow.

(** ** The collaborators

    Every operation takes the collaborator state and returns a reply and the
    next state.  [list_messages] returns the lazy sequence the SDK pages
    through: a pull yields a message or raises; the end of the list is
    [StopIteration]. *)

Class Platform (W : Type) : Type :=
  { DefaultAzureCredential : W -> reply unit * W;
    new_SecretClient : string -> W -> reply SecretClient.t * W;
    get_secret_value :
      SecretClient.t -> string -> W -> reply (option string) * W;
    SmsClient_from_connection_string : string -> W -> reply SmsClient.t * W;
    sms_send : SmsClient.t -> sms_request -> W -> reply SmsSendResult.t * W;
    EmailClient_from_connection_string :
      string -> W -> reply EmailClient.t * W;
    begin_send : EmailClient.t -> pydict -> W -> reply LROPoller.t * W;
    poller_result : LROPoller.t -> W -> reply EmailSendResult.t * W;
    CommunicationIdentityClient_from_connection_string :
      string -> W -> reply CommunicationIdentityClient.t * W;
    identity_create_user_and_token :
      CommunicationIdentityClient.t -> list string ->
      W -> reply (CommunicationUserIdentifier.t * AccessToken.t) * W;
    new_CommunicationTokenCredential :
      pyval -> W -> reply CommunicationTokenCredential.t * W;
    new_ChatClient :
      string -> CommunicationTokenCredential.t -> W -> reply ChatClient.t * W;
    chat_create_chat_thread :
      ChatClient.t -> string -> list ChatParticipant.t ->
      W -> reply CreateChatThreadResult.t * W;
    get_chat_thread_client :
      ChatClient.t -> string -> W -> reply ChatThreadClient.t * W;
    thread_send_message :
      ChatThreadClient.t -> chat_send_request ->
      W -> reply SendChatMessageResult.t * W;
    list_messages :
      ChatThreadClient.t -> W -> reply (list (reply pyval)) * W;
    utcnow : W -> datetime * W }.

(** ** Process state and the monad *)

Record Sys (W : Type) : Type :=
  { world : W;
    environ : gmap string string;
    argv : list string;
    calls : list Call;
    stdout : list string }.
Arguments world {W} s.
Arguments environ {W} s.
Arguments argv {W} s.
Arguments calls {W} s.
Arguments stdout {W} s.

Section Monad.
Context {W : Type}.

(** A computation run on the receiver [Self] and the process state. *)
Definition M (Self A : Type) : Type :=
  Self * Sys W -> outcome A * (Self * Sys W).

Definition ret {Self A} (a : A) : M Self A := fun st => (Ok a, st).

Definition bind {Self A B} (m : M Self A) (k : A -> M Self B) : M Self B :=
  fun st =>
    match m st with
    | (Ok a, st') => k a st'
    | (Raise sg, st') => (Raise sg, st')
    end.

Definition raise {Self A} (sg : signal) : M Self A :=
  fun st => (Raise sg, st).

(** [try: m / except Exception as e: h e].  Whatever [m] did to the
    receiver and the process before raising stays done. *)
Definition try_except {Self A} (m : M Self A) (h : exn -> M Self A)
  : M Self A :=
  fun st =>
    match m st with
    | (Raise (Exception e), st') => h e st'
    | r => r
    end.

Definition get_self {Self} : M Self Self := fun st => (Ok st.1, st).

Definition set_self {Self} (f : Self -> Self) : M Self unit :=
  fun st => (Ok tt, (f st.1, st.2)).

Definition get_sys {Self} : M Self (Sys W) := fun st => (Ok st.2, st).

(** [print(line)] *)
Definition print {Self} (line : string) : M Self unit :=
  fun st =>
    (Ok tt,
     (st.1,
      {| world := world st.2; environ := environ st.2; argv := argv st.2;
         calls := calls st.2; stdout := stdout st.2 ++ [line] |})).

(** A call to a collaborator: logged, then answered by the platform. *)
Definition call {Self A} (c : Call) (f : W -> reply A * W) : M Self A :=
  fun st =>
    let r := f (world st.2) in
    let s' :=
      {| world := r.2; environ := environ st.2; argv := argv st.2;
         calls := calls st.2 ++ [c]; stdout := stdout st.2 |} in
    match r.1 with
    | Returns a => (Ok a, (st.1, s'))
    | Throws e => (Raise (Exception e), (st.1, s'))
    end.

(** A clock read: logged, cannot fail. *)
Definition tick {Self A} (c : Call) (f : W -> A * W) : M Self A :=
  fun st =>
    let r := f (world st.2) in
    (Ok r.1,
     (st.1,
      {| world := r.2; environ := environ st.2; argv := argv st.2;
         calls := calls st.2 ++ [c]; stdout := stdout st.2 |})).

(** Lift a pure computation that may raise. *)
Definition lift {Self A} (o : outcome A) : M Self A := fun st => (o, st).

(** Run a method on another object [obj]; the result comes with the object
    as the method left it. *)
Definition on_object {Self Obj A} (obj : Obj) (m : M Obj A)
  : M Self (A * Obj) :=
  fun st =>
    match m (obj, st.2) with
    | (Ok a, (obj', s')) => (Ok (a, obj'), (st.1, s'))
    | (Raise sg, (_, s')) => (Raise sg, (st.1, s'))
    end.
End Monad.

Declare Scope py_scope.
Delimit Scope py_scope with py.
Notation "x <- m ;; k" := (bind m (fun x => k))
  (at level 100, m at next level, right associativity) : py_scope.
Notation "m ;;; k" := (bind m (fun _ => k))
  (at level 100, right associativity) : py_scope.
Local Open Scope py_scope.

(** ** [acs_sample.py]: configuration *)

Module ACSConfiguration.
Record t : Type :=
  { connection_string : option string; endpoint : option string }.
End ACSConfiguration.

Section Configuration.
Context {W : Type} {P : Platform W}.
Import ACSConfiguration.

(** [ACSConfiguration._load_from_key_vault] *)
Definition _load_from_key_vault (key_vault_url : string)
  : M (W:=W) ACSConfiguration.t unit :=
  try_except
    (credential <- call CallDefaultAzureCredential DefaultAzureCredential ;;
     secret_client <-
       call (CallSecretClient key_vault_url)
         (new_SecretClient key_vault_url) ;;
     v <- call (CallGetSecret secret_client "acs-connection-string")
            (get_secret_value secret_client "acs-connection-string") ;;
     set_self (fun self =>
       {| connection_string := v; endpoint := endpoint self |}) ;;;
     v <- call (CallGetSecret secret_client "acs-endpoint")
            (get_secret_value secret_client "acs-endpoint") ;;
     set_self (fun self =>
       {| connection_string := connection_string self; endpoint := v |}) ;;;
     print ("✅ Configuration loaded from Key Vault: " +:+ key_vault_url))
    (fun e => print ("⚠️ Could not load from Key Vault: " +:+ exn_str e)).

(** [ACSConfiguration._load_configuration] *)
Definition _load_configuration : M (W:=W) ACSConfiguration.t unit :=
  s <- get_sys ;;
  set_self (fun self =>
    {| connection_string := environ s !! "ACS_CONNECTION_STRING";
       endpoint := endpoint self |}) ;;;
  set_self (fun self =>
    {| connection_string := connection_string self;
       endpoint := environ s !! "ACS_ENDPOINT" |}) ;;;
  self <- get_self ;;
  if negb (truthy_str (connection_string self)) then
    let key_vault_url := environ s !! "KEY_VAULT_URL" in
    if truthy_str key_vault_url then
      _load_from_key_vault (default "" key_vault_url)
    else ret tt
  else ret tt.

(** [ACSConfiguration()]: [__init__] sets both fields to [None] and loads.
    This is the spec's [resolve()]. *)
Definition new_ACSConfiguration {Self} : M (W:=W) Self ACSConfiguration.t :=
  r <- on_object {| connection_string := None; endpoint := None |}
         _load_configuration ;;
  ret r.2.
End Configuration.

(** ** [acs_sample.py]: the three service wrappers *)

(** The failure envelope every [except Exception as e] branch returns. *)
Definition error_envelope (e : exn) : pydict :=
  [("success", VBool false); ("error", VStr (exn_str e))].

(** The envelope of the guard [if not self.chat_client]. *)
Definition not_initialized : pydict :=
  [("success", VBool false); ("error", VStr "Chat client not initialized")].

(** [d[k]] on a dict: [KeyError] when the key is missing. *)
Definition subscript (d : pydict) (k : string) : outcome pyval :=
  match dict_get k d with
  | Some v => Ok v
  | None => Raise (Exception (KeyError k))
  end.

(** [[{"address": addr} for addr in addrs]] *)
Definition addresses (addrs : list string) : pyval :=
  VList (map (fun addr => VDict [("address", VStr addr)]) addrs).

Module SMSService.
Record t : Type := { client : SmsClient.t }.
End SMSService.

Module EmailService.
Record t : Type := { client : EmailClient.t }.
End EmailService.

Module ChatService.
Record t : Type :=
  { endpoint : string;
    identity_client : CommunicationIdentityClient.t;
    chat_client : option ChatClient.t }.
End ChatService.

Section SMS.
Context {W : Type} {P : Platform W}.
Import SMSService.

(** [SMSService(connection_string)] *)
Definition new_SMSService {Self} (connection_string : string)
  : M (W:=W) Self SMSService.t :=
  c <- call (CallSmsClient connection_string)
         (SmsClient_from_connection_string connection_string) ;;
  ret {| client := c |}.

(** [SMSService.send_sms]; the Python defaults are
    [enable_delivery_report=True] and [tag=None]. *)
Definition send_sms (from_number to_number message : string)
    (enable_delivery_report : bool) (tag : option string)
  : M (W:=W) SMSService.t pydict :=
  try_except
    (self <- get_self ;;
     let request :=
       {| from_ := from_number; sms_to := to_number; sms_message := message;
          enable_delivery_report := enable_delivery_report; tag := tag |} in
     response <- call (CallSmsSend (client self) request)
                   (sms_send (client self) request) ;;
     ret [("success", VBool true);
          ("message_id", SmsSendResult.message_id response);
          ("to", SmsSendResult.to response);
          ("http_status_code", SmsSendResult.http_status_code response);
          ("successful", SmsSendResult.successful response)])
    (fun e => ret (error_envelope e)).

(** The loop of [send_bulk_sms]: [results] is the list built so far. *)
Fixpoint send_bulk_sms_loop (from_number : string) (to_numbers : list string)
    (message : string) (enable_delivery_report : bool)
    (results : list pydict) : M (W:=W) SMSService.t (list pydict) :=
  match to_numbers with
  | [] => ret results
  | to_number :: rest =>
      result <-
        send_sms from_number to_number message enable_delivery_report None ;;
      send_bulk_sms_loop from_number rest message enable_delivery_report
        (results ++ [result])
  end.

(** [SMSService.send_bulk_sms]; [enable_delivery_report] defaults to
    [True]. *)
Definition send_bulk_sms (from_number : string) (to_numbers : list string)
    (message : string) (enable_delivery_report : bool)
  : M (W:=W) SMSService.t (list pydict) :=
  send_bulk_sms_loop from_number to_numbers message enable_delivery_report [].
End SMS.

Section Email.
Context {W : Type} {P : Platform W}.
Import EmailService.

(** [EmailService(connection_string)] *)
Definition new_EmailService {Self} (connection_string : string)
  : M (W:=W) Self EmailService.t :=
  c <- call (CallEmailClient connection_string)
         (EmailClient_from_connection_string connection_string) ;;
  ret {| client := c |}.

(** The message dictionary [send_email] builds before the send. *)
Definition email_message (sender_address recipient_address subject body
    : string) (is_html : bool) (cc bcc : option (list string))
    (reply_to : option string) : pydict :=
  let content :=
    if is_html then [("html", VStr body)] else [("plainText", VStr body)] in
  let recipients := [("to", addresses [recipient_address])] in
  let recipients :=
    if truthy_list cc
    then dict_set "cc" (addresses (default [] cc)) recipients
    else recipients in
  let recipients :=
    if truthy_list bcc
    then dict_set "bcc" (addresses (default [] bcc)) recipients
    else recipients in
  let message :=
    [("senderAddress", VStr sender_address);
     ("recipients", VDict recipients);
     ("content", VDict (dict_merge [("subject", VStr subject)] content))] in
  if truthy_str reply_to
  then dict_set "replyTo" (addresses [default "" reply_to]) message
  else message.

(** [EmailService.send_email]; the Python defaults are [is_html=False]
    and [None] for [cc], [bcc] and [reply_to]. *)
Definition send_email (sender_address recipient_address subject body
    : string) (is_html : bool) (cc bcc : option (list string))
    (reply_to : option string) : M (W:=W) EmailService.t pydict :=
  try_except
    (let message :=
       email_message sender_address recipient_address subject body is_html
         cc bcc reply_to in
     self <- get_self ;;
     poller <- call (CallBeginSend (client self) message)
                 (begin_send (client self) message) ;;
     result <- call (CallPollerResult poller) (poller_result poller) ;;
     ret [("success", VBool true);
          ("message_id", VStr (EmailSendResult.id result));
          ("status", VStr (EmailSendResult.status result))])
    (fun e => ret (error_envelope e)).

(** [EmailService.send_html_email] *)
Definition send_html_email (sender_address recipient_address subject
    html_body : string) : M (W:=W) EmailService.t pydict :=
  send_email sender_address recipient_address subject html_body true
    None None None.
End Email.

Section Chat.
Context {W : Type} {P : Platform W}.
Import ChatService.

(** [ChatService(endpoint, connection_string)]: the chat client handle
    starts out as [None]. *)
Definition new_ChatService {Self} (endpoint connection_string : string)
  : M (W:=W) Self ChatService.t :=
  c <- call (CallIdentityClient connection_string)
         (CommunicationIdentityClient_from_connection_string
            connection_string) ;;
  ret {| endpoint := endpoint; identity_client := c; chat_client := None |}.

(** [ChatService.create_user_and_token] *)
Definition create_user_and_token : M (W:=W) ChatService.t pydict :=
  try_except
    (self <- get_self ;;
     r <- call (CallCreateUserAndToken (identity_client self) ["chat"])
            (identity_create_user_and_token (identity_client self)
               ["chat"]) ;;
     let user := r.1 in
     let token_response := r.2 in
     user_id <-
       lift (subscript (CommunicationUserIdentifier.properties user) "id") ;;
     expires_on <-
       lift (call_isoformat (AccessToken.expires_on token_response)) ;;
     ret [("success", VBool true);
          ("user_id", user_id);
          ("token", AccessToken.token token_response);
          ("expires_on", VStr expires_on)])
    (fun e => ret (error_envelope e)).

(** [ChatService.initialize_chat_client]: no [try]; a failing constructor
    propagates and leaves the handle as it was. *)
Definition initialize_chat_client (access_token : pyval)
  : M (W:=W) ChatService.t unit :=
  credential <- call (CallTokenCredential access_token)
                  (new_CommunicationTokenCredential access_token) ;;
  self <- get_self ;;
  c <- call (CallChatClient (endpoint self) credential)
         (new_ChatClient (endpoint self) credential) ;;
  set_self (fun self =>
    {| endpoint := endpoint self;
       identity_client := identity_client self;
       chat_client := Some c |}).

(** The participants list of [create_chat_thread]:
    [display_name=f"User-{i+1}"] for the [i]-th id. *)
Definition participants_of (participant_ids : list string)
  : list ChatParticipant.t :=
  imap (fun i user_id =>
          {| ChatParticipant.identifier :=
               {| CommunicationUserIdentifier.properties :=
                    [("id", VStr user_id)] |};
             ChatParticipant.display_name := "User-" +:+ pretty (i + 1)%nat |})
       participant_ids.

(** [ChatService.create_chat_thread] *)
Definition create_chat_thread (topic : string) (participant_ids : list string)
  : M (W:=W) ChatService.t pydict :=
  self <- get_self ;;
  match chat_client self with
  | None => ret not_initialized
  | Some chat_client =>
      try_except
        (let participants := participants_of participant_ids in
         result <- call (CallCreateChatThread chat_client topic participants)
                     (chat_create_chat_thread chat_client topic
                        participants) ;;
         let chat_thread := CreateChatThreadResult.chat_thread result in
         ret [("success", VBool true);
              ("thread_id", ChatThreadProperties.id chat_thread);
              ("topic", ChatThreadProperties.topic chat_thread);
              ("created_on",
               VStr (isoformat
                       (ChatThreadProperties.created_on chat_thread)))])
        (fun e => ret (error_envelope e))
  end.

(** [ChatService.send_message]; [sender_display_name] defaults to
    ["User"]. *)
Definition send_message (thread_id content sender_display_name : string)
  : M (W:=W) ChatService.t pydict :=
  self <- get_self ;;
  match chat_client self with
  | None => ret not_initialized
  | Some chat_client =>
      try_except
        (thread_client <-
           call (CallGetChatThreadClient chat_client thread_id)
             (get_chat_thread_client chat_client thread_id) ;;
         let request :=
           {| chat_content := content;
              sender_display_name := sender_display_name;
              chat_message_type := "text" |} in
         result <- call (CallSendMessage thread_client request)
                     (thread_send_message thread_client request) ;;
         now <- tick CallUtcNow utcnow ;;
         ret [("success", VBool true);
              ("message_id", SendChatMessageResult.id result);
              ("sent_at", VStr (isoformat now))])
        (fun e => ret (error_envelope e))
  end.

(** [message.content.message if message.content else None] *)
Definition message_content (message : pyval) : outcome pyval :=
  and_then (getattr message "content") (fun content =>
  if truthy content then getattr content "message" else Ok VNone).

(** [message.sender_communication_identifier.properties.get("id")
    if message.sender_communication_identifier else None] *)
Definition message_sender_id (message : pyval) : outcome pyval :=
  and_then (getattr message "sender_communication_identifier") (fun sender =>
  if truthy sender then
    and_then (getattr sender "properties") (fun properties =>
    call_get properties "id")
  else Ok VNone).

(** [message.created_on.isoformat() if message.created_on else None] *)
Definition message_created_on (message : pyval) : outcome pyval :=
  and_then (getattr message "created_on") (fun created_on =>
  if truthy created_on then
    and_then (call_isoformat created_on) (fun iso => Ok (VStr iso))
  else Ok VNone).

(** The dictionary [get_messages] appends for one message; the five values
    are computed in the order of the literal, and the first read that raises
    ends the rendering. *)
Definition message_dict (message : pyval) : outcome pydict :=
  and_then (getattr message "id") (fun id =>
  and_then (getattr message "type") (fun type =>
  and_then (message_content message) (fun content =>
  and_then (message_sender_id message) (fun sender_id =>
  and_then (message_created_on message) (fun created_on =>
  Ok [("id", id);
      ("type", type);
      ("content", content);
      ("sender_id", sender_id);
      ("created_on", created_on)]))))).

(** The loop of [get_messages] over the lazy sequence: [break] as soon as
    [len(messages) >= max_messages], tested after the pull; a pull or a
    rendering that raises ends the loop with the exception. *)
Fixpoint collect_messages (max_messages : Z)
    (pulls : list (reply pyval)) (messages : list pyval)
  : outcome (list pyval) :=
  match pulls with
  | [] => Ok messages
  | Throws e :: _ => Raise (Exception e)
  | Returns message :: rest =>
      if (max_messages <=? Z.of_nat (length messages))%Z then Ok messages
      else
        match message_dict message with
        | Ok d => collect_messages max_messages rest (messages ++ [VDict d])
        | Raise sg => Raise sg
        end
  end.

(** [ChatService.get_messages]; [max_messages] defaults to [20]. *)
Definition get_messages (thread_id : string) (max_messages : Z)
  : M (W:=W) ChatService.t pydict :=
  self <- get_self ;;
  match chat_client self with
  | None => ret not_initialized
  | Some chat_client =>
      try_except
        (thread_client <-
           call (CallGetChatThreadClient chat_client thread_id)
             (get_chat_thread_client chat_client thread_id) ;;
         pulls <- call (CallListMessages thread_client)
                    (list_messages thread_client) ;;
         messages <- lift (collect_messages max_messages pulls []) ;;
         ret [("success", VBool true);
              ("messages", VList messages);
              ("count", VInt (Z.of_nat (length messages)))])
        (fun e => ret (error_envelope e))
  end.

(** *** Sequences of chat-session operations *)

Inductive chat_op : Type :=
| CreateUserAndToken
| InitializeChatClient (access_token : pyval)
| CreateChatThread (topic : string) (participant_ids : list string)
| SendMessage (thread_id content sender_display_name : string)
| GetMessages (thread_id : string) (max_messages : Z).

(** One method call on the session; the caller drops the result and, for
    [initialize_chat_client], survives a raised exception. *)
Definition chat_step (op : chat_op) (st : ChatService.t * Sys W)
  : ChatService.t * Sys W :=
  match op with
  | CreateUserAndToken => (create_user_and_token st).2
  | InitializeChatClient access_token =>
      (initialize_chat_client access_token st).2
  | CreateChatThread topic participant_ids =>
      (create_chat_thread topic participant_ids st).2
  | SendMessage thread_id content sender_display_name =>
      (send_message thread_id content sender_display_name st).2
  | GetMessages thread_id max_messages =>
      (get_messages thread_id max_messages st).2
  end.

Definition chat_run (ops : list chat_op) (st : ChatService.t * Sys W)
  : ChatService.t * Sys W :=
  fold_left (fun st op => chat_step op st) ops st.
End Chat.

(** ** [test_email.py] *)

(** The double quote and the newline, for the literals of the script. *)
Definition dq : string := String "034"%char EmptyString.
Definition nl : string := String "010"%char EmptyString.

Definition sender_domain : string :=
  "ded12d28-4098-4503-9e93-c1ef110d16f1.azurecomm.net".

Definition test_plain_text : string :=
  String.concat nl
    ["Hello!"; "";
     "This is a test email from Azure Communication Services."; "";
     "Your ACS deployment is working correctly!"; "";
     "Best regards,"; "ACS Sample Application"].

Definition test_html : string :=
  String.concat nl
    [""; "            <html>";
     "                <body style=" +:+ dq
       +:+ "font-family: Arial, sans-serif; padding: 20px;" +:+ dq +:+ ">";
     "                    <h1 style=" +:+ dq +:+ "color: #0078d4;" +:+ dq
       +:+ ">Azure Communication Services</h1>";
     "                    <p>Hello!</p>";
     "                    <p>This is a test email from "
       +:+ "<strong>Azure Communication Services</strong>.</p>";
     "                    <p style=" +:+ dq +:+ "color: green;" +:+ dq
       +:+ ">✅ Your ACS deployment is working correctly!</p>";
     "                    <hr>";
     "                    <p style=" +:+ dq
       +:+ "color: gray; font-size: 12px;" +:+ dq +:+ ">";
     "                        Sent from: ACS Sample Application<br>";
     "                        Resource: acs-acssoln-dev-lvhkfz";
     "                    </p>";
     "                </body>";
     "            </html>";
     "            "].

(** The message dictionary of [send_test_email]. *)
Definition test_message (recipient_email : string) : pydict :=
  [("senderAddress", VStr ("DoNotReply@" +:+ sender_domain));
   ("recipients", VDict [("to", addresses [recipient_email])]);
   ("content",
    VDict [("subject", VStr "Azure Communication Services - Test Email");
           ("plainText", VStr test_plain_text);
           ("html", VStr test_html)])].

Definition usage_lines : list string :=
  ["Usage: python test_email.py <recipient_email>";
   "Example: python test_email.py your.email@example.com"].

(** The exit status of the interpreter: [0] when the script runs to its end,
    the code of [sys.exit], [1] after an uncaught exception. *)
Definition exit_status {A} (o : outcome A) : Z :=
  match o with
  | Ok _ => 0
  | Raise (SystemExit code) => code
  | Raise (Exception _) => 1
  end.

Section Script.
Context {W : Type} {P : Platform W}.

(** [send_test_email]; [connection_string] is the module-level global read
    from the environment when the script starts. *)
Definition send_test_email (connection_string : option string)
    (recipient_email : string) : M (W:=W) unit unit :=
  if negb (truthy_str connection_string) then
    print "❌ ACS_CONNECTION_STRING environment variable not set"
  else
    client <- call (CallEmailClient (default "" connection_string))
                (EmailClient_from_connection_string
                   (default "" connection_string)) ;;
    let message := test_message recipient_email in
    print ("📧 Sending test email to: " +:+ recipient_email) ;;;
    print ("   From: DoNotReply@" +:+ sender_domain) ;;;
    try_except
      (poller <- call (CallBeginSend client message)
                   (begin_send client message) ;;
       result <- call (CallPollerResult poller) (poller_result poller) ;;
       print "✅ Email sent successfully!" ;;;
       print ("   Message ID: " +:+ EmailSendResult.id result) ;;;
       print ("   Status: " +:+ EmailSendResult.status result))
      (fun e => print ("❌ Failed to send email: " +:+ exn_str e)).

(** The script, top to bottom: the module-level read of the environment,
    then the [if __name__ == "__main__"] block. *)
Definition test_email_script : M (W:=W) unit unit :=
  s <- get_sys ;;
  let connection_string := environ s !! "ACS_CONNECTION_STRING" in
  (if (length (argv s) <? 2)%nat then
     print "Usage: python test_email.py <recipient_email>" ;;;
     print "Example: python test_email.py your.email@example.com" ;;;
     raise (SystemExit 1)
   else ret tt) ;;;
  match argv s !! 1%nat with
  | Some recipient => send_test_email connection_string recipient
  | None => raise (Exception (Exn "IndexError" "list index out of range"))
  end.
End Script.

(** ** A scripted platform, to run the model on concrete inputs

    The collaborator state is the script: which secrets the store holds
    (any other name raises), what a thread's message listing yields, and how
    many SMS the gateway accepted so far.  The gateway rejects a recipient
    that does not start with [+]; with [numbered] it numbers the message ids
    it hands out, so that its replies depend on its history. *)

Record Scripted : Type :=
  { secrets : gmap string string;
    thread_pulls : list (reply pyval);
    accepted : nat }.

Definition scripted_sms_send (numbered : bool) (c : SmsClient.t)
    (r : sms_request) (w : Scripted) : reply SmsSendResult.t * Scripted :=
  if String.prefix "+" (sms_to r) then
    (Returns
       {| SmsSendResult.message_id :=
            VStr (if numbered then "sms-" +:+ pretty (accepted w) else "sms");
          SmsSendResult.to := VStr (sms_to r);
          SmsSendResult.http_status_code := VInt 202;
          SmsSendResult.successful := VBool true |},
     {| secrets := secrets w; thread_pulls := thread_pulls w;
        accepted := S (accepted w) |})
  else
    (Throws (Exn "HttpResponseError" ("Invalid recipient " +:+ sms_to r)), w).

Definition epoch : datetime := {| isoformat := "1970-01-01T00:00:00" |}.

Definition scripted (numbered : bool) : Platform Scripted :=
  {| DefaultAzureCredential w := (Returns tt, w);
     new_SecretClient url w := (Returns {| SecretClient.vault_url := url |}, w);
     get_secret_value c name w :=
       (match secrets w !! name with
        | Some v => Returns (Some v)
        | None => Throws (Exn "ResourceNotFoundError" "SecretNotFound")
        end, w);
     SmsClient_from_connection_string cs w :=
       (Returns {| SmsClient.connection_string := cs |}, w);
     sms_send := scripted_sms_send numbered;
     EmailClient_from_connection_string cs w :=
       (Returns {| EmailClient.connection_string := cs |}, w);
     begin_send c message w := (Returns {| LROPoller.operation := "op-1" |}, w);
     poller_result p w :=
       (Returns {| EmailSendResult.id := LROPoller.operation p;
                   EmailSendResult.status := "Succeeded" |}, w);
     CommunicationIdentityClient_from_connection_string cs w :=
       (Returns {| CommunicationIdentityClient.connection_string := cs |}, w);
     identity_create_user_and_token c scopes w :=
       (Returns
          ({| CommunicationUserIdentifier.properties :=
                [("id", VStr "8:acs:user-1")] |},
           {| AccessToken.token := VStr "token-1";
              AccessToken.expires_on := VDatetime epoch |}), w);
     new_CommunicationTokenCredential tok w :=
       (Returns {| CommunicationTokenCredential.token := tok |}, w);
     new_ChatClient ep cred w :=
       (Returns {| ChatClient.endpoint := ep; ChatClient.credential := cred |},
        w);
     chat_create_chat_thread c topic ps w :=
       (Returns
          {| CreateChatThreadResult.chat_thread :=
               {| ChatThreadProperties.id := VStr "thread-1";
                  ChatThreadProperties.topic := VStr topic;
                  ChatThreadProperties.created_on := epoch |} |}, w);
     get_chat_thread_client c tid w :=
       (Returns {| ChatThreadClient.client := c;
                   ChatThreadClient.thread_id := tid |}, w);
     thread_send_message tc r w :=
       (Returns {| SendChatMessageResult.id := VStr "m-1" |}, w);
     list_messages tc w := (Returns (thread_pulls w), w);
     utcnow w := (epoch, w) |}.

#[local] Instance scripted_platform : Platform Scripted := scripted true.

(** A bare text message with the given id, carrying the attributes
    [get_messages] reads. *)
Definition text_message (n : Z) : pyval :=
  VObj "ChatMessage"
    [("id", VInt n);
     ("type", VStr "text");
     ("content", VObj "ChatMessageContent" [("message", VStr "hi")]);
     ("sender_communication_identifier", VNone);
     ("created_on", VDatetime epoch)].

(** The rendering of [text_message n]. *)
Definition text_dict (n : Z) : pydict :=
  [("id", VInt n); ("type", VStr "text"); ("content", VStr "hi");
   ("sender_id", VNone); ("created_on", VStr "1970-01-01T00:00:00")].

(** A text message with the attributes of the chat SDK's public
    [ChatMessage] class: the sender is under [sender], and there is no
    [sender_communication_identifier]. *)
Definition sdk_message (n : Z) : pyval :=
  VObj "ChatMessage"
    [("id", VInt n);
     ("type", VStr "text");
     ("sequence_id", VInt n);
     ("version", VInt n);
     ("content", VObj "ChatMessageContent" [("message", VStr "hi")]);
     ("sender_display_name", VStr "User");
     ("created_on", VDatetime epoch);
     ("sender",
      VObj "CommunicationUserIdentifier"
        [("properties", VDict [("id", VStr "8:acs:user-1")])]);
     ("deleted_on", VNone);
     ("edited_on", VNone);
     ("metadata", VNone)].

Definition scripted_world : Scripted :=
  {| secrets := {["acs-connection-string" := "endpoint=https://kv;accesskey=k"]};
     thread_pulls := map (fun n => Returns (text_message n)) [1; 2; 3; 4; 5]%Z;
     accepted := 0 |}.

(** A process on the scripted platform with the given environment and
    arguments, no call made and nothing printed yet. *)
Definition boot (env : gmap string string) (args : list string) : Sys Scripted :=
  {| world := scripted_world; environ := env; argv := args;
     calls := []; stdout := [] |}.

(** ** The properties, as predicates *)

(** A result envelope is well shaped: [success] is present and boolean, and
    [error] is a key exactly when [success] is [False]. *)
Definition envelope_ok (d : pydict) : Prop :=
  ∃ b : bool,
    dict_get "success" d = Some (VBool b) ∧ (has_key "error" d ↔ b = false).

(** The success envelope of [get_messages] for the rendered [messages]. *)
Definition messages_envelope (messages : list pyval) : pydict :=
  [("success", VBool true);
   ("messages", VList messages);
   ("count", VInt (Z.of_nat (length messages)))].

Section Properties.
Context {W : Type} {P : Platform W}.

(** The operation returns (it does not raise), and what it returns is a
    well-shaped envelope. *)
Definition returns_envelope {Self} (m : M (W:=W) Self pydict) : Prop :=
  ∀ st, ∃ d st', m st = (Ok d, st') ∧ envelope_ok d.

(** The receiver and process state after [send_sms] was called for each of
    [to_numbers] in turn. *)
Definition after_sends (from_number : string) (to_numbers : list string)
    (message : string) (enable_delivery_report : bool)
    (st : SMSService.t * Sys W) : SMSService.t * Sys W :=
  fold_left
    (fun st to_number =>
       (send_sms from_number to_number message enable_delivery_report None
          st).2)
    to_numbers st.

(** The request [send_sms] hands to the transport for one recipient of a
    bulk send. *)
Definition bulk_request (from_number message : string)
    (enable_delivery_report : bool) (to_number : string) : sms_request :=
  {| from_ := from_number; sms_to := to_number; sms_message := message;
     enable_delivery_report := enable_delivery_report; tag := None |}.

(** The replies of the SMS transport do not depend on its history. *)
Definition sms_history_free : Prop :=
  ∀ c r (w w' : W), (sms_send c r w).1 = (sms_send c r w').1.

(** Some access of the fallback lookup fails: [lookup_fails url w e got w']
    says that, from collaborator state [w], the first failing access raises
    [e] and leaves the collaborators in [w']; [got] is [Some v] when the
    connection secret [v] had been fetched before the failure (so the failing
    access is the endpoint's), and [None] when no secret was fetched. *)
Inductive lookup_fails (url : string) (w : W)
  : exn -> option (option string) -> W -> Prop :=
| credential_fails e w1 :
    DefaultAzureCredential w = (Throws e, w1) ->
    lookup_fails url w e None w1
| client_fails u e w1 w2 :
    DefaultAzureCredential w = (Returns u, w1) ->
    new_SecretClient url w1 = (Throws e, w2) ->
    lookup_fails url w e None w2
| connection_secret_fails u c e w1 w2 w3 :
    DefaultAzureCredential w = (Returns u, w1) ->
    new_SecretClient url w1 = (Returns c, w2) ->
    get_secret_value c "acs-connection-string" w2 = (Throws e, w3) ->
    lookup_fails url w e None w3
| endpoint_secret_fails u c v e w1 w2 w3 w4 :
    DefaultAzureCredential w = (Returns u, w1) ->
    new_SecretClient url w1 = (Returns c, w2) ->
    get_secret_value c "acs-connection-string" w2 = (Returns v, w3) ->
    get_secret_value c "acs-endpoint" w3 = (Throws e, w4) ->
    lookup_fails url w e (Some v) w4.
End Properties.

(** The operations other than [initialize_chat_client]. *)
Definition is_initialize (op : chat_op) : bool :=
  match op with
  | InitializeChatClient _ => true
  | _ => false
  end.

(** A session object as [ChatService.__init__] leaves it, and the same
    session with a chat client. *)
Definition fresh_session : ChatService.t :=
  {| ChatService.endpoint := "https://acs.example";
     ChatService.identity_client :=
       {| CommunicationIdentityClient.connection_string := "cs" |};
     ChatService.chat_client := None |}.

Definition some_client : ChatClient.t :=
  {| ChatClient.endpoint := "https://acs.example";
     ChatClient.credential :=
       {| CommunicationTokenCredential.token := VStr "token-1" |} |}.

Definition ready_session : ChatService.t :=
  {| ChatService.endpoint := "https://acs.example";
     ChatService.identity_client :=
       {| CommunicationIdentityClient.connection_string := "cs" |};
     ChatService.chat_client := Some some_client |}.

Definition sms_service : SMSService.t :=
  {| SMSService.client := {| SmsClient.connection_string := "cs" |} |}.

Definition other_client : ChatClient.t :=
  {| ChatClient.endpoint := "https://acs.example";
     ChatClient.credential :=
       {| CommunicationTokenCredential.token := VStr "token-2" |} |}.

(** Three recipients, the second of which the scripted gateway rejects. *)
Definition three_recipients : list string :=
  ["+14255550124"; "4255550125"; "+14255550126"].

(** Environments: the connection secret alone; the endpoint alone; the
    endpoint and the location of the secret store. *)
Definition secret_only : gmap string string :=
  {["ACS_CONNECTION_STRING" := "endpoint=https://x;accesskey=y"]}.

Definition endpoint_only : gmap string string :=
  {["ACS_ENDPOINT" := "https://acs.example"]}.

Definition endpoint_and_vault : gmap string string :=
  <["KEY_VAULT_URL" := "https://kv.example"]>
    {["ACS_ENDPOINT" := "https://acs.example"]}.

(** What the scripted store raises for a secret it does not hold. *)
Definition secret_not_found : exn :=
  Exn "ResourceNotFoundError" "SecretNotFound".

(** ** [acs_sample.py]: the demo driver *)

(** ['=' * 60] *)
Definition rule60 : string :=
  "============================================================".

Definition banner : string :=
  "" +:+ nl
  +:+ "    ╔═══════════════════════════════════════════════════════════╗" +:+ nl
  +:+ "    ║   Azure Communication Services - Python Sample            ║" +:+ nl
  +:+ "    ╚═══════════════════════════════════════════════════════════╝" +:+ nl
  +:+ "    ".

Definition not_configured_lines : list string :=
  ["❌ Error: ACS_CONNECTION_STRING not configured";
   "   Set the environment variable or KEY_VAULT_URL"].

Definition sms_demo_lines : list string :=
  ["📱 SMS Service initialized";
   "   To send SMS, you need:";
   "   1. A provisioned phone number in ACS";
   "   2. Valid recipient phone number";
   "";
   "   Example usage:";
   "   result = sms_service.send_sms(";
   "       from_number=" +:+ dq +:+ "+14255550123" +:+ dq +:+ ",";
   "       to_number=" +:+ dq +:+ "+14255550124" +:+ dq +:+ ",";
   "       message=" +:+ dq +:+ "Hello from ACS!" +:+ dq;
   "   )"].

Definition email_demo_lines : list string :=
  ["📧 Email Service initialized";
   "   To send email, you need:";
   "   1. An Email Communication Service resource";
   "   2. A verified domain (Azure-managed or custom)";
   "";
   "   Example usage:";
   "   result = email_service.send_email(";
   "       sender_address=" +:+ dq +:+ "DoNotReply@your-domain.azurecomm.net"
     +:+ dq +:+ ",";
   "       recipient_address=" +:+ dq +:+ "user@example.com" +:+ dq +:+ ",";
   "       subject=" +:+ dq +:+ "Welcome!" +:+ dq +:+ ",";
   "       body=" +:+ dq +:+ "Hello from Azure Communication Services!" +:+ dq;
   "   )"].

Definition summary_lines : list string :=
  ["Available Services:";
   "   ✅ SMS Service - Send text messages";
   "   ✅ Email Service - Send transactional emails";
   "   ✅ Chat Service - Real-time messaging";
   "";
   "Next Steps:";
   "   1. Provision phone numbers for SMS/Voice";
   "   2. Link email domain to Communication Services";
   "   3. Implement Event Grid webhooks for delivery reports";
   "   4. Integrate with your application";
   "";
   "Documentation: https://learn.microsoft.com/azure/communication-services/"].

Definition no_endpoint_line : string :=
  "⚠️ Chat Service requires ACS_ENDPOINT to be set".

Section Main.
Context {W : Type} {P : Platform W}.

(** Python's built-ins on an arbitrary value, which [main] applies to
    fields of the identity envelope: [str(v)] as an f-string formats it, and
    the slice [v[:50]], which raises on a value that cannot be sliced. *)
Variable py_str : pyval -> string.
Variable py_slice50 : pyval -> outcome pyval.

(** A run of consecutive [print] calls, one per line. *)
Fixpoint print_lines {Self} (lines : list string) : M (W:=W) Self unit :=
  match lines with
  | [] => ret tt
  | line :: rest => print line ;;; print_lines rest
  end.

(** [print_section] *)
Definition print_section {Self} (title : string) : M (W:=W) Self unit :=
  print (nl +:+ rule60) ;;;
  print ("  " +:+ title) ;;;
  print (rule60 +:+ nl).

(** The chat part of [main], run when [config.endpoint] is truthy. *)
Definition main_chat (endpoint connection_string : string)
  : M (W:=W) unit unit :=
  chat_service <- new_ChatService endpoint connection_string ;;
  print "💬 Chat Service initialized" ;;;
  print "" ;;;
  print "Creating chat user..." ;;;
  r <- on_object chat_service create_user_and_token ;;
  let user_result := r.1 in
  let chat_service := r.2 in
  success <- lift (subscript user_result "success") ;;
  if truthy success then
    user_id <- lift (subscript user_result "user_id") ;;
    head <- lift (py_slice50 user_id) ;;
    print ("   ✅ User created: " +:+ py_str head +:+ "...") ;;;
    expires_on <- lift (subscript user_result "expires_on") ;;
    print ("   ✅ Token expires: " +:+ py_str expires_on) ;;;
    token <- lift (subscript user_result "token") ;;
    _ <- on_object chat_service (initialize_chat_client token) ;;
    print "   ✅ Chat client initialized"
  else
    error <- lift (subscript user_result "error") ;;
    print ("   ❌ Error: " +:+ py_str error).

(** [main] *)
Definition main : M (W:=W) unit unit :=
  print banner ;;;
  config <- new_ACSConfiguration ;;
  if negb (truthy_str (ACSConfiguration.connection_string config)) then
    print_lines not_configured_lines
  else
    let connection_string :=
      default "" (ACSConfiguration.connection_string config) in
    print "✅ Configuration loaded" ;;;
    print ("   Endpoint: "
           +:+ (if truthy_str (ACSConfiguration.endpoint config)
                then default "" (ACSConfiguration.endpoint config)
                else "Using connection string")) ;;;
    print_section "SMS Service Demo" ;;;
    sms_service <- new_SMSService connection_string ;;
    print_lines sms_demo_lines ;;;
    print_section "Email Service Demo" ;;;
    email_service <- new_EmailService connection_string ;;
    print_lines email_demo_lines ;;;
    print_section "Chat Service Demo" ;;;
    (if truthy_str (ACSConfiguration.endpoint config) then
       main_chat (default "" (ACSConfiguration.endpoint config))
         connection_string
     else print no_endpoint_line) ;;;
    print_section "Summary" ;;;
    print_lines summary_lines.
End Main.

(** The three lines [print_section] prints. *)
Definition section_lines (title : string) : list string :=
  [nl +:+ rule60; "  " +:+ title; rule60 +:+ nl].

(** A logged call that puts a message on the wire or reads a thread: an SMS
    send, an email send or its poll, a thread creation, a thread client, a
    chat send, a listing. *)
Definition is_traffic (c : Call) : bool :=
  match c with
  | CallSmsSend _ _ | CallBeginSend _ _ | CallPollerResult _
  | CallCreateChatThread _ _ _ | CallGetChatThreadClient _ _
  | CallSendMessage _ _ | CallListMessages _ => true
  | _ => false
  end.

(** A logged call on the chat transport client. *)
Definition is_chat_call (c : Call) : bool :=
  match c with
  | CallCreateChatThread _ _ _ | CallGetChatThreadClient _ _
  | CallSendMessage _ _ | CallListMessages _ => true
  | _ => false
  end.

(** The process state [s] after the collaborators moved to [w], the calls
    [cs] were logged and the lines [out] were printed. *)
Definition emit {W} (s : Sys W) (w : W) (cs : list Call) (out : list string)
  : Sys W :=
  {| world := w; environ := environ s; argv := argv s;
     calls := calls s ++ cs; stdout := stdout s ++ out |}.

(** Every collaborator call a computation logs satisfies [ok]: the call
    log only grows, and by calls of that kind. *)
Definition only_calls {W Self A} (ok : Call -> bool) (m : M (W:=W) Self A)
  : Prop :=
  ∀ st, ∃ cs,
    calls (m st).2.2 = calls st.2 ++ cs ∧ Forall (fun c => ok c = true) cs.

(** ** A platform with an injected fault

    As the scripted platform, except that the operation at the site that is
    down, if any, raises [service_down] instead of answering, and that the
    identity service hands out a user with the given properties and a token
    with the given expiry. *)

Inductive site : Type :=
| AtVault
| AtSmsClient
| AtEmailClient
| AtBeginSend
| AtPoller
| AtIdentityClient
| AtIdentity
| AtCredential
| AtChatClient
| AtThreadClient
| AtSendMessage.

Definition site_code (x : site) : nat :=
  match x with
  | AtVault => 0
  | AtSmsClient => 1
  | AtEmailClient => 2
  | AtBeginSend => 3
  | AtPoller => 4
  | AtIdentityClient => 5
  | AtIdentity => 6
  | AtCredential => 7
  | AtChatClient => 8
  | AtThreadClient => 9
  | AtSendMessage => 10
  end.

(** The exception the injected fault raises. *)
Definition service_down : exn := Exn "HttpResponseError" "Service unavailable".

Definition or_fault {A} (down : option site) (x : site) (r : reply A)
  : reply A :=
  match down with
  | Some y => if Nat.eqb (site_code y) (site_code x)
              then Throws service_down else r
  | None => r
  end.

Definition faulty_with (down : option site) (properties : pydict)
    (expiry : pyval) : Platform Scripted :=
  {| DefaultAzureCredential w := (or_fault down AtVault (Returns tt), w);
     new_SecretClient url w := (Returns {| SecretClient.vault_url := url |}, w);
     get_secret_value c name w :=
       (match secrets w !! name with
        | Some v => Returns (Some v)
        | None => Throws (Exn "ResourceNotFoundError" "SecretNotFound")
        end, w);
     SmsClient_from_connection_string cs w :=
       (or_fault down AtSmsClient
          (Returns {| SmsClient.connection_string := cs |}), w);
     sms_send := scripted_sms_send true;
     EmailClient_from_connection_string cs w :=
       (or_fault down AtEmailClient
          (Returns {| EmailClient.connection_string := cs |}), w);
     begin_send c message w :=
       (or_fault down AtBeginSend
          (Returns {| LROPoller.operation := "op-1" |}), w);
     poller_result p w :=
       (or_fault down AtPoller
          (Returns {| EmailSendResult.id := LROPoller.operation p;
                      EmailSendResult.status := "Succeeded" |}), w);
     CommunicationIdentityClient_from_connection_string cs w :=
       (or_fault down AtIdentityClient
          (Returns {| CommunicationIdentityClient.connection_string := cs |}),
        w);
     identity_create_user_and_token c scopes w :=
       (or_fault down AtIdentity
          (Returns
             ({| CommunicationUserIdentifier.properties := properties |},
              {| AccessToken.token := VStr "token-1";
                 AccessToken.expires_on := expiry |})), w);
     new_CommunicationTokenCredential tok w :=
       (or_fault down AtCredential
          (Returns {| CommunicationTokenCredential.token := tok |}), w);
     new_ChatClient ep cred w :=
       (or_fault down AtChatClient
          (Returns {| ChatClient.endpoint := ep;
                      ChatClient.credential := cred |}), w);
     chat_create_chat_thread c topic ps w :=
       (Returns
          {| CreateChatThreadResult.chat_thread :=
               {| ChatThreadProperties.id := VStr "thread-1";
                  ChatThreadProperties.topic := VStr topic;
                  ChatThreadProperties.created_on := epoch |} |}, w);
     get_chat_thread_client c tid w :=
       (or_fault down AtThreadClient
          (Returns {| ChatThreadClient.client := c;
                      ChatThreadClient.thread_id := tid |}), w);
     thread_send_message tc r w :=
       (or_fault down AtSendMessage
          (Returns {| SendChatMessageResult.id := VStr "m-1" |}), w);
     list_messages tc w := (Returns (thread_pulls w), w);
     utcnow w := (epoch, w) |}.

Definition faulty (down : option site) (properties : pydict)
  : Platform Scripted :=
  faulty_with down properties (VDatetime epoch).

(** The properties of the user the scripted identity service hands out. *)
Definition scripted_user : pydict := [("id", VStr "8:acs:user-1")].

(** A platform on which every collaborator answers and the identity service
    issues a token whose [expires_on] is a string. *)
Definition string_expiry : Platform Scripted :=
  faulty_with None scripted_user (VStr "2026-01-01T00:00:00+00:00").

(** A collaborator state whose thread listing yields five messages of the
    SDK's shape. *)
Definition sdk_listing : Scripted :=
  {| secrets := ∅;
     thread_pulls := map (fun n => Returns (sdk_message n)) [1; 2; 3; 4; 5]%Z;
     accepted := 0 |}.

(** A collaborator state whose store holds both secrets, and one whose
    thread listing yields two messages and then fails. *)
Definition full_vault : Scripted :=
  {| secrets :=
       <["acs-endpoint" := "https://kv-acs.example"]>
         {["acs-connection-string" := "endpoint=https://kv;accesskey=k"]};
     thread_pulls := [];
     accepted := 0 |}.

Definition broken_listing : Scripted :=
  {| secrets := ∅;
     thread_pulls :=
       [Returns (text_message 1); Returns (text_message 2);
        Throws service_down; Returns (text_message 4)];
     accepted := 0 |}.

(** A process on the given collaborator state. *)
Definition boot_on (w : Scripted) (env : gmap string string)
    (args : list string) : Sys Scripted :=
  {| world := w; environ := env; argv := args; calls := []; stdout := [] |}.

Definition email_service : EmailService.t :=
  {| EmailService.client := {| EmailClient.connection_string := "cs" |} |}.

Definition thread_1 : ChatThreadClient.t :=
  {| ChatThreadClient.client := some_client;
     ChatThreadClient.thread_id := "thread-1" |}.

(** The command line of the test script with a recipient. *)
Definition with_recipient : list string :=
  ["test_email.py"; "user@example.com"].

(** Environments: the connection secret and the endpoint; only the location
    of the secret store. *)
Definition secret_and_endpoint : gmap string string :=
  <["ACS_ENDPOINT" := "https://acs.example"]>
    {["ACS_CONNECTION_STRING" := "endpoint=https://x;accesskey=y"]}.

Definition vault_only : gmap string string :=
  {["KEY_VAULT_URL" := "https://kv.example"]}.

(** Stand-ins for Python's formatting and slicing, exact on ASCII strings
    (the only values the scripted platforms put in an envelope field that
    [main] formats). *)
Definition ascii_str (v : pyval) : string :=
  match v with
  | VStr s => s
  | VNone => "None"
  | VBool true => "True"
  | VBool false => "False"
  | VInt n => pretty n
  | VList _ => "[...]"
  | VDict _ => "{...}"
  | VDatetime d => isoformat d
  | VObj cls _ => "<" +:+ cls +:+ ">"
  end.

Definition ascii_slice50 (v : pyval) : outcome pyval :=
  match v with
  | VStr s => Ok (VStr (String.substring 0 50 s))
  | VList l => Ok (VList (take 50 l))
  | _ => Raise (Exception (Exn "TypeError" "object is not subscriptable"))
  end.

(** ** Proofs *)

(** Unfold the monad and run the code up to the next collaborator reply. *)
Ltac unfold_monad :=
  unfold bind, ret, raise, try_except, get_self, set_self, get_sys, print,
    call, tick, lift, on_object in *.

(** Case on the reply of the next collaborator call in the goal. *)
Ltac next_reply :=
  match goal with
  | |- context [match (?f ?w).1 with Returns _ => _ | Throws _ => _ end] =>
      let a := fresh "a" in
      let e := fresh "e" in
      let w' := fresh "w" in
      destruct (f w) as [[a | e] w'] eqn:?; cbn [fst snd]
  end.

Ltac run := unfold_monad; cbn [fst snd]; repeat next_reply.

Lemma error_envelope_ok (e : exn) : envelope_ok (error_envelope e).
Proof.
  exists false. split; [reflexivity |].
  split; [reflexivity | intros _; unfold has_key; eauto].
Qed.

Lemma not_initialized_ok : envelope_ok not_initialized.
Proof.
  exists false. split; [reflexivity |].
  split; [reflexivity | intros _; unfold has_key; eauto].
Qed.

(** A dictionary that starts with [success: True] and has no [error] key
    further on is a well-shaped envelope. *)
Lemma success_envelope_ok (rest : pydict) :
  dict_get "error" rest = None ->
  envelope_ok (("success", VBool true) :: rest).
Proof.
  intros Hrest. exists true. split; [reflexivity |].
  unfold has_key. cbn. rewrite Hrest.
  split; [intros [v Hv]; discriminate | discriminate].
Qed.

Create HintDb envelope.
#[local] Hint Resolve error_envelope_ok not_initialized_ok success_envelope_ok
  : envelope.

(** The reads of the program raise [Exception]s only. *)
Lemma getattr_raise v name sg :
  getattr v name = Raise sg -> ∃ e, sg = Exception e.
Proof.
  destruct v; cbn; try (intros [= <-]; eauto).
  destruct (dict_get name attrs); [discriminate | intros [= <-]; eauto].
Qed.

Lemma call_get_raise v k sg :
  call_get v k = Raise sg -> ∃ e, sg = Exception e.
Proof.
  destruct v; cbn; try discriminate; try (intros [= <-]; eauto).
  destruct (dict_get "get" attrs); intros [= <-]; eauto.
Qed.

Lemma call_isoformat_raise v sg :
  call_isoformat v = Raise sg -> ∃ e, sg = Exception e.
Proof.
  destruct v; cbn; try discriminate; try (intros [= <-]; eauto).
  destruct (dict_get "isoformat" attrs); intros [= <-]; eauto.
Qed.

(** Case on the next fallible read of a rendering. *)
Ltac next_read :=
  match goal with
  | |- context [and_then (getattr ?v ?n) _] =>
      let H := fresh "Hread" in
      destruct (getattr v n) eqn:H; cbn [and_then];
      [| apply getattr_raise in H as [? ->]]
  | |- context [and_then (call_get ?v ?n) _] =>
      let H := fresh "Hread" in
      destruct (call_get v n) eqn:H; cbn [and_then];
      [| apply call_get_raise in H as [? ->]]
  | |- context [and_then (call_isoformat ?v) _] =>
      let H := fresh "Hread" in
      destruct (call_isoformat v) eqn:H; cbn [and_then];
      [| apply call_isoformat_raise in H as [? ->]]
  | |- context [if truthy ?v then _ else _] => destruct (truthy v)
  end.

Lemma message_dict_raise message sg :
  message_dict message = Raise sg -> ∃ e, sg = Exception e.
Proof.
  unfold message_dict, message_content, message_sender_id,
    message_created_on.
  repeat next_read; first [discriminate | intros [= <-]; eauto | idtac].
  all: try (intros H; apply getattr_raise in H; exact H).
  all: try (intros H; apply call_get_raise in H; exact H).
Qed.

(** The loop of [get_messages] raises nothing but [Exception]s: what a pull
    raised, or what a rendering raised. *)
Lemma collect_messages_raise max_messages pulls messages sg :
  collect_messages max_messages pulls messages = Raise sg ->
  ∃ e, sg = Exception e.
Proof.
  revert messages. induction pulls as [| [m | e] rest IH]; intros messages;
    cbn [collect_messages].
  - discriminate.
  - destruct (max_messages <=? _)%Z; [discriminate |].
    destruct (message_dict m) as [d | sg'] eqn:Hd; [apply IH |].
    intros [= <-]. by apply message_dict_raise in Hd.
  - intros [= <-]. eauto.
Qed.

Section EnvelopeProofs.
Context {W : Type} {P : Platform W}.

Lemma send_sms_returns_envelope from_number to_number message edr tag :
  returns_envelope
    (send_sms (W:=W) from_number to_number message edr tag).
Proof.
  intros [self s]. unfold send_sms. run; eauto 6 with envelope.
Qed.

Lemma send_email_returns_envelope sender recipient subject body is_html cc
    bcc reply_to :
  returns_envelope
    (send_email (W:=W) sender recipient subject body is_html cc bcc
       reply_to).
Proof.
  intros [self s]. unfold send_email. run; eauto 6 with envelope.
Qed.

Lemma create_user_and_token_returns_envelope :
  returns_envelope (create_user_and_token (W:=W)).
Proof.
  intros [self s]. unfold create_user_and_token, subscript. run.
  - destruct (dict_get "id" _); [| eauto 6 with envelope].
    destruct (call_isoformat _) as [iso | sg] eqn:Hiso;
      [eauto 6 with envelope |].
    apply call_isoformat_raise in Hiso as [e' ->]. eauto 6 with envelope.
  - eauto 6 with envelope.
Qed.

Lemma create_chat_thread_returns_envelope topic participant_ids :
  returns_envelope (create_chat_thread (W:=W) topic participant_ids).
Proof.
  intros [self s]. unfold create_chat_thread. unfold_monad. cbn [fst snd].
  destruct (ChatService.chat_client self); [| eauto 6 with envelope].
  run; eauto 6 with envelope.
Qed.

Lemma send_message_returns_envelope thread_id content name :
  returns_envelope (send_message (W:=W) thread_id content name).
Proof.
  intros [self s]. unfold send_message. unfold_monad. cbn [fst snd].
  destruct (ChatService.chat_client self); [| eauto 6 with envelope].
  run; eauto 6 with envelope.
Qed.

Lemma get_messages_returns_envelope thread_id max_messages :
  returns_envelope (get_messages (W:=W) thread_id max_messages).
Proof.
  intros [self s]. unfold get_messages. unfold_monad. cbn [fst snd].
  destruct (ChatService.chat_client self); [| eauto 6 with envelope].
  run; try solve [eauto 6 with envelope].
  destruct (collect_messages _ _ _) as [messages | sg] eqn:Hc;
    [eauto 6 with envelope |].
  apply collect_messages_raise in Hc as [e' ->]. eauto 6 with envelope.
Qed.
End EnvelopeProofs.

(** C1. For each of the six externally-facing operations ([send_sms],
    [send_email], [create_user_and_token], [create_chat_thread],
    [send_message], [get_messages]), for every argument, every receiver,
    every process state and every behaviour of the collaborators, the
    operation returns a dictionary in which [success] is present and boolean
    and [error] is a key if and only if [success] is [False]. *)
Theorem envelope_invariant {W : Type} {P : Platform W} :
  (∀ from_number to_number message edr tag,
     returns_envelope (send_sms (W:=W) from_number to_number message edr tag))
  ∧ (∀ sender recipient subject body is_html cc bcc reply_to,
       returns_envelope
         (send_email (W:=W) sender recipient subject body is_html cc bcc
            reply_to))
  ∧ returns_envelope (create_user_and_token (W:=W))
  ∧ (∀ topic participant_ids,
       returns_envelope (create_chat_thread (W:=W) topic participant_ids))
  ∧ (∀ thread_id content name,
       returns_envelope (send_message (W:=W) thread_id content name))
  ∧ (∀ thread_id max_messages,
       returns_envelope (get_messages (W:=W) thread_id max_messages)).
Proof.
  repeat split; intros.
  - apply send_sms_returns_envelope.
  - apply send_email_returns_envelope.
  - apply create_user_and_token_returns_envelope.
  - apply create_chat_thread_returns_envelope.
  - apply send_message_returns_envelope.
  - apply get_messages_returns_envelope.
Qed.

(** C2. When the session's chat client handle is [None], each of
    [create_chat_thread], [send_message] and [get_messages] returns exactly
    [{"success": False, "error": "Chat client not initialized"}] for every
    argument, and leaves the receiver and the whole process state as they
    were: no collaborator is called (the call log is unchanged), nothing is
    printed. *)
Theorem chat_guard_without_client {W : Type} {P : Platform W}
    (self : ChatService.t) (s : Sys W) :
  ChatService.chat_client self = None ->
  (∀ topic participant_ids,
     create_chat_thread topic participant_ids (self, s)
     = (Ok not_initialized, (self, s)))
  ∧ (∀ thread_id content name,
       send_message thread_id content name (self, s)
       = (Ok not_initialized, (self, s)))
  ∧ (∀ thread_id max_messages,
       get_messages thread_id max_messages (self, s)
       = (Ok not_initialized, (self, s))).
Proof.
  intros Hnone. repeat split; intros;
    unfold create_chat_thread, send_message, get_messages;
    unfold_monad; cbn [fst snd]; rewrite Hnone; reflexivity.
Qed.

Section BulkProofs.
Context {W : Type} {P : Platform W}.
Variables (from_number message : string) (edr : bool).

(** One [send_sms]: it returns, keeps the receiver, and logs exactly the
    one transport call. *)
Lemma send_sms_effect to_number tag (st : SMSService.t * Sys W) :
  ∃ d,
    (send_sms from_number to_number message edr tag st).1 = Ok d
    ∧ (send_sms from_number to_number message edr tag st).2.1 = st.1
    ∧ calls (send_sms from_number to_number message edr tag st).2.2
      = calls st.2
          ++ [CallSmsSend (SMSService.client st.1)
                {| from_ := from_number; sms_to := to_number;
                   sms_message := message; enable_delivery_report := edr;
                   tag := tag |}].
Proof.
  destruct st as [self s]. unfold send_sms. run; eauto.
Qed.

(** With a transport whose replies ignore its history, the envelope of
    [send_sms] depends on the receiver only. *)
Lemma send_sms_history_free to_number tag self (s s' : Sys W) :
  sms_history_free (W:=W) ->
  (send_sms from_number to_number message edr tag (self, s)).1
  = (send_sms from_number to_number message edr tag (self, s')).1.
Proof.
  intros Hfree. unfold send_sms. unfold_monad. cbn [fst snd].
  set (r := {| from_ := from_number |}).
  specialize (Hfree (SMSService.client self) r (world s) (world s')).
  destruct (sms_send _ r (world s)) as [[a | e] w1];
    destruct (sms_send _ r (world s')) as [[a' | e'] w2];
    cbn [fst snd] in *; congruence.
Qed.

Lemma after_sends_cons to_number rest (st : SMSService.t * Sys W) :
  after_sends from_number (to_number :: rest) message edr st
  = after_sends from_number rest message edr
      (send_sms from_number to_number message edr None st).2.
Proof. reflexivity. Qed.

Lemma after_sends_self to_numbers (st : SMSService.t * Sys W) :
  (after_sends from_number to_numbers message edr st).1 = st.1.
Proof.
  revert st. induction to_numbers as [| to_number rest IH]; intros st;
    [reflexivity |].
  rewrite after_sends_cons, IH.
  destruct (send_sms_effect to_number None st) as (d & _ & Hself & _).
  exact Hself.
Qed.

Lemma after_sends_calls to_numbers (st : SMSService.t * Sys W) :
  calls (after_sends from_number to_numbers message edr st).2
  = calls st.2
      ++ map (fun to_number =>
                CallSmsSend (SMSService.client st.1)
                  (bulk_request from_number message edr to_number))
           to_numbers.
Proof.
  revert st. induction to_numbers as [| to_number rest IH]; intros st.
  - cbn. by rewrite app_nil_r.
  - rewrite after_sends_cons, IH. cbn [map].
    destruct (send_sms_effect to_number None st) as (d & _ & Hself & Hcalls).
    rewrite Hself, Hcalls, <- app_assoc. reflexivity.
Qed.

(** The loop appends one envelope per recipient to what it was given. *)
Lemma send_bulk_sms_loop_spec to_numbers results
    (st : SMSService.t * Sys W) :
  ∃ new,
    send_bulk_sms_loop from_number to_numbers message edr results st
    = (Ok (results ++ new), after_sends from_number to_numbers message edr st)
    ∧ length new = length to_numbers
    ∧ ∀ (i : nat) to_number,
        to_numbers !! i = Some to_number ->
        ∃ d, new !! i = Some d
             ∧ (send_sms from_number to_number message edr None
                  (after_sends from_number (take i to_numbers) message edr
                     st)).1 = Ok d.
Proof.
  revert results st.
  induction to_numbers as [| to_number rest IH]; intros results st.
  - exists []. cbn. rewrite app_nil_r. repeat split. intros i t Hi.
    by rewrite lookup_nil in Hi.
  - destruct (send_sms_effect to_number None st) as (d & Hd & _).
    destruct (send_sms from_number to_number message edr None st)
      as [o st1] eqn:Hsend.
    cbn [fst] in Hd. subst o.
    destruct (IH (results ++ [d]) st1) as (new & Hloop & Hlen & Hnth).
    exists (d :: new). split; [| split].
    + rewrite after_sends_cons.
      cbn [send_bulk_sms_loop]. unfold bind at 1.
      rewrite Hsend. cbn [snd]. rewrite Hloop, <- app_assoc. reflexivity.
    + cbn. by rewrite Hlen.
    + intros [| i] t Hi; cbn in Hi.
      * injection Hi as <-. exists d. cbn. by rewrite Hsend.
      * destruct (Hnth i t Hi) as (d' & Hd' & Hiso).
        exists d'. split; [exact Hd' |].
        cbn [take]. rewrite after_sends_cons. by rewrite Hsend.
Qed.
End BulkProofs.

(** C3. [send_bulk_sms(from, [n1..nk], msg)] returns (it never raises) an
    ordered list of exactly [k] envelopes, for every [k] including [0].  Its
    [i]-th element is the envelope [send_sms(from, n_i, msg)] produces when
    called on its own at the point the loop reaches it (after the sends to
    the recipients before it); when the replies of the SMS transport do not
    depend on its history, that is the envelope [send_sms(from, n_i, msg)]
    produces from the initial state.  The transport is called once per
    recipient, in order, whatever the earlier envelopes were: a failed
    envelope does not stop the loop. *)
Theorem send_bulk_sms_pointwise {W : Type} {P : Platform W}
    (from_number : string) (to_numbers : list string) (message : string)
    (edr : bool) (st : SMSService.t * Sys W) :
  ∃ results,
    send_bulk_sms from_number to_numbers message edr st
    = (Ok results, after_sends from_number to_numbers message edr st)
    ∧ length results = length to_numbers
    ∧ (∀ (i : nat) to_number,
         to_numbers !! i = Some to_number ->
         ∃ d, results !! i = Some d
              ∧ (send_sms from_number to_number message edr None
                   (after_sends from_number (take i to_numbers) message edr
                      st)).1 = Ok d)
    ∧ calls (after_sends from_number to_numbers message edr st).2
      = calls st.2
          ++ map (fun to_number =>
                    CallSmsSend (SMSService.client st.1)
                      (bulk_request from_number message edr to_number))
               to_numbers
    ∧ (sms_history_free (W:=W) ->
       ∀ (i : nat) to_number,
         to_numbers !! i = Some to_number ->
         ∃ d, results !! i = Some d
              ∧ (send_sms from_number to_number message edr None st).1 = Ok d).
Proof.
  destruct (send_bulk_sms_loop_spec from_number message edr to_numbers [] st)
    as (results & Hrun & Hlen & Hnth).
  exists results. repeat split; try assumption.
  - apply after_sends_calls.
  - intros Hfree i to_number Hi.
    destruct (Hnth i to_number Hi) as (d & Hd & Hiso).
    exists d. split; [exact Hd |].
    rewrite <- Hiso.
    pose proof (after_sends_self from_number message edr
                  (take i to_numbers) st) as Hself.
    destruct (after_sends from_number (take i to_numbers) message edr st)
      as [self' s'].
    destruct st as [self s]. cbn [fst] in Hself. subst self'.
    by apply send_sms_history_free.
Qed.

Section ConfigurationProofs.
Context {W : Type} {P : Platform W} {Self : Type}.

(** Without the fallback, resolution is the two environment reads and
    nothing else. *)
Lemma resolve_without_fallback (self : Self) (s : Sys W) :
  truthy_str (environ s !! "ACS_CONNECTION_STRING") = true
  ∨ truthy_str (environ s !! "KEY_VAULT_URL") = false ->
  new_ACSConfiguration (self, s)
  = (Ok {| ACSConfiguration.connection_string :=
             environ s !! "ACS_CONNECTION_STRING";
           ACSConfiguration.endpoint := environ s !! "ACS_ENDPOINT" |},
     (self, s)).
Proof.
  intros Hcase. unfold new_ACSConfiguration, _load_configuration.
  unfold_monad. cbn [fst snd ACSConfiguration.connection_string].
  destruct Hcase as [-> | Hkv]; cbn [negb]; [reflexivity |].
  rewrite Hkv. by destruct (negb _).
Qed.
End ConfigurationProofs.

(** C4. When [ACS_CONNECTION_STRING] is set to a non-empty value [v],
    [ACSConfiguration()] returns a configuration whose connection secret is
    [v] unchanged and whose endpoint is whatever [ACS_ENDPOINT] holds,
    whether or not [KEY_VAULT_URL] is set; the process state is returned as
    it was, so the secret store is not consulted (the call log is unchanged).
    With only [ACS_CONNECTION_STRING] set, the endpoint is absent. *)
Theorem environment_secret_wins {W : Type} {P : Platform W} {Self : Type}
    (self : Self) (s : Sys W) (v : string) :
  environ s !! "ACS_CONNECTION_STRING" = Some v ->
  v ≠ "" ->
  ∃ cfg,
    new_ACSConfiguration (self, s) = (Ok cfg, (self, s))
    ∧ ACSConfiguration.connection_string cfg = Some v
    ∧ ACSConfiguration.endpoint cfg = environ s !! "ACS_ENDPOINT"
    ∧ (environ s = {["ACS_CONNECTION_STRING" := v]} ->
       ACSConfiguration.endpoint cfg = None).
Proof.
  intros Hv Hne. eexists. split; [| split; [| split]].
  - apply resolve_without_fallback. left. rewrite Hv. cbn.
    destruct (String.eqb_spec v ""); [contradiction | reflexivity].
  - exact Hv.
  - reflexivity.
  - intros ->. cbn [ACSConfiguration.endpoint]. by rewrite lookup_singleton_ne.
Qed.

(** C5, as the code has it.  When neither [ACS_CONNECTION_STRING] nor
    [KEY_VAULT_URL] is set, [ACSConfiguration()] does not raise and returns
    a configuration whose connection secret is absent and whose endpoint is
    whatever [ACS_ENDPOINT] holds (absent when that variable is unset too);
    no collaborator is called. *)
Theorem unset_secret_and_store {W : Type} {P : Platform W} {Self : Type}
    (self : Self) (s : Sys W) :
  environ s !! "ACS_CONNECTION_STRING" = None ->
  environ s !! "KEY_VAULT_URL" = None ->
  new_ACSConfiguration (self, s)
  = (Ok {| ACSConfiguration.connection_string := None;
           ACSConfiguration.endpoint := environ s !! "ACS_ENDPOINT" |},
     (self, s)).
Proof.
  intros Hcs Hkv.
  rewrite resolve_without_fallback by (right; rewrite Hkv; reflexivity).
  by rewrite Hcs.
Qed.

(** C6, as the code has it.  When the fallback lookup runs (the connection
    secret from the environment is absent or empty and [KEY_VAULT_URL] is
    set and non-empty) and some access of it raises [e],
    [ACSConfiguration()] does not raise: it prints the warning line with
    [str(e)] and returns a configuration in which every field whose fetch
    did not complete keeps the value read from the environment.  The
    endpoint is always [ACS_ENDPOINT]'s value; the connection secret is the
    fetched one when only the endpoint's fetch failed, and the environment's
    (absent or empty) otherwise. *)
Theorem key_vault_failure_recovered {W : Type} {P : Platform W} {Self : Type}
    (self : Self) (s : Sys W) (url : string) (e : exn)
    (got : option (option string)) (w' : W) :
  truthy_str (environ s !! "ACS_CONNECTION_STRING") = false ->
  environ s !! "KEY_VAULT_URL" = Some url ->
  url ≠ "" ->
  lookup_fails url (world s) e got w' ->
  ∃ s',
    new_ACSConfiguration (self, s)
    = (Ok {| ACSConfiguration.connection_string :=
               match got with
               | Some v => v
               | None => environ s !! "ACS_CONNECTION_STRING"
               end;
             ACSConfiguration.endpoint := environ s !! "ACS_ENDPOINT" |},
       (self, s'))
    ∧ world s' = w'
    ∧ stdout s' = stdout s ++ ["⚠️ Could not load from Key Vault: " +:+ exn_str e].
Proof.
  intros Hcs Hkv Hne Hfail.
  unfold new_ACSConfiguration, _load_configuration, _load_from_key_vault.
  unfold_monad. cbn [fst snd ACSConfiguration.connection_string].
  rewrite Hcs, Hkv. cbn [negb truthy_str from_option id].
  destruct (String.eqb_spec url ""); [contradiction |]. cbn [negb].
  destruct Hfail as [e w1 H1 | u e w1 w2 H1 H2 | u c e w1 w2 w3 H1 H2 H3
                    | u c v e w1 w2 w3 w4 H1 H2 H3 H4];
    cbn [world fst snd]; rewrite H1; cbn [world fst snd];
    try (rewrite H2; cbn [world fst snd]);
    try (rewrite H3; cbn [world fst snd]);
    try (rewrite H4; cbn [world fst snd]);
    eexists; (split; [reflexivity | split; reflexivity]).
Qed.

(** The loop of [get_messages] over messages that render and fit under the
    cap: it appends their renderings and goes on with the rest of the
    sequence. *)
Lemma collect_messages_rendered (max_messages : Z) (msgs : list pyval)
    (ds : list pydict) (rest : list (reply pyval)) (messages : list pyval) :
  Forall2 (fun m d => message_dict m = Ok d) msgs ds ->
  (Z.of_nat (length messages) + Z.of_nat (length msgs) <= max_messages)%Z ->
  collect_messages max_messages (map Returns msgs ++ rest) messages
  = collect_messages max_messages rest (messages ++ map VDict ds).
Proof.
  intros Hds. revert messages.
  induction Hds as [| m d msgs ds Hd _ IH]; intros messages Hlen.
  - cbn. by rewrite app_nil_r.
  - cbn [map app collect_messages]. cbn [length] in Hlen.
    destruct (Z.leb_spec max_messages (Z.of_nat (length messages))); [lia |].
    rewrite Hd, IH by (rewrite length_app; cbn [length]; lia).
    by rewrite <- app_assoc.
Qed.

(** A message whose [sender_communication_identifier] cannot be read does
    not render: the rendering raises, and it raises that read's exception
    when the three reads before it succeed. *)
Lemma message_dict_unreadable_sender (message : pyval) (e0 : exn) :
  getattr message "sender_communication_identifier" = Raise (Exception e0) ->
  ∃ e,
    message_dict message = Raise (Exception e)
    ∧ ∀ i t cv,
        getattr message "id" = Ok i ->
        getattr message "type" = Ok t ->
        message_content message = Ok cv ->
        e = e0.
Proof.
  intros Hsender. unfold message_dict.
  destruct (getattr message "id") as [i | sg] eqn:Hid; cbn [and_then].
  2: { apply getattr_raise in Hid as [e ->]. exists e.
       split; [reflexivity | discriminate]. }
  destruct (getattr message "type") as [t | sg] eqn:Htype; cbn [and_then].
  2: { apply getattr_raise in Htype as [e ->]. exists e.
       split; [reflexivity | intros ? ? ? _ [=]]. }
  destruct (message_content message) as [cv | sg] eqn:Hcontent;
    cbn [and_then].
  2: { assert (∃ e, sg = Exception e) as [e ->].
       { revert Hcontent. unfold message_content.
         destruct (getattr message "content") as [content | sg'] eqn:Hc;
           cbn [and_then].
         - destruct (truthy content); [apply getattr_raise | discriminate].
         - intros [= <-]. by apply getattr_raise in Hc. }
       exists e. split; [reflexivity | intros ? ? ? _ _ [=]]. }
  unfold message_sender_id. rewrite Hsender. cbn [and_then].
  exists e0. by split.
Qed.

(** With a cap that is already reached, the loop stops at the first pull,
    provided that pull does not raise. *)
Lemma collect_messages_capped (max_messages : Z)
    (pulls : list (reply pyval)) (messages : list pyval) :
  (max_messages <= Z.of_nat (length messages))%Z ->
  (∀ e rest, pulls ≠ Throws e :: rest) ->
  collect_messages max_messages pulls messages = Ok messages.
Proof.
  intros Hcap Hfirst. destruct pulls as [| [m | e] rest]; cbn.
  - reflexivity.
  - destruct (Z.leb_spec max_messages (Z.of_nat (length messages)));
      [reflexivity | lia].
  - by destruct (Hfirst e rest).
Qed.

Section ChatProofs.
Context {W : Type} {P : Platform W}.

(** [get_messages] with a chat client whose thread listing is obtained:
    the envelope is decided by the loop over the pulls. *)
Lemma get_messages_listing (self : ChatService.t) (s : Sys W) c thread_id
    max_messages tc pulls w1 w2 :
  ChatService.chat_client self = Some c ->
  get_chat_thread_client c thread_id (world s) = (Returns tc, w1) ->
  list_messages tc w1 = (Returns pulls, w2) ->
  ∃ s',
    get_messages thread_id max_messages (self, s)
    = (match collect_messages max_messages pulls [] with
       | Ok messages => Ok (messages_envelope messages)
       | Raise (Exception e) => Ok (error_envelope e)
       | Raise sg => Raise sg
       end, (self, s')).
Proof.
  intros Hc Htc Hlist. unfold get_messages. unfold_monad. cbn [fst snd].
  rewrite Hc. cbn [world fst snd]. rewrite Htc. cbn [world fst snd].
  rewrite Hlist. cbn [world fst snd].
  destruct (collect_messages max_messages pulls []) as [ms | [e | code]];
    eexists; reflexivity.
Qed.

(** What [get_messages] can return: the guard's envelope, a failure
    envelope, or the success envelope of some list of messages. *)
Lemma get_messages_cases thread_id max_messages
    (st : ChatService.t * Sys W) :
  ∃ d st',
    get_messages thread_id max_messages st = (Ok d, st')
    ∧ (d = not_initialized
       ∨ (∃ e, d = error_envelope e)
       ∨ (∃ messages, d = messages_envelope messages)).
Proof.
  destruct st as [self s]. unfold get_messages. unfold_monad. cbn [fst snd].
  destruct (ChatService.chat_client self); [| eauto 6].
  run; try solve [eauto 8].
  destruct (collect_messages _ _ _) as [messages | sg] eqn:Hc;
    [eauto 8 |].
  apply collect_messages_raise in Hc as [e' ->]. eauto 8.
Qed.

(** The five envelope operations never touch the receiver. *)
Lemma envelope_ops_keep_self (op : chat_op) (st : ChatService.t * Sys W) :
  is_initialize op = false -> (chat_step op st).1 = st.1.
Proof.
  destruct st as [self s].
  destruct op; cbn [is_initialize chat_step]; try discriminate; intros _.
  - unfold create_user_and_token, subscript. run;
      try destruct (dict_get "id" _);
      try destruct (call_isoformat _) as [iso | [e' | code]]; reflexivity.
  - unfold create_chat_thread. unfold_monad. cbn [fst snd].
    destruct (ChatService.chat_client self); [| reflexivity].
    run; reflexivity.
  - unfold send_message. unfold_monad. cbn [fst snd].
    destruct (ChatService.chat_client self); [| reflexivity].
    run; reflexivity.
  - unfold get_messages. unfold_monad. cbn [fst snd].
    destruct (ChatService.chat_client self); [| reflexivity].
    run; try reflexivity.
    destruct (collect_messages _ _ _) as [ms | [e' | code]]; reflexivity.
Qed.

(** [initialize_chat_client] either assigns the client it constructed or,
    when a constructor raises, leaves the receiver as it was. *)
Lemma initialize_effect access_token (self : ChatService.t) (s : Sys W) :
  (∃ cred w1 c w2,
      new_CommunicationTokenCredential access_token (world s)
      = (Returns cred, w1)
      ∧ new_ChatClient (ChatService.endpoint self) cred w1 = (Returns c, w2)
      ∧ ChatService.chat_client
          (chat_step (InitializeChatClient access_token) (self, s)).1
        = Some c)
  ∨ (chat_step (InitializeChatClient access_token) (self, s)).1 = self.
Proof.
  cbn [chat_step]. unfold initialize_chat_client. unfold_monad.
  cbn [fst snd world].
  destruct (new_CommunicationTokenCredential access_token (world s))
    as [[cred | e] w1] eqn:Hcred; cbn [fst snd world]; [| by right].
  destruct (new_ChatClient (ChatService.endpoint self) cred w1)
    as [[c | e] w2] eqn:Hclient; cbn [fst snd world]; [| by right].
  left. exists cred, w1, c, w2. by rewrite Hclient.
Qed.

Lemma chat_step_keeps_client (op : chat_op) (st : ChatService.t * Sys W) :
  is_Some (ChatService.chat_client st.1) ->
  is_Some (ChatService.chat_client (chat_step op st).1).
Proof.
  intros Hset. destruct (is_initialize op) eqn:Hop.
  - destruct op; try discriminate. destruct st as [self s].
    destruct (initialize_effect access_token self s)
      as [(cred & w1 & c & w2 & _ & _ & ->) | ->]; [eauto | exact Hset].
  - by rewrite envelope_ops_keep_self.
Qed.
End ChatProofs.

(** C7, where the code departs from it.  On a session with a chat client,
    for every cap [k >= 1]: when the thread client and the listing are
    obtained and the first message pulled has no readable
    [sender_communication_identifier] attribute, [get_messages] does not
    return the messages: the read at the rendering of that first message
    raises inside the [try] and the result is a failure envelope, which
    carries that read's exception when the reads of [id], [type] and the
    content before it succeed. *)
Theorem get_messages_unreadable_sender {W : Type} {P : Platform W}
    (self : ChatService.t) (s : Sys W) (c : ChatClient.t)
    (thread_id : string) (k : Z) (message : pyval)
    (rest : list (reply pyval)) (tc : ChatThreadClient.t) (w1 w2 : W)
    (e0 : exn) :
  ChatService.chat_client self = Some c ->
  (1 <= k)%Z ->
  get_chat_thread_client c thread_id (world s) = (Returns tc, w1) ->
  list_messages tc w1 = (Returns (Returns message :: rest), w2) ->
  getattr message "sender_communication_identifier" = Raise (Exception e0) ->
  ∃ e,
    (get_messages thread_id k (self, s)).1 = Ok (error_envelope e)
    ∧ ∀ i t cv,
        getattr message "id" = Ok i ->
        getattr message "type" = Ok t ->
        message_content message = Ok cv ->
        e = e0.
Proof.
  intros Hc Hk Htc Hlist Hsender.
  destruct (get_messages_listing self s c thread_id k tc _ w1 w2 Hc Htc Hlist)
    as [s' ->].
  destruct (message_dict_unreadable_sender message e0 Hsender)
    as (e & Hd & He).
  exists e. split; [| exact He].
  cbn [collect_messages length fst].
  destruct (Z.leb_spec k (Z.of_nat 0)); [lia |]. by rewrite Hd.
Qed.

(** C10. Every success envelope [get_messages] returns has a [messages]
    list and a [count] equal to its length.  And for every cap [k <= 0], on
    a session with a chat client, when the thread client and the listing are
    obtained and the first pull of the iteration (the only one made) does
    not raise, [get_messages] returns the success envelope with an empty
    [messages] list and [count] 0. *)
Theorem get_messages_count {W : Type} {P : Platform W} :
  (∀ thread_id max_messages (st st' : ChatService.t * Sys W) d,
     get_messages thread_id max_messages st = (Ok d, st') ->
     dict_get "success" d = Some (VBool true) ->
     ∃ messages,
       dict_get "messages" d = Some (VList messages)
       ∧ dict_get "count" d = Some (VInt (Z.of_nat (length messages))))
  ∧ (∀ (self : ChatService.t) (s : Sys W) c thread_id (k : Z) tc pulls w1 w2,
       ChatService.chat_client self = Some c ->
       (k <= 0)%Z ->
       get_chat_thread_client c thread_id (world s) = (Returns tc, w1) ->
       list_messages tc w1 = (Returns pulls, w2) ->
       (∀ e rest, pulls ≠ Throws e :: rest) ->
       ∃ s',
         get_messages thread_id k (self, s)
         = (Ok [("success", VBool true); ("messages", VList []);
                ("count", VInt 0)],
            (self, s'))).
Proof.
  split.
  - intros thread_id max_messages st st' d Hrun Hsuccess.
    destruct (get_messages_cases thread_id max_messages st)
      as (d' & st'' & Hrun' & Hcases).
    rewrite Hrun in Hrun'. injection Hrun' as <- <-.
    destruct Hcases as [-> | [[e ->] | [messages ->]]]; try discriminate.
    exists messages. split; reflexivity.
  - intros self s c thread_id k tc pulls w1 w2 Hc Hk Htc Hlist Hfirst.
    destruct (get_messages_listing self s c thread_id k tc _ w1 w2 Hc Htc Hlist)
      as [s' Hrun].
    exists s'. rewrite Hrun, collect_messages_capped; [reflexivity | | done].
    cbn. lia.
Qed.

(** C8, as the code has it.  Once the chat client handle is set, it is set
    after every further sequence of session operations, whatever the
    collaborators do: there is no way back to the uninitialised session.
    Every operation other than [initialize_chat_client] leaves the session
    object as it was; every call of [initialize_chat_client] whose two
    constructors return assigns the handle (again). *)
Theorem chat_client_stays_set {W : Type} {P : Platform W} :
  (∀ (ops : list chat_op) (st : ChatService.t * Sys W),
     is_Some (ChatService.chat_client st.1) ->
     is_Some (ChatService.chat_client (chat_run ops st).1))
  ∧ (∀ (op : chat_op) (st : ChatService.t * Sys W),
       is_initialize op = false -> (chat_step op st).1 = st.1)
  ∧ (∀ access_token (self : ChatService.t) (s : Sys W) cred w1 c w2,
       new_CommunicationTokenCredential access_token (world s)
       = (Returns cred, w1) ->
       new_ChatClient (ChatService.endpoint self) cred w1 = (Returns c, w2) ->
       ChatService.chat_client
         (chat_step (InitializeChatClient access_token) (self, s)).1
       = Some c).
Proof.
  repeat split.
  - intros ops. induction ops as [| op rest IH]; intros st Hset;
      [exact Hset |].
    cbn [chat_run fold_left]. apply IH. by apply chat_step_keeps_client.
  - apply envelope_ops_keep_self.
  - intros access_token self s cred w1 c w2 Hcred Hclient.
    cbn [chat_step]. unfold initialize_chat_client. unfold_monad.
    cbn [fst snd world]. rewrite Hcred. cbn [fst snd world].
    rewrite Hclient. reflexivity.
Qed.

(** C9. Run with no positional argument ([sys.argv] shorter than two
    entries), [test_email.py] prints the two usage lines and exits through
    [sys.exit(1)], a non-zero status, without any collaborator call: no
    email client is built and nothing is sent.  Run with one positional
    argument, it goes on to [send_test_email] with that argument as the
    recipient. *)
Theorem test_email_cli {W : Type} {P : Platform W} :
  (∀ s : Sys W,
     (length (argv s) < 2)%nat ->
     ∃ s',
       test_email_script (tt, s) = (Raise (SystemExit 1), (tt, s'))
       ∧ exit_status (test_email_script (tt, s)).1 ≠ 0%Z
       ∧ stdout s' = stdout s ++ usage_lines
       ∧ calls s' = calls s
       ∧ world s' = world s)
  ∧ (∀ (s : Sys W) script recipient,
       argv s = [script; recipient] ->
       test_email_script (tt, s)
       = send_test_email (environ s !! "ACS_CONNECTION_STRING") recipient
           (tt, s)).
Proof.
  split.
  - intros s Hargs. unfold test_email_script. unfold_monad. cbn [fst snd].
    destruct (Nat.ltb_spec (length (argv s)) 2) as [_ | Hge]; [| lia].
    cbn [fst snd stdout calls world exit_status].
    eexists. split; [reflexivity |].
    cbn [stdout calls world]. rewrite <- app_assoc.
    repeat split; discriminate.
  - intros s script recipient Hargs. unfold test_email_script. unfold_monad.
    cbn [fst snd]. rewrite Hargs. cbn.
    by destruct (send_test_email _ recipient ((), s)) as [[] ?].
Qed.

(** ** The theorems on concrete runs *)

(** C2 on the scripted platform: a session fresh from [__init__] asked for
    the messages of a thread. *)
Lemma chat_guard_without_client_run :
  ChatService.chat_client fresh_session = None
  ∧ get_messages "thread-1" 20 (fresh_session, boot ∅ [])
    = (Ok [("success", VBool false);
           ("error", VStr "Chat client not initialized")],
       (fresh_session, boot ∅ [])).
Proof.
  split; [reflexivity |].
  apply (chat_guard_without_client fresh_session (boot ∅ []) eq_refl).
Defined.

(** C3 on the scripted platform: three recipients, the second rejected; the
    third is still sent to, and gets the second message id handed out. *)
Lemma send_bulk_sms_pointwise_run :
  three_recipients !! 2%nat = Some "+14255550126"
  ∧ sms_history_free (P:=scripted false)
  ∧ ∃ results d,
      (send_bulk_sms "+14255550123" three_recipients "Hello" true
         (sms_service, boot ∅ [])).1 = Ok results
      ∧ length results = 3%nat
      ∧ results !! 2%nat = Some d
      ∧ d = [("success", VBool true); ("message_id", VStr "sms-1");
             ("to", VStr "+14255550126"); ("http_status_code", VInt 202);
             ("successful", VBool true)]
      ∧ ∃ plain,
          (send_bulk_sms (P:=scripted false) "+14255550123" three_recipients
             "Hello" true (sms_service, boot ∅ [])).1 = Ok plain
          ∧ plain !! 2%nat
            = Some [("success", VBool true); ("message_id", VStr "sms");
                    ("to", VStr "+14255550126"); ("http_status_code", VInt 202);
                    ("successful", VBool true)].
Proof.
  split; [reflexivity |].
  assert (Hfree : sms_history_free (P:=scripted false)).
  { intros c r w w'. cbn. unfold scripted_sms_send.
    by destruct (String.prefix "+" (sms_to r)). }
  split; [exact Hfree |].
  destruct (send_bulk_sms_pointwise "+14255550123" three_recipients "Hello"
              true (sms_service, boot ∅ []))
    as (results & Hrun & Hlen & Hnth & _ & _).
  destruct (Hnth 2%nat "+14255550126" eq_refl) as (d & Hd & Hiso).
  exists results, d. rewrite Hrun. repeat split; try assumption.
  - vm_compute in Hiso. by injection Hiso as <-.
  - destruct (send_bulk_sms_pointwise (P:=scripted false) "+14255550123"
                three_recipients "Hello" true (sms_service, boot ∅ []))
      as (plain & Hrun' & _ & _ & _ & Hplain).
    destruct (Hplain Hfree 2%nat "+14255550126" eq_refl) as (d' & Hd' & Hiso').
    exists plain. rewrite Hrun'. split; [reflexivity |].
    vm_compute in Hiso'. by injection Hiso' as <-.
Defined.

(** C4 on the scripted platform, the scenario of the specification: only
    [ACS_CONNECTION_STRING] is set. *)
Lemma environment_secret_wins_run :
  secret_only !! "ACS_CONNECTION_STRING"
  = Some "endpoint=https://x;accesskey=y"
  ∧ "endpoint=https://x;accesskey=y" ≠ ""
  ∧ new_ACSConfiguration (tt, boot secret_only [])
    = (Ok {| ACSConfiguration.connection_string :=
               Some "endpoint=https://x;accesskey=y";
             ACSConfiguration.endpoint := None |},
       (tt, boot secret_only [])).
Proof.
  assert (Hset : environ (boot secret_only []) !! "ACS_CONNECTION_STRING"
                 = Some "endpoint=https://x;accesskey=y") by reflexivity.
  assert (Hne : "endpoint=https://x;accesskey=y" ≠ "") by discriminate.
  split; [exact Hset |]. split; [exact Hne |].
  destruct (environment_secret_wins tt (boot secret_only []) _ Hset Hne)
    as (cfg & Hrun & Hcs & _ & Honly).
  rewrite Hrun. destruct cfg as [cs ep]. cbn in Hcs, Honly.
  by rewrite Hcs, (Honly eq_refl).
Defined.

(** C5 on the scripted platform: only [ACS_ENDPOINT] is set. *)
Lemma unset_secret_and_store_run :
  endpoint_only !! "ACS_CONNECTION_STRING" = None
  ∧ endpoint_only !! "KEY_VAULT_URL" = None
  ∧ new_ACSConfiguration (tt, boot endpoint_only [])
    = (Ok {| ACSConfiguration.connection_string := None;
             ACSConfiguration.endpoint := Some "https://acs.example" |},
       (tt, boot endpoint_only [])).
Proof.
  split; [reflexivity |]. split; [reflexivity |].
  apply (unset_secret_and_store tt (boot endpoint_only []) eq_refl eq_refl).
Defined.

(** The claim C5 as the specification states it fails: with only
    [ACS_ENDPOINT] set, neither the connection secret nor the location of
    the secret store is in the environment, and the endpoint of the
    configuration returned is present. *)
Lemma endpoint_only_is_not_absent :
  environ (boot endpoint_only []) !! "ACS_CONNECTION_STRING" = None
  ∧ environ (boot endpoint_only []) !! "KEY_VAULT_URL" = None
  ∧ ∃ cfg st',
      new_ACSConfiguration (tt, boot endpoint_only []) = (Ok cfg, st')
      ∧ ACSConfiguration.endpoint cfg = Some "https://acs.example"
      ∧ ACSConfiguration.endpoint cfg ≠ None.
Proof.
  split; [reflexivity |]. split; [reflexivity |].
  eexists _, _. split; [reflexivity |]. split; [reflexivity | discriminate].
Qed.

(** C6 on the scripted platform: the store holds the connection secret and
    not the endpoint, so the second fetch raises. *)
Lemma key_vault_failure_recovered_run :
  truthy_str (endpoint_and_vault !! "ACS_CONNECTION_STRING") = false
  ∧ endpoint_and_vault !! "KEY_VAULT_URL" = Some "https://kv.example"
  ∧ "https://kv.example" ≠ ""
  ∧ lookup_fails "https://kv.example" scripted_world secret_not_found
      (Some (Some "endpoint=https://kv;accesskey=k")) scripted_world
  ∧ ∃ s',
      new_ACSConfiguration (tt, boot endpoint_and_vault [])
      = (Ok {| ACSConfiguration.connection_string :=
                 Some "endpoint=https://kv;accesskey=k";
               ACSConfiguration.endpoint := Some "https://acs.example" |},
         (tt, s'))
      ∧ stdout s' = ["⚠️ Could not load from Key Vault: SecretNotFound"].
Proof.
  assert (Hfail : lookup_fails "https://kv.example" scripted_world
                    secret_not_found
                    (Some (Some "endpoint=https://kv;accesskey=k"))
                    scripted_world).
  { by eapply endpoint_secret_fails. }
  assert (Hne : "https://kv.example" ≠ "") by discriminate.
  split; [reflexivity |]. split; [reflexivity |]. split; [exact Hne |].
  split; [exact Hfail |].
  destruct (key_vault_failure_recovered tt (boot endpoint_and_vault [])
              "https://kv.example" secret_not_found _ scripted_world
              eq_refl eq_refl Hne Hfail)
    as (s' & Hrun & _ & Hout).
  exists s'. split; [exact Hrun | exact Hout].
Defined.

(** The claim C6 as the specification states it fails: the fetch of the
    endpoint raises, and the endpoint of the configuration returned is not
    absent but the value of [ACS_ENDPOINT]. *)
Lemma failed_fetch_keeps_environment_endpoint :
  lookup_fails "https://kv.example" (world (boot endpoint_and_vault []))
    secret_not_found (Some (Some "endpoint=https://kv;accesskey=k"))
    scripted_world
  ∧ ∃ cfg st',
      new_ACSConfiguration (tt, boot endpoint_and_vault []) = (Ok cfg, st')
      ∧ ACSConfiguration.endpoint cfg = Some "https://acs.example"
      ∧ ACSConfiguration.endpoint cfg ≠ None.
Proof.
  split; [by eapply endpoint_secret_fails |].
  eexists _, _. split; [vm_compute; reflexivity |].
  split; [reflexivity | discriminate].
Qed.

(** C7 on the scripted platform, the scenario of the specification with
    messages of the SDK's shape: a cap of 2 against a thread with 5 messages
    gives the failure envelope of the attribute read. *)
Lemma get_messages_unreadable_sender_run :
  ChatService.chat_client ready_session = Some some_client
  ∧ (1 <= 2)%Z
  ∧ getattr (sdk_message 1) "sender_communication_identifier"
    = Raise (Exception
               (AttributeError (sdk_message 1)
                  "sender_communication_identifier"))
  ∧ (get_messages "thread-1" 2 (ready_session, boot_on sdk_listing ∅ [])).1
    = Ok [("success", VBool false);
          ("error",
           VStr ("'ChatMessage' object has no attribute "
                 +:+ "'sender_communication_identifier'"))].
Proof.
  assert (Hk : (1 <= 2)%Z) by lia.
  split; [reflexivity |]. split; [exact Hk |]. split; [reflexivity |].
  destruct (get_messages_unreadable_sender (P:=scripted_platform)
              ready_session (boot_on sdk_listing ∅ []) some_client "thread-1"
              2 (sdk_message 1)
              (map (fun n => Returns (sdk_message n)) [2; 3; 4; 5]%Z)
              {| ChatThreadClient.client := some_client;
                 ChatThreadClient.thread_id := "thread-1" |}
              sdk_listing sdk_listing
              (AttributeError (sdk_message 1) "sender_communication_identifier")
              eq_refl Hk eq_refl eq_refl eq_refl)
    as (e & Hrun & He).
  rewrite Hrun. by rewrite (He _ _ _ eq_refl eq_refl eq_refl).
Defined.

(** C10 on the scripted platform: the count of a success envelope, and a
    cap of [-1] against a thread with 5 messages. *)
Lemma get_messages_count_run :
  (∃ d st',
     get_messages "thread-1" 3 (ready_session, boot ∅ []) = (Ok d, st')
     ∧ dict_get "success" d = Some (VBool true)
     ∧ ∃ messages,
         dict_get "messages" d = Some (VList messages)
         ∧ dict_get "count" d = Some (VInt (Z.of_nat (length messages)))
         ∧ length messages = 3%nat)
  ∧ (-1 <= 0)%Z
  ∧ ∃ s',
      get_messages "thread-1" (-1) (ready_session, boot ∅ [])
      = (Ok [("success", VBool true); ("messages", VList []);
             ("count", VInt 0)],
         (ready_session, s')).
Proof.
  assert (Hk : (-1 <= 0)%Z) by lia.
  split; [| split; [exact Hk |]].
  - destruct (get_messages "thread-1" 3 (ready_session, boot ∅ []))
      as [o st'] eqn:Hrun.
    assert (Ho : ∃ d, o = Ok d ∧ dict_get "success" d = Some (VBool true)
                      ∧ ∃ ms, dict_get "messages" d = Some (VList ms)
                              ∧ length ms = 3%nat).
    { vm_compute in Hrun. injection Hrun as <- _.
      eexists. split; [reflexivity |]. split; [reflexivity |].
      eexists. split; reflexivity. }
    destruct Ho as (d & -> & Hsuccess & ms & Hms & Hlen).
    destruct (proj1 (get_messages_count (P:=scripted_platform))
                "thread-1" 3%Z _ _ d Hrun Hsuccess)
      as (messages & Hmessages & Hcount).
    exists d, st'. split; [reflexivity |]. split; [exact Hsuccess |].
    exists messages. repeat split; try assumption.
    rewrite Hms in Hmessages. by injection Hmessages as <-.
  - apply (proj2 (get_messages_count (P:=scripted_platform)) ready_session
             (boot ∅ []) some_client
             "thread-1" (-1)%Z
             {| ChatThreadClient.client := some_client;
                ChatThreadClient.thread_id := "thread-1" |}
             (map (fun n => Returns (text_message n)) [1; 2; 3; 4; 5]%Z)
             scripted_world scripted_world eq_refl Hk eq_refl eq_refl).
    intros e rest. discriminate.
Defined.

(** C8 on the scripted platform: a ready session keeps its client through
    a listing, a second initialisation and a send. *)
Lemma chat_client_stays_set_run :
  is_Some (ChatService.chat_client ready_session)
  ∧ is_Some
      (ChatService.chat_client
         (chat_run
            [GetMessages "thread-1" 20;
             InitializeChatClient (VStr "token-2");
             SendMessage "thread-1" "Hello" "User"]
            (ready_session, boot ∅ [])).1)
  ∧ (chat_step (SendMessage "thread-1" "Hello" "User")
       (ready_session, boot ∅ [])).1 = ready_session
  ∧ ChatService.chat_client
      (chat_step (InitializeChatClient (VStr "token-2"))
         (ready_session, boot ∅ [])).1 = Some other_client.
Proof.
  assert (Hset : is_Some (ChatService.chat_client ready_session)) by eauto.
  split; [exact Hset |]. split; [| split].
  - apply (proj1 (chat_client_stays_set (P:=scripted_platform)) _
             (ready_session, boot ∅ []) Hset).
  - apply (proj1 (proj2 (chat_client_stays_set (P:=scripted_platform)))
             (SendMessage "thread-1" "Hello" "User")
             (ready_session, boot ∅ []) eq_refl).
  - apply (proj2 (proj2 (chat_client_stays_set (P:=scripted_platform)))
             (VStr "token-2") ready_session
             (boot ∅ [])
             {| CommunicationTokenCredential.token := VStr "token-2" |}
             scripted_world other_client scripted_world eq_refl eq_refl).
Defined.

(** The claim C8 as the specification states it fails in its last part:
    the handle is not set exactly once.  A session that reached Client-Ready
    through [initialize_chat_client("token-1")] and is then given
    [initialize_chat_client("token-2")] has its handle assigned a second
    time, to a different client. *)
Lemma chat_client_set_twice :
  ChatService.chat_client
    (chat_run [InitializeChatClient (VStr "token-1")]
       (fresh_session, boot ∅ [])).1 = Some some_client
  ∧ ChatService.chat_client
      (chat_run
         [InitializeChatClient (VStr "token-1");
          InitializeChatClient (VStr "token-2")]
         (fresh_session, boot ∅ [])).1 = Some other_client
  ∧ some_client ≠ other_client.
Proof.
  split; [reflexivity |]. split; [reflexivity | discriminate].
Qed.

(** C9 on the scripted platform: the script run without and with a
    recipient. *)
Lemma test_email_cli_run :
  (length (argv (boot secret_only ["test_email.py"])) < 2)%nat
  ∧ (∃ s',
       test_email_script (tt, boot secret_only ["test_email.py"])
       = (Raise (SystemExit 1), (tt, s'))
       ∧ stdout s'
         = ["Usage: python test_email.py <recipient_email>";
            "Example: python test_email.py your.email@example.com"]
       ∧ calls s' = [])
  ∧ argv (boot secret_only ["test_email.py"; "user@example.com"])
    = ["test_email.py"; "user@example.com"]
  ∧ test_email_script
      (tt, boot secret_only ["test_email.py"; "user@example.com"])
    = send_test_email (Some "endpoint=https://x;accesskey=y")
        "user@example.com"
        (tt, boot secret_only ["test_email.py"; "user@example.com"]).
Proof.
  assert (Hshort : (length (argv (boot secret_only ["test_email.py"])) < 2)%nat)
    by (cbn; lia).
  split; [exact Hshort |]. split; [| split; [reflexivity |]].
  - destruct (proj1 (test_email_cli (P:=scripted_platform))
                (boot secret_only ["test_email.py"]) Hshort)
      as (s' & Hrun & _ & Hout & Hcalls & _).
    exists s'. split; [exact Hrun |]. split; [exact Hout | exact Hcalls].
  - apply (proj2 (test_email_cli (P:=scripted_platform))
             (boot secret_only ["test_email.py"; "user@example.com"])
             "test_email.py" "user@example.com" eq_refl).
Defined.

(** ** Further properties of the code *)

(** *** Which collaborators a computation calls *)

Section OnlyCalls.
Context {W : Type} (ok : Call -> bool).

Lemma only_calls_pure {Self A} (m : M (W:=W) Self A) :
  (∀ st, calls (m st).2.2 = calls st.2) -> only_calls ok m.
Proof.
  intros Hsame st. exists []. by rewrite Hsame, app_nil_r.
Qed.

Lemma only_calls_ret {Self A} (a : A) : only_calls ok (ret (W:=W) (Self:=Self) a).
Proof. by apply only_calls_pure. Qed.

Lemma only_calls_raise {Self A} sg :
  only_calls ok (raise (W:=W) (Self:=Self) (A:=A) sg).
Proof. by apply only_calls_pure. Qed.

Lemma only_calls_lift {Self A} (o : outcome A) :
  only_calls ok (lift (W:=W) (Self:=Self) o).
Proof. by apply only_calls_pure. Qed.

Lemma only_calls_get_self {Self} : only_calls ok (get_self (W:=W) (Self:=Self)).
Proof. by apply only_calls_pure. Qed.

Lemma only_calls_set_self {Self} (f : Self -> Self) :
  only_calls ok (set_self (W:=W) f).
Proof. by apply only_calls_pure. Qed.

Lemma only_calls_get_sys {Self} : only_calls ok (get_sys (W:=W) (Self:=Self)).
Proof. by apply only_calls_pure. Qed.

Lemma only_calls_print {Self} line :
  only_calls ok (print (W:=W) (Self:=Self) line).
Proof. by apply only_calls_pure. Qed.

Lemma only_calls_call {Self A} c (f : W -> reply A * W) :
  ok c = true -> only_calls ok (call (Self:=Self) c f).
Proof.
  intros Hc st. exists [c]. unfold call.
  destruct (f (world st.2)) as [[a | e] w]; cbn; eauto.
Qed.

Lemma only_calls_tick {Self A} c (f : W -> A * W) :
  ok c = true -> only_calls ok (tick (Self:=Self) c f).
Proof. intros Hc st. exists [c]. cbn. eauto. Qed.

Lemma only_calls_bind {Self A B} (m : M (W:=W) Self A) (k : A -> M Self B) :
  only_calls ok m -> (∀ a, only_calls ok (k a)) -> only_calls ok (bind m k).
Proof.
  intros Hm Hk st. unfold bind.
  destruct (Hm st) as (cs1 & Hcalls1 & Hok1).
  destruct (m st) as [[a | sg] st1]; cbn [fst snd] in *; [| eauto].
  destruct (Hk a st1) as (cs2 & Hcalls2 & Hok2).
  exists (cs1 ++ cs2). rewrite Hcalls2, Hcalls1, <- app_assoc.
  split; [reflexivity | by apply Forall_app].
Qed.

Lemma only_calls_try_except {Self A} (m : M (W:=W) Self A) h :
  only_calls ok m -> (∀ e, only_calls ok (h e)) ->
  only_calls ok (try_except m h).
Proof.
  intros Hm Hh st. unfold try_except.
  destruct (Hm st) as (cs1 & Hcalls1 & Hok1).
  destruct (m st) as [[a | [e | code]] st1]; cbn [fst snd] in *; eauto.
  destruct (Hh e st1) as (cs2 & Hcalls2 & Hok2).
  exists (cs1 ++ cs2). rewrite Hcalls2, Hcalls1, <- app_assoc.
  split; [reflexivity | by apply Forall_app].
Qed.

Lemma only_calls_on_object {Self Obj A} (obj : Obj) (m : M (W:=W) Obj A) :
  only_calls ok m -> only_calls ok (on_object (Self:=Self) obj m).
Proof.
  intros Hm st. unfold on_object.
  destruct (Hm (obj, st.2)) as (cs & Hcalls & Hok).
  destruct (m (obj, st.2)) as [[a | sg] [obj' s']]; cbn [fst snd] in *; eauto.
Qed.
End OnlyCalls.

Create HintDb only_calls.
#[local] Hint Resolve only_calls_ret only_calls_raise only_calls_lift
  only_calls_get_self only_calls_set_self only_calls_get_sys only_calls_print
  : only_calls.

(** Walk through a computation, discharging [only_calls] construct by
    construct; what is left are the calls whose kind has to be checked. *)
Ltac only_calls_step :=
  match goal with
  | |- only_calls _ (bind _ _) => apply only_calls_bind; [| intros]
  | |- only_calls _ (try_except _ _) =>
      apply only_calls_try_except; [| intros]
  | |- only_calls _ (on_object _ _) => apply only_calls_on_object
  | |- only_calls _ (call _ _) => apply only_calls_call; reflexivity
  | |- only_calls _ (tick _ _) => apply only_calls_tick; reflexivity
  | |- only_calls _ (if ?b then _ else _) => destruct b
  | |- only_calls _ (match ?o with Some _ => _ | None => _ end) => destruct o
  | |- only_calls _ _ => solve [eauto with only_calls]
  end.

Ltac only_calls_walk := repeat only_calls_step.

(** *** The demo driver *)

Section MainProofs.
Context {W : Type} {P : Platform W}.
Variable py_str : pyval -> string.
Variable py_slice50 : pyval -> outcome pyval.

Lemma print_lines_only_calls {Self} ok lines :
  only_calls ok (print_lines (W:=W) (Self:=Self) lines).
Proof.
  induction lines as [| line rest IH]; cbn [print_lines]; only_calls_walk.
Qed.

Lemma print_section_only_calls {Self} ok title :
  only_calls ok (print_section (W:=W) (Self:=Self) title).
Proof. unfold print_section. only_calls_walk. Qed.
End MainProofs.

#[local] Hint Resolve print_lines_only_calls print_section_only_calls
  : only_calls.

(** X1. Whatever the environment and whatever the collaborators answer,
    [main] puts nothing on the wire: every collaborator call it makes is a
    secret-store access, a client constructor, the identity request or a
    clock read; it never sends an SMS, an email or a chat message, never
    creates a thread and never lists one. *)
Theorem main_sends_nothing {W : Type} {P : Platform W}
    (py_str : pyval -> string) (py_slice50 : pyval -> outcome pyval) :
  only_calls (fun c => negb (is_traffic c)) (main (W:=W) py_str py_slice50).
Proof.
  unfold main, main_chat, new_ACSConfiguration, _load_configuration,
    _load_from_key_vault, new_SMSService, new_EmailService, new_ChatService,
    create_user_and_token, initialize_chat_client.
  only_calls_walk.
Qed.

(** *** Running a computation step by step

    A run is followed from [emit s (world s) [] []], which is [s]; every
    step leaves a state of the form [emit s w cs out], with the calls logged
    and the lines printed since [s] collected in [cs] and [out]. *)

Section Running.
Context {W : Type}.

Lemma emit_id (s : Sys W) : emit s (world s) [] [] = s.
Proof. destruct s. unfold emit. cbn. by rewrite !app_nil_r. Qed.

Lemma emit_eq (s : Sys W) w cs out cs' out' :
  cs = cs' -> out = out' -> emit s w cs out = emit s w cs' out'.
Proof. by intros -> ->. Qed.

Lemma run_start {Self A} (m : M (W:=W) Self A) (self : Self) (s : Sys W) r :
  m (self, emit s (world s) [] []) = r -> m (self, s) = r.
Proof. by rewrite emit_id. Qed.

Lemma run_bind_ok {Self A B} (m : M (W:=W) Self A) (k : A -> M Self B)
    st a st1 r :
  m st = (Ok a, st1) -> k a st1 = r -> bind m k st = r.
Proof. intros Hm Hk. unfold bind. by rewrite Hm. Qed.

Lemma run_bind_raise {Self A B} (m : M (W:=W) Self A) (k : A -> M Self B)
    st sg st1 :
  m st = (Raise sg, st1) -> bind m k st = (Raise sg, st1).
Proof. intros Hm. unfold bind. by rewrite Hm. Qed.

Lemma run_print {Self} line (self : Self) (s : Sys W) w cs out :
  print line (self, emit s w cs out)
  = (Ok tt, (self, emit s w cs (out ++ [line]))).
Proof. unfold print, emit. cbn. by rewrite <- app_assoc. Qed.

Lemma run_call_returns {Self A} c (f : W -> reply A * W) (self : Self)
    (s : Sys W) w cs out a w' :
  f w = (Returns a, w') ->
  call c f (self, emit s w cs out)
  = (Ok a, (self, emit s w' (cs ++ [c]) out)).
Proof. intros Hf. unfold call, emit. cbn. by rewrite Hf, <- app_assoc. Qed.

Lemma run_call_throws {Self A} c (f : W -> reply A * W) (self : Self)
    (s : Sys W) w cs out e w' :
  f w = (Throws e, w') ->
  call (A:=A) c f (self, emit s w cs out)
  = (Raise (Exception e), (self, emit s w' (cs ++ [c]) out)).
Proof. intros Hf. unfold call, emit. cbn. by rewrite Hf, <- app_assoc. Qed.

Lemma run_tick {Self A} c (f : W -> A * W) (self : Self) (s : Sys W) w cs out :
  tick c f (self, emit s w cs out)
  = (Ok (f w).1, (self, emit s (f w).2 (cs ++ [c]) out)).
Proof. unfold tick, emit. cbn. by rewrite <- app_assoc. Qed.

Lemma run_try_ok {Self A} (m : M (W:=W) Self A) h st a st1 :
  m st = (Ok a, st1) -> try_except m h st = (Ok a, st1).
Proof. intros Hm. unfold try_except. by rewrite Hm. Qed.

Lemma run_try_caught {Self A} (m : M (W:=W) Self A) h st e st1 r :
  m st = (Raise (Exception e), st1) -> h e st1 = r -> try_except m h st = r.
Proof. intros Hm Hh. unfold try_except. by rewrite Hm. Qed.

Lemma run_on_object_ok {Self Obj A} (obj obj' : Obj) (m : M (W:=W) Obj A)
    (self : Self) s a s' :
  m (obj, s) = (Ok a, (obj', s')) ->
  on_object obj m (self, s) = (Ok (a, obj'), (self, s')).
Proof. intros Hm. unfold on_object. cbn. by rewrite Hm. Qed.

Lemma run_on_object_raise {Self Obj A} (obj obj' : Obj) (m : M (W:=W) Obj A)
    (self : Self) s sg s' :
  m (obj, s) = (Raise sg, (obj', s')) ->
  on_object obj m (self, s) = (Raise sg, (self, s')).
Proof. intros Hm. unfold on_object. cbn. by rewrite Hm. Qed.

Lemma run_print_lines {Self} lines (self : Self) (s : Sys W) w cs out :
  print_lines lines (self, emit s w cs out)
  = (Ok tt, (self, emit s w cs (out ++ lines))).
Proof.
  revert out. induction lines as [| line rest IH]; intros out.
  - cbn. by rewrite app_nil_r.
  - cbn [print_lines]. eapply run_bind_ok; [apply run_print |].
    rewrite IH. by rewrite <- app_assoc.
Qed.

Lemma run_print_section {Self} title (self : Self) (s : Sys W) w cs out :
  print_section title (self, emit s w cs out)
  = (Ok tt, (self, emit s w cs (out ++ section_lines title))).
Proof.
  unfold print_section.
  eapply run_bind_ok; [apply run_print |].
  eapply run_bind_ok; [apply run_print |].
  rewrite run_print. by rewrite <- !app_assoc.
Qed.
End Running.

(** A pure step that may raise: compute it with the equations at hand. *)
Ltac run_lift :=
  unfold lift, subscript; cbn [fst snd];
  repeat match goal with
         | H : ?x = _ |- context [?x] => rewrite H
         end;
  reflexivity.

(** Run the computation in the goal as far as the replies in the context
    decide it. *)
Ltac run_to :=
  cbv beta zeta; cbn [fst snd];
  lazymatch goal with
  | |- (if _ then _ else _) _ = _ => progress cbn [truthy negb]; run_to
  | |- bind _ _ _ = _ =>
      first [ eapply run_bind_ok; [run_to | run_to]
            | eapply run_bind_raise; run_to ]
  | |- try_except _ _ _ = _ =>
      first [ eapply run_try_ok; run_to
            | eapply run_try_caught; [run_to | run_to] ]
  | |- on_object _ _ _ = _ =>
      first [ eapply run_on_object_ok; run_to
            | eapply run_on_object_raise; run_to ]
  | |- call _ _ _ = _ =>
      first [ eapply run_call_returns; eassumption
            | eapply run_call_throws; eassumption ]
  | |- tick _ _ _ = _ => apply run_tick
  | |- lift _ _ = _ => run_lift
  | |- print _ _ = _ => apply run_print
  | |- print_lines _ _ = _ => apply run_print_lines
  | |- print_section _ _ = _ => apply run_print_section
  | |- ret _ _ = _ => reflexivity
  | |- raise _ _ = _ => reflexivity
  | |- get_self _ = _ => reflexivity
  | |- get_sys _ = _ => reflexivity
  | |- set_self _ _ = _ => reflexivity
  end.

(** Run from [s] and compare the state reached with the expected one. *)
(** Run from a state in [emit] form and compare the result with the
    expected one. *)
Ltac run_and_compare := etransitivity; [run_to | reflexivity].

(** *** Configuration *)

(** X2. [ACSConfiguration()] consults the secret store exactly when it has
    to: the call log grows if and only if the connection secret from the
    environment is absent or empty and [KEY_VAULT_URL] is set and non-empty.
    An empty [ACS_CONNECTION_STRING] counts as absent, an empty
    [KEY_VAULT_URL] as unset. *)
Theorem store_consulted_iff {W : Type} {P : Platform W} {Self : Type}
    (self : Self) (s : Sys W) :
  calls (new_ACSConfiguration (self, s)).2.2 ≠ calls s
  ↔ truthy_str (environ s !! "ACS_CONNECTION_STRING") = false
    ∧ truthy_str (environ s !! "KEY_VAULT_URL") = true.
Proof.
  split.
  - intros Hgrew.
    destruct (truthy_str (environ s !! "ACS_CONNECTION_STRING")) eqn:Hcs;
      [| destruct (truthy_str (environ s !! "KEY_VAULT_URL")) eqn:Hkv];
      try done; exfalso; apply Hgrew;
      rewrite resolve_without_fallback by auto; reflexivity.
  - intros [Hcs Hkv] Hsame.
    assert (Hgrows : ∃ cs,
      calls (new_ACSConfiguration (self, s)).2.2
      = calls s ++ CallDefaultAzureCredential :: cs).
    { unfold new_ACSConfiguration, _load_configuration, _load_from_key_vault.
      unfold_monad. cbn [fst snd ACSConfiguration.connection_string].
      rewrite Hcs, Hkv. cbn [negb world fst snd].
      repeat next_reply; cbn [world calls fst snd];
        rewrite <- ?app_assoc; eauto. }
    destruct Hgrows as [cs Hgrows]. rewrite Hgrows in Hsame.
    apply (f_equal length) in Hsame. rewrite length_app in Hsame.
    cbn in Hsame. lia.
Qed.

(** X3. When the fallback lookup runs and all four accesses of the secret
    store return, both fields come from the store: the endpoint read from
    [ACS_ENDPOINT] is overwritten by the store's [acs-endpoint] secret (also
    when that secret's value is [None]), and the success line naming the
    vault is printed. *)
Theorem key_vault_overrides_environment {W : Type} {P : Platform W}
    {Self : Type} (self : Self) (s : Sys W) (url : string)
    u c v1 v2 w1 w2 w3 w4 :
  truthy_str (environ s !! "ACS_CONNECTION_STRING") = false ->
  environ s !! "KEY_VAULT_URL" = Some url ->
  url ≠ "" ->
  DefaultAzureCredential (world s) = (Returns u, w1) ->
  new_SecretClient url w1 = (Returns c, w2) ->
  get_secret_value c "acs-connection-string" w2 = (Returns v1, w3) ->
  get_secret_value c "acs-endpoint" w3 = (Returns v2, w4) ->
  new_ACSConfiguration (self, s)
  = (Ok {| ACSConfiguration.connection_string := v1;
           ACSConfiguration.endpoint := v2 |},
     (self,
      emit s w4
        [CallDefaultAzureCredential; CallSecretClient url;
         CallGetSecret c "acs-connection-string";
         CallGetSecret c "acs-endpoint"]
        ["✅ Configuration loaded from Key Vault: " +:+ url])).
Proof.
  intros Hcs Hkv Hne H1 H2 H3 H4.
  unfold new_ACSConfiguration, _load_configuration, _load_from_key_vault.
  unfold_monad. cbn [fst snd ACSConfiguration.connection_string].
  rewrite Hcs, Hkv. cbn [negb truthy_str from_option id].
  destruct (String.eqb_spec url ""); [contradiction |]. cbn [negb].
  cbn [world fst snd]. rewrite H1. cbn [world fst snd].
  rewrite H2. cbn [world fst snd]. rewrite H3. cbn [world fst snd].
  rewrite H4. cbn [world fst snd calls stdout environ argv].
  unfold emit. by rewrite <- !app_assoc.
Qed.

(** *** [test_email.py] *)

(** With a recipient on the command line the script is [send_test_email]
    on [sys.argv[1]]; further arguments are ignored. *)
Lemma script_with_recipient {W : Type} {P : Platform W} (s : Sys W)
    recipient :
  argv s !! 1%nat = Some recipient ->
  test_email_script (tt, s)
  = send_test_email (environ s !! "ACS_CONNECTION_STRING") recipient (tt, s).
Proof.
  intros Hargs. unfold test_email_script. unfold_monad. cbn [fst snd].
  rewrite Hargs.
  destruct (argv s) as [| a0 [| a1 rest]]; try discriminate. cbn.
  by destruct (send_test_email _ recipient ((), s)) as [[] ?].
Qed.

(** X4. Run with a recipient but without a connection secret in the
    environment ([ACS_CONNECTION_STRING] unset or empty), the script prints
    the one error line, calls no collaborator and ends normally: its exit
    status is 0 although nothing was sent. *)
Theorem script_without_secret {W : Type} {P : Platform W} (s : Sys W)
    recipient :
  argv s !! 1%nat = Some recipient ->
  truthy_str (environ s !! "ACS_CONNECTION_STRING") = false ->
  test_email_script (tt, s)
  = (Ok tt,
     (tt,
      emit s (world s) []
        ["❌ ACS_CONNECTION_STRING environment variable not set"]))
  ∧ exit_status (test_email_script (tt, s)).1 = 0%Z.
Proof.
  intros Hargs Hcs. rewrite (script_with_recipient s recipient Hargs).
  assert (Hrun :
    send_test_email (environ s !! "ACS_CONNECTION_STRING") recipient (tt, s)
    = (Ok tt,
       (tt,
        emit s (world s) []
          ["❌ ACS_CONNECTION_STRING environment variable not set"]))).
  { apply (run_start (send_test_email _ _)). unfold send_test_email.
    rewrite Hcs. cbn [negb]. run_and_compare. }
  by rewrite Hrun.
Qed.

(** X5. Run with a recipient and a connection secret, when the email client
    is built but the send fails (either [begin_send] or the poll of its
    result raises [e]), the script catches the failure: it prints the two
    announcement lines and then the failure line with [str(e)], and ends
    with exit status 0. *)
Theorem script_send_failure_caught {W : Type} {P : Platform W} (s : Sys W)
    recipient cs client w1 e :
  argv s !! 1%nat = Some recipient ->
  environ s !! "ACS_CONNECTION_STRING" = Some cs ->
  cs ≠ "" ->
  EmailClient_from_connection_string cs (world s) = (Returns client, w1) ->
  (∃ w2, begin_send client (test_message recipient) w1 = (Throws e, w2))
  ∨ (∃ poller w2 w3,
       begin_send client (test_message recipient) w1 = (Returns poller, w2)
       ∧ poller_result poller w2 = (Throws e, w3)) ->
  ∃ w' cs',
    test_email_script (tt, s)
    = (Ok tt,
       (tt,
        emit s w' cs'
          ["📧 Sending test email to: " +:+ recipient;
           "   From: DoNotReply@" +:+ sender_domain;
           "❌ Failed to send email: " +:+ exn_str e]))
    ∧ exit_status (test_email_script (tt, s)).1 = 0%Z.
Proof.
  intros Hargs Hcs Hne Hclient Hfail.
  rewrite (script_with_recipient s recipient Hargs).
  assert (Hrun : ∃ w' cs',
    send_test_email (environ s !! "ACS_CONNECTION_STRING") recipient (tt, s)
    = (Ok tt,
       (tt,
        emit s w' cs'
          ["📧 Sending test email to: " +:+ recipient;
           "   From: DoNotReply@" +:+ sender_domain;
           "❌ Failed to send email: " +:+ exn_str e]))).
  { destruct Hfail as [[w2 Hsend] | (poller & w2 & w3 & Hsend & Hpoll)];
      do 2 eexists; apply (run_start (send_test_email _ _));
      unfold send_test_email; rewrite Hcs; cbn [truthy_str from_option id];
      (destruct (String.eqb_spec cs ""); [contradiction |]); cbn [negb];
      run_and_compare. }
  destruct Hrun as (w' & cs' & Hrun). exists w', cs'. by rewrite Hrun.
Qed.

(** X6. Run with a recipient and a connection secret, when
    [EmailClient.from_connection_string] raises [e] the script does not
    catch it: it ends with the uncaught exception (exit status 1) before
    printing anything, the constructor being its only collaborator call. *)
Theorem script_client_failure_uncaught {W : Type} {P : Platform W}
    (s : Sys W) recipient cs e w1 :
  argv s !! 1%nat = Some recipient ->
  environ s !! "ACS_CONNECTION_STRING" = Some cs ->
  cs ≠ "" ->
  EmailClient_from_connection_string cs (world s) = (Throws e, w1) ->
  test_email_script (tt, s)
  = (Raise (Exception e), (tt, emit s w1 [CallEmailClient cs] []))
  ∧ exit_status (test_email_script (tt, s)).1 = 1%Z.
Proof.
  intros Hargs Hcs Hne Hclient.
  rewrite (script_with_recipient s recipient Hargs).
  assert (Hrun :
    send_test_email (environ s !! "ACS_CONNECTION_STRING") recipient (tt, s)
    = (Raise (Exception e), (tt, emit s w1 [CallEmailClient cs] []))).
  { apply (run_start (send_test_email _ _)). unfold send_test_email.
    rewrite Hcs. cbn [truthy_str from_option id].
    destruct (String.eqb_spec cs ""); [contradiction |]. cbn [negb].
    run_and_compare. }
  by rewrite Hrun.
Qed.

(** X7. Run with a recipient and a connection secret, when every email
    collaborator answers, the script sends exactly one message, addressed to
    [sys.argv[1]] (arguments after it are ignored): it builds the client
    from the secret, hands [test_message recipient] to [begin_send], polls
    the result once, and prints the message id and status it got. *)
Theorem script_sends_one_message {W : Type} {P : Platform W} (s : Sys W)
    recipient cs client poller result w1 w2 w3 :
  argv s !! 1%nat = Some recipient ->
  environ s !! "ACS_CONNECTION_STRING" = Some cs ->
  cs ≠ "" ->
  EmailClient_from_connection_string cs (world s) = (Returns client, w1) ->
  begin_send client (test_message recipient) w1 = (Returns poller, w2) ->
  poller_result poller w2 = (Returns result, w3) ->
  test_email_script (tt, s)
  = (Ok tt,
     (tt,
      emit s w3
        [CallEmailClient cs; CallBeginSend client (test_message recipient);
         CallPollerResult poller]
        ["📧 Sending test email to: " +:+ recipient;
         "   From: DoNotReply@" +:+ sender_domain;
         "✅ Email sent successfully!";
         "   Message ID: " +:+ EmailSendResult.id result;
         "   Status: " +:+ EmailSendResult.status result])).
Proof.
  intros Hargs Hcs Hne Hclient Hsend Hpoll.
  rewrite (script_with_recipient s recipient Hargs).
  apply (run_start (send_test_email _ _)). unfold send_test_email.
  rewrite Hcs. cbn [truthy_str from_option id].
  destruct (String.eqb_spec cs ""); [contradiction |]. cbn [negb].
  run_and_compare.
Qed.

(** *** SMS and email *)

Section BulkComposition.
Context {W : Type} {P : Platform W}.
Variables (from_number message : string) (edr : bool).

(** The loop only ever appends to the list it was given. *)
Lemma send_bulk_sms_loop_acc to_numbers results (st : SMSService.t * Sys W) :
  ∃ new st',
    send_bulk_sms_loop from_number to_numbers message edr [] st
    = (Ok new, st')
    ∧ send_bulk_sms_loop from_number to_numbers message edr results st
      = (Ok (results ++ new), st').
Proof.
  revert results st.
  induction to_numbers as [| to_number rest IH]; intros results st.
  - exists [], st. cbn. by rewrite app_nil_r.
  - destruct (send_sms_effect from_number message edr to_number None st)
      as (d & Hd & _).
    destruct (send_sms from_number to_number message edr None st)
      as [o st1] eqn:Hsend.
    cbn [fst] in Hd. subst o.
    destruct (IH [d] st1) as (new & st' & Hnil & Hone).
    destruct (IH (results ++ [d]) st1) as (new' & st'' & Hnil' & Hacc).
    rewrite Hnil in Hnil'. injection Hnil' as <- <-.
    exists (d :: new), st'. cbn [send_bulk_sms_loop]. unfold bind.
    rewrite Hsend. cbn [app] in *. rewrite Hone, Hacc, <- app_assoc.
    by split.
Qed.
End BulkComposition.

(** X8. A bulk send over a concatenated recipient list is the bulk send
    over the first part followed by the bulk send over the second part, run
    where the first one left the transport: the envelopes are the two result
    lists appended, and the final state is the same. *)
Theorem send_bulk_sms_app {W : Type} {P : Platform W}
    (from_number : string) (first second : list string) (message : string)
    (edr : bool) (st : SMSService.t * Sys W) :
  ∃ r1 st1 r2 st2,
    send_bulk_sms from_number first message edr st = (Ok r1, st1)
    ∧ send_bulk_sms from_number second message edr st1 = (Ok r2, st2)
    ∧ send_bulk_sms from_number (first ++ second) message edr st
      = (Ok (r1 ++ r2), st2).
Proof.
  unfold send_bulk_sms.
  assert (Hgen : ∀ results,
    ∃ r1 st1 r2 st2,
      send_bulk_sms_loop from_number first message edr [] st = (Ok r1, st1)
      ∧ send_bulk_sms_loop from_number second message edr [] st1 = (Ok r2, st2)
      ∧ send_bulk_sms_loop from_number (first ++ second) message edr results st
        = (Ok (results ++ r1 ++ r2), st2)).
  { revert st. induction first as [| to_number rest IH]; intros st results.
    - destruct (send_bulk_sms_loop_acc from_number message edr second results
                  st) as (new & st' & Hnil & Hacc).
      exists [], st, new, st'. cbn [app]. by repeat split.
    - destruct (send_sms_effect from_number message edr to_number None st)
        as (d & Hd & _).
      destruct (send_sms from_number to_number message edr None st)
        as [o st0] eqn:Hsend.
      cbn [fst] in Hd. subst o.
      destruct (IH st0 (results ++ [d])) as (r1 & st1 & r2 & st2 & H1 & H2 & H12).
      destruct (send_bulk_sms_loop_acc from_number message edr rest [d] st0)
        as (new & st' & Hnil & Hacc).
      rewrite H1 in Hnil. injection Hnil as <- <-.
      exists (d :: r1), st1, r2, st2. split; [| split].
      + cbn [send_bulk_sms_loop]. unfold bind. by rewrite Hsend.
      + exact H2.
      + cbn [send_bulk_sms_loop app]. unfold bind. rewrite Hsend.
        cbn [app]. by rewrite H12, <- app_assoc. }
  destruct (Hgen []) as (r1 & st1 & r2 & st2 & H1 & H2 & H12).
  exists r1, st1, r2, st2. by repeat split.
Qed.

(** X9. In the message [send_email] builds, the optional parts are present
    exactly when their argument is truthy: [recipients] always has the one
    [to] address; it has a [cc] (or [bcc]) key if and only if [cc] (or
    [bcc]) is a non-empty list, so an empty list is treated like [None];
    and the message has a [replyTo] key if and only if [reply_to] is a
    non-empty string. *)
Theorem email_message_optional_parts (sender recipient subject body : string)
    (is_html : bool) (cc bcc : option (list string))
    (reply_to : option string) :
  ∃ recipients,
    dict_get "recipients"
      (email_message sender recipient subject body is_html cc bcc reply_to)
    = Some (VDict recipients)
    ∧ dict_get "to" recipients = Some (addresses [recipient])
    ∧ (has_key "cc" recipients ↔ truthy_list cc = true)
    ∧ (has_key "bcc" recipients ↔ truthy_list bcc = true)
    ∧ (has_key "replyTo"
         (email_message sender recipient subject body is_html cc bcc reply_to)
       ↔ truthy_str reply_to = true).
Proof.
  unfold email_message, has_key.
  destruct (truthy_list cc), (truthy_list bcc), (truthy_str reply_to);
    cbn; eexists; (split; [reflexivity |]); (split; [reflexivity |]);
    repeat split; intros HH; first [done | by eexists | by destruct HH].
Qed.

Section EmailProofs.
Context {W : Type} {P : Platform W}.

(** X10. [send_email] polls for the result only when [begin_send] returned.
    When [begin_send] raises [e], the envelope is the failure envelope of
    [e] and [begin_send] is the only call made; when the poll raises [e],
    the envelope is the failure envelope of [e] after the two calls.  The
    service object is unchanged either way. *)
Theorem send_email_failure (self : EmailService.t) (s : Sys W)
    sender recipient subject body is_html cc bcc reply_to e :
  let message :=
    email_message sender recipient subject body is_html cc bcc reply_to in
  (∀ w1,
     begin_send (EmailService.client self) message (world s) = (Throws e, w1) ->
     send_email sender recipient subject body is_html cc bcc reply_to (self, s)
     = (Ok (error_envelope e),
        (self, emit s w1 [CallBeginSend (EmailService.client self) message] [])))
  ∧ (∀ poller w1 w2,
       begin_send (EmailService.client self) message (world s)
       = (Returns poller, w1) ->
       poller_result poller w1 = (Throws e, w2) ->
       send_email sender recipient subject body is_html cc bcc reply_to
         (self, s)
       = (Ok (error_envelope e),
          (self,
           emit s w2
             [CallBeginSend (EmailService.client self) message;
              CallPollerResult poller] []))).
Proof.
  intros message. split.
  - intros w1 Hsend. unfold send_email. fold message. unfold_monad.
    cbn [fst snd world]. rewrite Hsend. cbn [fst snd]. unfold emit.
    by rewrite app_nil_r.
  - intros poller w1 w2 Hsend Hpoll. unfold send_email. fold message.
    unfold_monad. cbn [fst snd world]. rewrite Hsend. cbn [fst snd world].
    rewrite Hpoll. cbn [fst snd calls]. unfold emit.
    by rewrite app_nil_r, <- app_assoc.
Qed.

(** X11. [send_html_email] hands the transport a message whose content is
    the subject and the body under [html] (no [plainText]), addressed to the
    one recipient, with no [cc], [bcc] or [replyTo]: that [begin_send] is
    the first call it logs. *)
Theorem send_html_email_message (st : EmailService.t * Sys W)
    sender recipient subject html_body :
  ∃ cs,
    calls (send_html_email sender recipient subject html_body st).2.2
    = calls st.2
        ++ CallBeginSend (EmailService.client st.1)
             [("senderAddress", VStr sender);
              ("recipients", VDict [("to", addresses [recipient])]);
              ("content",
               VDict [("subject", VStr subject); ("html", VStr html_body)])]
           :: cs.
Proof.
  destruct st as [self s]. unfold send_html_email, send_email.
  cbn [email_message truthy_list truthy_str dict_merge fold_left dict_set
         fst snd String.eqb Ascii.eqb Bool.eqb].
  run; cbn [calls]; rewrite <- ?app_assoc; eauto.
Qed.
End EmailProofs.

(** *** The chat session *)

(** The loop of [get_messages] looks at no more pulls than the cap leaves
    room for, plus one: two sequences that agree on that many pulls give the
    same result. *)
Lemma collect_messages_prefix (max_messages : Z) (n : nat)
    (pulls pulls' : list (reply pyval)) (messages : list pyval) :
  (1 <= n)%nat ->
  (max_messages - Z.of_nat (length messages) < Z.of_nat n)%Z ->
  take n pulls = take n pulls' ->
  collect_messages max_messages pulls messages
  = collect_messages max_messages pulls' messages.
Proof.
  revert n pulls' messages.
  induction pulls as [| pull rest IH]; intros n pulls' messages Hn Hroom Htake.
  - destruct n as [| n]; [lia |]. destruct pulls'; [reflexivity | discriminate].
  - destruct n as [| n]; [lia |].
    destruct pulls' as [| pull' rest']; [discriminate |].
    cbn [take] in Htake. injection Htake as <- Htake.
    destruct pull as [m | e]; cbn [collect_messages]; [| reflexivity].
    destruct (Z.leb_spec max_messages (Z.of_nat (length messages)));
      [reflexivity |].
    destruct (message_dict m) as [d | sg]; [| reflexivity].
    apply (IH n); [lia | rewrite length_app; cbn [length]; lia | exact Htake].
Qed.

(** The loop of [get_messages] when a pull raises before the cap is
    exceeded: an exception comes out, whatever was collected; it is the
    pull's when the messages before it render. *)
Lemma collect_messages_pull_raises (max_messages : Z) (msgs : list pyval) e
    (rest : list (reply pyval)) (messages : list pyval) :
  (Z.of_nat (length messages) + Z.of_nat (length msgs) <= max_messages)%Z ->
  ∃ e',
    collect_messages max_messages (map Returns msgs ++ Throws e :: rest)
      messages = Raise (Exception e')
    ∧ ∀ ds, Forall2 (fun m d => message_dict m = Ok d) msgs ds -> e' = e.
Proof.
  revert messages. induction msgs as [| m more IH]; intros messages Hlen.
  - exists e. by split.
  - cbn [map app collect_messages]. cbn [length] in Hlen.
    destruct (Z.leb_spec max_messages (Z.of_nat (length messages)));
      [lia |].
    destruct (message_dict m) as [d | sg] eqn:Hd.
    + destruct (IH (messages ++ [VDict d])) as (e' & Hrun & He').
      { rewrite length_app. cbn [length]. lia. }
      exists e'. split; [exact Hrun |].
      intros ds Hds. inversion Hds; subst. eauto.
    + apply message_dict_raise in Hd as Hsg. destruct Hsg as [e' ->].
      exists e'. split; [reflexivity |].
      intros ds Hds. inversion Hds; subst. congruence.
Qed.

Section ChatExtras.
Context {W : Type} {P : Platform W}.

(** X12. [get_messages] is lazy: its envelope is decided by the first
    [k + 1] pulls of the listing (the first one for [k <= 0]).  Two runs on
    the same session whose listings agree on those pulls return the same
    envelope, whatever the listings do afterwards, even if a later pull
    would raise. *)
Theorem get_messages_reads_a_prefix (self : ChatService.t) (s s' : Sys W) c
    thread_id (k : Z) (pulls pulls' : list (reply pyval)) tc w1 w2 tc' w1'
    w2' :
  ChatService.chat_client self = Some c ->
  get_chat_thread_client c thread_id (world s) = (Returns tc, w1) ->
  list_messages tc w1 = (Returns pulls, w2) ->
  get_chat_thread_client c thread_id (world s') = (Returns tc', w1') ->
  list_messages tc' w1' = (Returns pulls', w2') ->
  take (Z.to_nat k + 1) pulls = take (Z.to_nat k + 1) pulls' ->
  (get_messages thread_id k (self, s)).1
  = (get_messages thread_id k (self, s')).1.
Proof.
  intros Hc Htc Hlist Htc' Hlist' Htake.
  destruct (get_messages_listing self s c thread_id k tc _ w1 w2 Hc Htc Hlist)
    as [s1 ->].
  destruct (get_messages_listing self s' c thread_id k tc' _ w1' w2' Hc Htc'
              Hlist') as [s1' ->].
  cbn [fst].
  rewrite (collect_messages_prefix k (Z.to_nat k + 1) pulls pulls' []);
    [reflexivity | lia | cbn [length]; lia | exact Htake].
Qed.

(** X13. [get_messages] fails as a whole when a pull raises before the loop
    breaks: if the listing yields [m <= k] messages and the next pull raises
    [e], the envelope is a failure envelope and the messages already
    collected are dropped; its error is that of [e] when the [m] messages
    render.  This includes [m = k]: the loop pulls once more before it tests
    the cap. *)
Theorem get_messages_failing_pull (self : ChatService.t) (s : Sys W) c
    thread_id (k : Z) (msgs : list pyval) e
    (rest : list (reply pyval)) tc w1 w2 :
  ChatService.chat_client self = Some c ->
  (Z.of_nat (length msgs) <= k)%Z ->
  get_chat_thread_client c thread_id (world s) = (Returns tc, w1) ->
  list_messages tc w1 = (Returns (map Returns msgs ++ Throws e :: rest), w2) ->
  ∃ e',
    (get_messages thread_id k (self, s)).1 = Ok (error_envelope e')
    ∧ ∀ ds, Forall2 (fun m d => message_dict m = Ok d) msgs ds -> e' = e.
Proof.
  intros Hc Hk Htc Hlist.
  destruct (get_messages_listing self s c thread_id k tc _ w1 w2 Hc Htc Hlist)
    as [s' ->].
  destruct (collect_messages_pull_raises k msgs e rest [])
    as (e' & Hrun & He'); [cbn [length]; lia |].
  exists e'. by rewrite Hrun.
Qed.

(** X25. The truncation itself is right when the messages render: on a
    session with a chat client, for every cap [k >= 0], when the listing
    yields the messages [msgs] and the first [min(m, k)] of them render to
    [ds] (each carries the attributes the code reads), [get_messages]
    returns the success envelope with exactly those renderings, in order,
    and [count] [min(m, k)]; the messages after them are not rendered. *)
Theorem get_messages_renders_first_k (self : ChatService.t) (s : Sys W) c
    thread_id (k : Z) (msgs : list pyval) (ds : list pydict) tc w1 w2 :
  ChatService.chat_client self = Some c ->
  (0 <= k)%Z ->
  get_chat_thread_client c thread_id (world s) = (Returns tc, w1) ->
  list_messages tc w1 = (Returns (map Returns msgs), w2) ->
  Forall2 (fun m d => message_dict m = Ok d) (take (Z.to_nat k) msgs) ds ->
  (get_messages thread_id k (self, s)).1
  = Ok [("success", VBool true);
        ("messages", VList (map VDict ds));
        ("count", VInt (Z.min (Z.of_nat (length msgs)) k))]
  ∧ length ds = Z.to_nat (Z.min (Z.of_nat (length msgs)) k).
Proof.
  intros Hc Hk Htc Hlist Hds. unfold pydict in *.
  assert (Hlen : length ds = Z.to_nat (Z.min (Z.of_nat (length msgs)) k)).
  { apply Forall2_length in Hds. rewrite <- Hds, length_take. lia. }
  split; [| exact Hlen].
  destruct (get_messages_listing self s c thread_id k tc _ w1 w2 Hc Htc Hlist)
    as [s' ->].
  cbn [fst].
  rewrite <- (take_drop (Z.to_nat k) msgs) at 1. rewrite map_app.
  rewrite (collect_messages_rendered k _ ds)
    by (try exact Hds; cbn [length]; rewrite length_take; lia).
  cbn [app].
  assert (Hdone : collect_messages k (map Returns (drop (Z.to_nat k) msgs))
                    (map VDict ds) = Ok (map VDict ds)).
  { destruct (drop (Z.to_nat k) msgs) as [| m more] eqn:Hdrop;
      [reflexivity |].
    apply collect_messages_capped; [| discriminate].
    rewrite length_map, Hlen.
    assert (Z.to_nat k < length msgs)%nat.
    { destruct (decide (Z.to_nat k < length msgs)%nat) as [| Hge]; [done |].
      rewrite drop_ge in Hdrop by lia. discriminate. }
    lia. }
  rewrite Hdone. unfold messages_envelope. rewrite length_map, Hlen.
  by rewrite Z2Nat.id by lia.
Qed.

(** X14. When the thread client cannot be obtained ([get_chat_thread_client]
    raises [e]), [get_messages] and [send_message] return the failure
    envelope of [e] after that one call: the listing is never requested, no
    message is sent and the clock is not read. *)
Theorem thread_client_failure (self : ChatService.t) (s : Sys W) c thread_id
    e w1 :
  ChatService.chat_client self = Some c ->
  get_chat_thread_client c thread_id (world s) = (Throws e, w1) ->
  (∀ max_messages,
     get_messages thread_id max_messages (self, s)
     = (Ok (error_envelope e),
        (self, emit s w1 [CallGetChatThreadClient c thread_id] [])))
  ∧ (∀ content name,
       send_message thread_id content name (self, s)
       = (Ok (error_envelope e),
          (self, emit s w1 [CallGetChatThreadClient c thread_id] []))).
Proof.
  intros Hc Htc. split; intros; unfold get_messages, send_message;
    unfold_monad; cbn [fst snd]; rewrite Hc; cbn [fst snd world];
    rewrite Htc; cbn [fst snd]; unfold emit; by rewrite app_nil_r.
Qed.

(** X15. [send_message] stamps the envelope with a clock read made after
    the send returned; when the send raises [e] the clock is not read and
    the envelope is the failure envelope of [e]. *)
Theorem send_message_clock (self : ChatService.t) (s : Sys W) c thread_id
    content name tc w1 :
  let request :=
    {| chat_content := content; sender_display_name := name;
       chat_message_type := "text" |} in
  ChatService.chat_client self = Some c ->
  get_chat_thread_client c thread_id (world s) = (Returns tc, w1) ->
  (∀ result w2,
     thread_send_message tc request w1 = (Returns result, w2) ->
     send_message thread_id content name (self, s)
     = (Ok [("success", VBool true);
            ("message_id", SendChatMessageResult.id result);
            ("sent_at", VStr (isoformat (utcnow w2).1))],
        (self,
         emit s (utcnow w2).2
           [CallGetChatThreadClient c thread_id; CallSendMessage tc request;
            CallUtcNow] [])))
  ∧ (∀ e w2,
       thread_send_message tc request w1 = (Throws e, w2) ->
       send_message thread_id content name (self, s)
       = (Ok (error_envelope e),
          (self,
           emit s w2
             [CallGetChatThreadClient c thread_id; CallSendMessage tc request]
             []))).
Proof.
  intros request Hc Htc. split.
  - intros result w2 Hsend. unfold send_message. fold request.
    unfold_monad. cbn [fst snd]. rewrite Hc. cbn [fst snd world].
    rewrite Htc. cbn [fst snd world]. rewrite Hsend. cbn [fst snd world calls].
    unfold emit. by rewrite app_nil_r, <- !app_assoc.
  - intros e w2 Hsend. unfold send_message. fold request.
    unfold_monad. cbn [fst snd]. rewrite Hc. cbn [fst snd world].
    rewrite Htc. cbn [fst snd world]. rewrite Hsend. cbn [fst snd world calls].
    unfold emit. by rewrite app_nil_r, <- !app_assoc.
Qed.

(** X16. When the identity service returns a user whose [properties] have
    no ["id"] key, [create_user_and_token] does not raise the [KeyError]:
    it returns the failure envelope whose [error] is ['id'], the [str] of
    that [KeyError]. *)
Theorem create_user_without_id (self : ChatService.t) (s : Sys W) user
    token_response w1 :
  identity_create_user_and_token (ChatService.identity_client self) ["chat"]
    (world s) = (Returns (user, token_response), w1) ->
  dict_get "id" (CommunicationUserIdentifier.properties user) = None ->
  (create_user_and_token (self, s)).1
  = Ok [("success", VBool false); ("error", VStr "'id'")].
Proof.
  intros Hcall Hid. unfold create_user_and_token, subscript. unfold_monad.
  cbn [fst snd world]. rewrite Hcall. cbn [fst snd]. by rewrite Hid.
Qed.

(** X26. When the identity service returns a user with an ["id"] and a
    token whose [expires_on] has no [isoformat()] to call (the call raises
    [e]: on a string it is the [AttributeError] that says a [str] has no
    attribute [isoformat]), [create_user_and_token] returns the failure
    envelope of [e], although the identity request itself succeeded. *)
Theorem create_user_expiry_unreadable (self : ChatService.t) (s : Sys W) user
    token_response w1 user_id e :
  identity_create_user_and_token (ChatService.identity_client self) ["chat"]
    (world s) = (Returns (user, token_response), w1) ->
  dict_get "id" (CommunicationUserIdentifier.properties user) = Some user_id ->
  call_isoformat (AccessToken.expires_on token_response)
  = Raise (Exception e) ->
  create_user_and_token (self, s)
  = (Ok (error_envelope e),
     (self,
      emit s w1
        [CallCreateUserAndToken (ChatService.identity_client self) ["chat"]]
        [])).
Proof.
  intros Hcall Hid Hiso. unfold create_user_and_token, subscript.
  unfold_monad. cbn [fst snd world]. rewrite Hcall. cbn [fst snd].
  rewrite Hid, Hiso. unfold emit. by rewrite app_nil_r.
Qed.

(** X17. [initialize_chat_client] is not wrapped: when the credential
    constructor raises [e], or the chat client constructor does, the
    exception propagates to the caller and the session object is left as it
    was; after a failing credential the chat client constructor is not
    called. *)
Theorem initialize_chat_client_propagates (self : ChatService.t) (s : Sys W)
    access_token e :
  (∀ w1,
     new_CommunicationTokenCredential access_token (world s) = (Throws e, w1) ->
     initialize_chat_client access_token (self, s)
     = (Raise (Exception e),
        (self, emit s w1 [CallTokenCredential access_token] [])))
  ∧ (∀ cred w1 w2,
       new_CommunicationTokenCredential access_token (world s)
       = (Returns cred, w1) ->
       new_ChatClient (ChatService.endpoint self) cred w1 = (Throws e, w2) ->
       initialize_chat_client access_token (self, s)
       = (Raise (Exception e),
          (self,
           emit s w2
             [CallTokenCredential access_token;
              CallChatClient (ChatService.endpoint self) cred] []))).
Proof.
  split.
  - intros w1 Hcred. unfold initialize_chat_client. unfold_monad.
    cbn [fst snd world]. rewrite Hcred. cbn [fst snd]. unfold emit.
    by rewrite app_nil_r.
  - intros cred w1 w2 Hcred Hclient. unfold initialize_chat_client.
    unfold_monad. cbn [fst snd world]. rewrite Hcred. cbn [fst snd world].
    rewrite Hclient. cbn [fst snd calls]. unfold emit.
    by rewrite app_nil_r, <- app_assoc.
Qed.

(** One operation other than [initialize_chat_client] on a session without
    a chat client: the session stays as it is and no chat transport call is
    logged. *)
Lemma silent_step (op : chat_op) (st : ChatService.t * Sys W) :
  ChatService.chat_client st.1 = None ->
  is_initialize op = false ->
  ∃ cs,
    calls (chat_step op st).2 = calls st.2 ++ cs
    ∧ Forall (fun c => is_chat_call c = false) cs.
Proof.
  intros Hnone Hop. destruct st as [self s]. cbn [fst snd] in *.
  destruct op; try discriminate; cbn [chat_step].
  - unfold create_user_and_token, subscript. run;
      try destruct (dict_get "id" _);
      try destruct (call_isoformat _) as [iso | [e' | code]];
      cbn [fst snd calls];
      eexists; (split; [reflexivity |]); repeat constructor.
  - exists []. unfold create_chat_thread. unfold_monad. cbn [fst snd].
    rewrite Hnone. cbn. by rewrite app_nil_r.
  - exists []. unfold send_message. unfold_monad. cbn [fst snd].
    rewrite Hnone. cbn. by rewrite app_nil_r.
  - exists []. unfold get_messages. unfold_monad. cbn [fst snd].
    rewrite Hnone. cbn. by rewrite app_nil_r.
Qed.

(** X18. Without [initialize_chat_client] the chat transport is never
    reached: from a session whose chat client handle is [None], after any
    sequence of the other operations ([create_user_and_token] included, so
    obtaining a token does not make the session ready) the handle is still
    [None] and none of the calls logged is a call on the chat transport. *)
Theorem uninitialised_session_is_silent (ops : list chat_op)
    (st : ChatService.t * Sys W) :
  ChatService.chat_client st.1 = None ->
  Forall (fun op => is_initialize op = false) ops ->
  ChatService.chat_client (chat_run ops st).1 = None
  ∧ ∃ cs,
      calls (chat_run ops st).2 = calls st.2 ++ cs
      ∧ Forall (fun c => is_chat_call c = false) cs.
Proof.
  intros Hnone Hops. revert st Hnone.
  induction Hops as [| op rest Hop _ IH]; intros st Hnone.
  - split; [exact Hnone |]. exists []. by rewrite app_nil_r.
  - cbn [chat_run fold_left].
    destruct (silent_step op st Hnone Hop) as (cs1 & Hcalls1 & Hok1).
    assert (Hnone' : ChatService.chat_client (chat_step op st).1 = None)
      by (by rewrite envelope_ops_keep_self).
    destruct (IH _ Hnone') as (Hfinal & cs2 & Hcalls2 & Hok2).
    split; [exact Hfinal |].
    exists (cs1 ++ cs2). unfold chat_run in Hcalls2.
    rewrite Hcalls2, Hcalls1, <- app_assoc.
    split; [reflexivity | by apply Forall_app].
Qed.

(** X19. On a session with a chat client, [create_chat_thread] makes exactly
    one transport call, whether it succeeds or not, and that call carries
    one participant per id, in order: the [i]-th (from 0) identifies the
    [i]-th id and is displayed as [User-] followed by [i + 1]. *)
Theorem create_chat_thread_participants (self : ChatService.t) (s : Sys W) c
    topic (participant_ids : list string) :
  ChatService.chat_client self = Some c ->
  ∃ participants,
    calls (create_chat_thread topic participant_ids (self, s)).2.2
    = calls s ++ [CallCreateChatThread c topic participants]
    ∧ length participants = length participant_ids
    ∧ ∀ (i : nat) user_id,
        participant_ids !! i = Some user_id ->
        participants !! i
        = Some {| ChatParticipant.identifier :=
                    {| CommunicationUserIdentifier.properties :=
                         [("id", VStr user_id)] |};
                  ChatParticipant.display_name :=
                    "User-" +:+ pretty (i + 1)%nat |}.
Proof.
  intros Hc. exists (participants_of participant_ids). split; [| split].
  - unfold create_chat_thread. unfold_monad. cbn [fst snd]. rewrite Hc.
    run; reflexivity.
  - unfold participants_of. by rewrite length_imap.
  - intros i user_id Hi. unfold participants_of.
    by rewrite list_lookup_imap, Hi.
Qed.
End ChatExtras.

(** *** The demo driver, case by case *)

Section MainRuns.
Context {W : Type} {P : Platform W}.
Variable py_str : pyval -> string.
Variable py_slice50 : pyval -> outcome pyval.

(** A non-empty string is truthy. *)
Lemma truthy_str_Some (v : string) : v ≠ "" -> truthy_str (Some v) = true.
Proof. intros Hne. cbn. by destruct (String.eqb_spec v ""). Qed.

(** [main] up to the point where the configuration is resolved from the
    environment alone. *)
Lemma main_start (s : Sys W) r :
  truthy_str (environ s !! "ACS_CONNECTION_STRING") = true
  ∨ truthy_str (environ s !! "KEY_VAULT_URL") = false ->
  (let config :=
     {| ACSConfiguration.connection_string :=
          environ s !! "ACS_CONNECTION_STRING";
        ACSConfiguration.endpoint := environ s !! "ACS_ENDPOINT" |} in
   (if negb (truthy_str (ACSConfiguration.connection_string config)) then
      print_lines not_configured_lines
    else
      let connection_string :=
        default "" (ACSConfiguration.connection_string config) in
      print "✅ Configuration loaded" ;;;
      print ("   Endpoint: "
             +:+ (if truthy_str (ACSConfiguration.endpoint config)
                  then default "" (ACSConfiguration.endpoint config)
                  else "Using connection string")) ;;;
      print_section "SMS Service Demo" ;;;
      sms_service <- new_SMSService connection_string ;;
      print_lines sms_demo_lines ;;;
      print_section "Email Service Demo" ;;;
      email_service <- new_EmailService connection_string ;;
      print_lines email_demo_lines ;;;
      print_section "Chat Service Demo" ;;;
      (if truthy_str (ACSConfiguration.endpoint config) then
         main_chat py_str py_slice50
           (default "" (ACSConfiguration.endpoint config)) connection_string
       else print no_endpoint_line) ;;;
      print_section "Summary" ;;;
      print_lines summary_lines)
     (tt, emit s (world s) [] [banner])) = r ->
  main py_str py_slice50 (tt, s) = r.
Proof.
  intros Hcase Hrest. apply (run_start (main py_str py_slice50)).
  unfold main. eapply run_bind_ok; [apply run_print |].
  eapply run_bind_ok; [by apply resolve_without_fallback | exact Hrest].
Qed.

(** X20. With no connection secret in the environment and no secret store
    to fall back on, [main] prints the banner and the two lines that say
    the secret is not configured, then returns: no client is built and no
    collaborator is called. *)
Theorem main_not_configured (s : Sys W) :
  truthy_str (environ s !! "ACS_CONNECTION_STRING") = false ->
  truthy_str (environ s !! "KEY_VAULT_URL") = false ->
  main py_str py_slice50 (tt, s)
  = (Ok tt, (tt, emit s (world s) [] (banner :: not_configured_lines))).
Proof.
  intros Hcs Hkv. apply main_start; [by right |].
  cbn [ACSConfiguration.connection_string]. rewrite Hcs. cbn [negb].
  rewrite run_print_lines. reflexivity.
Qed.

(** X21. With a connection secret [cs] in the environment and no endpoint
    ([ACS_ENDPOINT] unset or empty), when the two client constructors
    return, [main] builds the SMS and the email client from [cs] and nothing
    else: the identity client is not built, no token is requested, and the
    chat section is the one line saying the endpoint is required. *)
Theorem main_without_endpoint (s : Sys W) (cs : string) c1 w1 c2 w2 :
  environ s !! "ACS_CONNECTION_STRING" = Some cs ->
  cs ≠ "" ->
  truthy_str (environ s !! "ACS_ENDPOINT") = false ->
  SmsClient_from_connection_string cs (world s) = (Returns c1, w1) ->
  EmailClient_from_connection_string cs w1 = (Returns c2, w2) ->
  main py_str py_slice50 (tt, s)
  = (Ok tt,
     (tt,
      emit s w2 [CallSmsClient cs; CallEmailClient cs]
        ([banner; "✅ Configuration loaded";
          "   Endpoint: Using connection string"]
         ++ section_lines "SMS Service Demo" ++ sms_demo_lines
         ++ section_lines "Email Service Demo" ++ email_demo_lines
         ++ section_lines "Chat Service Demo" ++ [no_endpoint_line]
         ++ section_lines "Summary" ++ summary_lines))).
Proof.
  intros Hcs Hne Hep Hsms Hemail.
  pose proof (truthy_str_Some cs Hne) as Htruthy.
  apply main_start; [left; by rewrite Hcs |].
  cbn [ACSConfiguration.connection_string ACSConfiguration.endpoint].
  rewrite Hcs, Htruthy, Hep. cbn [negb from_option id].
  unfold new_SMSService, new_EmailService.
  etransitivity; [run_to | reflexivity].
Qed.

(** X22. [main] does not guard the client constructors: with a connection
    secret [cs] in the environment, when [SmsClient.from_connection_string]
    raises [e], [main] ends with that exception uncaught, after that one
    collaborator call and before any of the demo text of the SMS
    section. *)
Theorem main_constructor_failure (s : Sys W) (cs : string) e w1 :
  environ s !! "ACS_CONNECTION_STRING" = Some cs ->
  cs ≠ "" ->
  SmsClient_from_connection_string cs (world s) = (Throws e, w1) ->
  main py_str py_slice50 (tt, s)
  = (Raise (Exception e),
     (tt,
      emit s w1 [CallSmsClient cs]
        ([banner; "✅ Configuration loaded";
          "   Endpoint: "
          +:+ (if truthy_str (environ s !! "ACS_ENDPOINT")
               then default "" (environ s !! "ACS_ENDPOINT")
               else "Using connection string")]
         ++ section_lines "SMS Service Demo"))).
Proof.
  intros Hcs Hne Hsms.
  pose proof (truthy_str_Some cs Hne) as Htruthy.
  apply main_start; [left; by rewrite Hcs |].
  cbn [ACSConfiguration.connection_string ACSConfiguration.endpoint].
  rewrite Hcs, Htruthy. cbn [negb from_option id].
  unfold new_SMSService.
  etransitivity; [run_to | reflexivity].
Qed.

(** X23. With a connection secret and an endpoint in the environment, when
    the clients are built but the identity request raises [e], [main]
    reports the failure and goes on to the summary: it prints the error line
    with the formatted [str(e)], builds no token credential and no chat
    client, and returns normally. *)
Theorem main_identity_failure (s : Sys W) (cs ep : string) c1 w1 c2 w2 ic w3
    e w4 :
  environ s !! "ACS_CONNECTION_STRING" = Some cs ->
  cs ≠ "" ->
  environ s !! "ACS_ENDPOINT" = Some ep ->
  ep ≠ "" ->
  SmsClient_from_connection_string cs (world s) = (Returns c1, w1) ->
  EmailClient_from_connection_string cs w1 = (Returns c2, w2) ->
  CommunicationIdentityClient_from_connection_string cs w2
  = (Returns ic, w3) ->
  identity_create_user_and_token ic ["chat"] w3 = (Throws e, w4) ->
  main py_str py_slice50 (tt, s)
  = (Ok tt,
     (tt,
      emit s w4
        [CallSmsClient cs; CallEmailClient cs; CallIdentityClient cs;
         CallCreateUserAndToken ic ["chat"]]
        ([banner; "✅ Configuration loaded"; "   Endpoint: " +:+ ep]
         ++ section_lines "SMS Service Demo" ++ sms_demo_lines
         ++ section_lines "Email Service Demo" ++ email_demo_lines
         ++ section_lines "Chat Service Demo"
         ++ ["💬 Chat Service initialized"; ""; "Creating chat user...";
             "   ❌ Error: " +:+ py_str (VStr (exn_str e))]
         ++ section_lines "Summary" ++ summary_lines))).
Proof.
  intros Hcs Hne Hep Hne' Hsms Hemail Hic Hid.
  pose proof (truthy_str_Some cs Hne) as Htruthy.
  pose proof (truthy_str_Some ep Hne') as Htruthy'.
  apply main_start; [left; by rewrite Hcs |].
  cbn [ACSConfiguration.connection_string ACSConfiguration.endpoint].
  rewrite Hcs, Hep, Htruthy, Htruthy'. cbn [negb from_option id].
  unfold new_SMSService, new_EmailService, main_chat, new_ChatService,
    create_user_and_token, error_envelope.
  etransitivity; [run_to | reflexivity].
Qed.

(** X24. With a connection secret and an endpoint in the environment, when
    every collaborator answers and the identity reply is one the code can
    read (the user's properties hold an ["id"], which can be sliced, and the
    token's [expires_on] is a value whose [isoformat()] returns), [main]
    initialises the chat client from what it was given: the credential is
    built from the token the identity request issued, the chat client from
    the configured endpoint and that credential, and these six constructor
    and identity calls, in this order, are all the calls it makes. *)
Theorem main_initialises_chat (s : Sys W) (cs ep : string) c1 w1 c2 w2 ic w3
    user token_response w4 user_id head iso cred w5 c w6 :
  environ s !! "ACS_CONNECTION_STRING" = Some cs ->
  cs ≠ "" ->
  environ s !! "ACS_ENDPOINT" = Some ep ->
  ep ≠ "" ->
  SmsClient_from_connection_string cs (world s) = (Returns c1, w1) ->
  EmailClient_from_connection_string cs w1 = (Returns c2, w2) ->
  CommunicationIdentityClient_from_connection_string cs w2
  = (Returns ic, w3) ->
  identity_create_user_and_token ic ["chat"] w3
  = (Returns (user, token_response), w4) ->
  dict_get "id" (CommunicationUserIdentifier.properties user) = Some user_id ->
  call_isoformat (AccessToken.expires_on token_response) = Ok iso ->
  py_slice50 user_id = Ok head ->
  new_CommunicationTokenCredential (AccessToken.token token_response) w4
  = (Returns cred, w5) ->
  new_ChatClient ep cred w5 = (Returns c, w6) ->
  main py_str py_slice50 (tt, s)
  = (Ok tt,
     (tt,
      emit s w6
        [CallSmsClient cs; CallEmailClient cs; CallIdentityClient cs;
         CallCreateUserAndToken ic ["chat"];
         CallTokenCredential (AccessToken.token token_response);
         CallChatClient ep cred]
        ([banner; "✅ Configuration loaded"; "   Endpoint: " +:+ ep]
         ++ section_lines "SMS Service Demo" ++ sms_demo_lines
         ++ section_lines "Email Service Demo" ++ email_demo_lines
         ++ section_lines "Chat Service Demo"
         ++ ["💬 Chat Service initialized"; ""; "Creating chat user...";
             "   ✅ User created: " +:+ py_str head +:+ "...";
             "   ✅ Token expires: " +:+ py_str (VStr iso);
             "   ✅ Chat client initialized"]
         ++ section_lines "Summary" ++ summary_lines))).
Proof.
  intros Hcs Hne Hep Hne' Hsms Hemail Hic Hid Huid Hiso Hhead Hcred Hclient.
  pose proof (truthy_str_Some cs Hne) as Htruthy.
  pose proof (truthy_str_Some ep Hne') as Htruthy'.
  apply main_start; [left; by rewrite Hcs |].
  cbn [ACSConfiguration.connection_string ACSConfiguration.endpoint].
  rewrite Hcs, Hep, Htruthy, Htruthy'. cbn [negb from_option id].
  unfold new_SMSService, new_EmailService, main_chat, new_ChatService,
    create_user_and_token, initialize_chat_client.
  etransitivity; [run_to | reflexivity].
Qed.

(** X27. With a connection secret and an endpoint in the environment, when
    the identity request returns a user with an ["id"] but a token whose
    [expires_on] has no [isoformat()] to call (the call raises [e], as on a
    string or an integer), [main] takes the failure branch: it prints the
    error line with the formatted [str(e)], builds no token credential and
    no chat client, goes on to the summary and returns normally. *)
Theorem main_expiry_unreadable (s : Sys W) (cs ep : string) c1 w1 c2 w2 ic w3
    user token_response w4 user_id e :
  environ s !! "ACS_CONNECTION_STRING" = Some cs ->
  cs ≠ "" ->
  environ s !! "ACS_ENDPOINT" = Some ep ->
  ep ≠ "" ->
  SmsClient_from_connection_string cs (world s) = (Returns c1, w1) ->
  EmailClient_from_connection_string cs w1 = (Returns c2, w2) ->
  CommunicationIdentityClient_from_connection_string cs w2
  = (Returns ic, w3) ->
  identity_create_user_and_token ic ["chat"] w3
  = (Returns (user, token_response), w4) ->
  dict_get "id" (CommunicationUserIdentifier.properties user) = Some user_id ->
  call_isoformat (AccessToken.expires_on token_response)
  = Raise (Exception e) ->
  main py_str py_slice50 (tt, s)
  = (Ok tt,
     (tt,
      emit s w4
        [CallSmsClient cs; CallEmailClient cs; CallIdentityClient cs;
         CallCreateUserAndToken ic ["chat"]]
        ([banner; "✅ Configuration loaded"; "   Endpoint: " +:+ ep]
         ++ section_lines "SMS Service Demo" ++ sms_demo_lines
         ++ section_lines "Email Service Demo" ++ email_demo_lines
         ++ section_lines "Chat Service Demo"
         ++ ["💬 Chat Service initialized"; ""; "Creating chat user...";
             "   ❌ Error: " +:+ py_str (VStr (exn_str e))]
         ++ section_lines "Summary" ++ summary_lines))).
Proof.
  intros Hcs Hne Hep Hne' Hsms Hemail Hic Hid Huid Hiso.
  pose proof (truthy_str_Some cs Hne) as Htruthy.
  pose proof (truthy_str_Some ep Hne') as Htruthy'.
  apply main_start; [left; by rewrite Hcs |].
  cbn [ACSConfiguration.connection_string ACSConfiguration.endpoint].
  rewrite Hcs, Hep, Htruthy, Htruthy'. cbn [negb from_option id].
  unfold new_SMSService, new_EmailService, main_chat, new_ChatService,
    create_user_and_token, error_envelope.
  etransitivity; [run_to | reflexivity].
Qed.
End MainRuns.

(** *** The further properties on concrete runs *)

(** X2 on the scripted platform: the endpoint and the vault location are
    set, the connection secret is not. *)
Lemma store_consulted_iff_run :
  truthy_str (endpoint_and_vault !! "ACS_CONNECTION_STRING") = false
  ∧ truthy_str (endpoint_and_vault !! "KEY_VAULT_URL") = true
  ∧ calls (new_ACSConfiguration (tt, boot endpoint_and_vault [])).2.2 ≠ [].
Proof.
  split; [reflexivity |]. split; [reflexivity |].
  apply (proj2 (store_consulted_iff (P:=scripted_platform) tt
                  (boot endpoint_and_vault []))).
  split; reflexivity.
Defined.

(** X3 on the scripted platform with a store that holds both secrets: the
    endpoint of the environment gives way to the store's. *)
Lemma key_vault_overrides_environment_run :
  endpoint_and_vault !! "ACS_ENDPOINT" = Some "https://acs.example"
  ∧ (new_ACSConfiguration
       (tt, boot_on full_vault endpoint_and_vault [])).1
    = Ok {| ACSConfiguration.connection_string :=
              Some "endpoint=https://kv;accesskey=k";
            ACSConfiguration.endpoint := Some "https://kv-acs.example" |}.
Proof.
  split; [reflexivity |].
  assert (Hne : "https://kv.example" ≠ "") by discriminate.
  by rewrite (key_vault_overrides_environment (P:=scripted_platform) tt
                (boot_on full_vault endpoint_and_vault [])
                "https://kv.example" tt
                {| SecretClient.vault_url := "https://kv.example" |}
                (Some "endpoint=https://kv;accesskey=k")
                (Some "https://kv-acs.example")
                full_vault full_vault full_vault full_vault
                eq_refl eq_refl Hne eq_refl eq_refl eq_refl eq_refl).
Defined.

(** X4 on the scripted platform: a recipient and an empty environment. *)
Lemma script_without_secret_run :
  with_recipient !! 1%nat = Some "user@example.com"
  ∧ stdout (test_email_script (tt, boot ∅ with_recipient)).2.2
    = ["❌ ACS_CONNECTION_STRING environment variable not set"]
  ∧ calls (test_email_script (tt, boot ∅ with_recipient)).2.2 = []
  ∧ exit_status (test_email_script (tt, boot ∅ with_recipient)).1 = 0%Z.
Proof.
  split; [reflexivity |].
  assert (Hcs : truthy_str
                  (environ (boot ∅ with_recipient) !! "ACS_CONNECTION_STRING")
                = false) by reflexivity.
  destruct (script_without_secret (P:=scripted_platform)
              (boot ∅ with_recipient) "user@example.com" eq_refl Hcs)
    as [Hrun Hexit].
  rewrite Hrun. by repeat split.
Defined.

(** X5 with [begin_send] down. *)
Lemma script_send_failure_caught_run :
  stdout
    (test_email_script (P:=faulty (Some AtBeginSend) scripted_user)
       (tt, boot secret_only with_recipient)).2.2
  = ["📧 Sending test email to: user@example.com";
     "   From: DoNotReply@ded12d28-4098-4503-9e93-c1ef110d16f1.azurecomm.net";
     "❌ Failed to send email: Service unavailable"]
  ∧ exit_status
      (test_email_script (P:=faulty (Some AtBeginSend) scripted_user)
         (tt, boot secret_only with_recipient)).1 = 0%Z.
Proof.
  assert (Hne : "endpoint=https://x;accesskey=y" ≠ "") by discriminate.
  destruct (script_send_failure_caught
              (P:=faulty (Some AtBeginSend) scripted_user)
              (boot secret_only with_recipient) "user@example.com"
              "endpoint=https://x;accesskey=y"
              {| EmailClient.connection_string :=
                   "endpoint=https://x;accesskey=y" |}
              scripted_world service_down eq_refl eq_refl Hne eq_refl
              (or_introl (ex_intro _ scripted_world eq_refl)))
    as (w' & cs' & Hrun & Hexit).
  split; [| exact Hexit]. by rewrite Hrun.
Defined.

(** X6 with the email client constructor down. *)
Lemma script_client_failure_uncaught_run :
  (test_email_script (P:=faulty (Some AtEmailClient) scripted_user)
     (tt, boot secret_only with_recipient)).1
  = Raise (Exception service_down)
  ∧ stdout
      (test_email_script (P:=faulty (Some AtEmailClient) scripted_user)
         (tt, boot secret_only with_recipient)).2.2 = []
  ∧ exit_status
      (test_email_script (P:=faulty (Some AtEmailClient) scripted_user)
         (tt, boot secret_only with_recipient)).1 = 1%Z.
Proof.
  assert (Hne : "endpoint=https://x;accesskey=y" ≠ "") by discriminate.
  destruct (script_client_failure_uncaught
              (P:=faulty (Some AtEmailClient) scripted_user)
              (boot secret_only with_recipient) "user@example.com"
              "endpoint=https://x;accesskey=y" service_down scripted_world
              eq_refl eq_refl Hne eq_refl)
    as [Hrun Hexit].
  rewrite Hrun. by repeat split.
Defined.

(** X7 on the scripted platform. *)
Lemma script_sends_one_message_run :
  calls (test_email_script (tt, boot secret_only with_recipient)).2.2
  = [CallEmailClient "endpoint=https://x;accesskey=y";
     CallBeginSend
       {| EmailClient.connection_string := "endpoint=https://x;accesskey=y" |}
       (test_message "user@example.com");
     CallPollerResult {| LROPoller.operation := "op-1" |}]
  ∧ stdout (test_email_script (tt, boot secret_only with_recipient)).2.2
    = ["📧 Sending test email to: user@example.com";
       "   From: DoNotReply@ded12d28-4098-4503-9e93-c1ef110d16f1.azurecomm.net";
       "✅ Email sent successfully!";
       "   Message ID: op-1";
       "   Status: Succeeded"].
Proof.
  assert (Hne : "endpoint=https://x;accesskey=y" ≠ "") by discriminate.
  rewrite (script_sends_one_message (P:=scripted_platform)
             (boot secret_only with_recipient) "user@example.com"
             "endpoint=https://x;accesskey=y"
             {| EmailClient.connection_string :=
                  "endpoint=https://x;accesskey=y" |}
             {| LROPoller.operation := "op-1" |}
             {| EmailSendResult.id := "op-1";
                EmailSendResult.status := "Succeeded" |}
             scripted_world scripted_world scripted_world
             eq_refl eq_refl Hne eq_refl eq_refl eq_refl).
  by split.
Defined.

(** X10 with [begin_send] down, and with the poll down. *)
Lemma send_email_failure_run :
  send_email (P:=faulty (Some AtBeginSend) scripted_user)
    "DoNotReply@acs.example" "user@example.com" "Welcome!" "Hello" false
    None None None (email_service, boot ∅ [])
  = (Ok [("success", VBool false); ("error", VStr "Service unavailable")],
     (email_service,
      emit (boot ∅ []) scripted_world
        [CallBeginSend (EmailService.client email_service)
           (email_message "DoNotReply@acs.example" "user@example.com"
              "Welcome!" "Hello" false None None None)] []))
  ∧ calls
      (send_email (P:=faulty (Some AtPoller) scripted_user)
         "DoNotReply@acs.example" "user@example.com" "Welcome!" "Hello" false
         None None None (email_service, boot ∅ [])).2.2
    = [CallBeginSend (EmailService.client email_service)
         (email_message "DoNotReply@acs.example" "user@example.com"
            "Welcome!" "Hello" false None None None);
       CallPollerResult {| LROPoller.operation := "op-1" |}].
Proof.
  split.
  - apply (proj1 (send_email_failure
                    (P:=faulty (Some AtBeginSend) scripted_user)
                    email_service (boot ∅ []) "DoNotReply@acs.example"
                    "user@example.com" "Welcome!" "Hello" false None None None
                    service_down) scripted_world eq_refl).
  - by rewrite (proj2 (send_email_failure
                         (P:=faulty (Some AtPoller) scripted_user)
                         email_service (boot ∅ []) "DoNotReply@acs.example"
                         "user@example.com" "Welcome!" "Hello" false None None
                         None service_down)
                  {| LROPoller.operation := "op-1" |} scripted_world
                  scripted_world eq_refl eq_refl).
Defined.

(** X12 on a listing that yields two messages and then fails, against one
    that yields five: with a cap of 1 the two agree on the pulls that are
    looked at, and the failure is never reached. *)
Lemma get_messages_reads_a_prefix_run :
  ChatService.chat_client ready_session = Some some_client
  ∧ take (Z.to_nat 1 + 1) (thread_pulls broken_listing)
    = take (Z.to_nat 1 + 1) (thread_pulls scripted_world)
  ∧ (get_messages "thread-1" 1 (ready_session, boot_on broken_listing ∅ [])).1
    = (get_messages "thread-1" 1 (ready_session, boot ∅ [])).1.
Proof.
  split; [reflexivity |]. split; [reflexivity |].
  apply (get_messages_reads_a_prefix (P:=scripted_platform) ready_session
           (boot_on broken_listing ∅ []) (boot ∅ []) some_client "thread-1" 1
           (thread_pulls broken_listing) (thread_pulls scripted_world)
           thread_1 broken_listing broken_listing
           thread_1 scripted_world scripted_world
           eq_refl eq_refl eq_refl eq_refl eq_refl eq_refl).
Defined.

(** X13 on the same listing: a cap of 2 makes the loop pull a third time,
    and the two messages collected are lost. *)
Lemma get_messages_failing_pull_run :
  ChatService.chat_client ready_session = Some some_client
  ∧ (2 <= 2)%Z
  ∧ ∃ e,
      (get_messages "thread-1" 2
         (ready_session, boot_on broken_listing ∅ [])).1
      = Ok [("success", VBool false); ("error", VStr (exn_str e))]
      ∧ e = service_down.
Proof.
  assert (Hk : (Z.of_nat (length [text_message 1; text_message 2]) <= 2)%Z)
    by (cbn; lia).
  split; [reflexivity |]. split; [lia |].
  destruct (get_messages_failing_pull (P:=scripted_platform) ready_session
              (boot_on broken_listing ∅ []) some_client "thread-1" 2
              [text_message 1; text_message 2] service_down
              [Returns (text_message 4)]
              thread_1 broken_listing broken_listing eq_refl Hk eq_refl eq_refl)
    as (e & Hrun & He).
  exists e. split; [exact Hrun |].
  apply (He [text_dict 1; text_dict 2]). repeat constructor.
Defined.

(** X25 on the scripted platform: five messages that render, a cap of 2. *)
Lemma get_messages_renders_first_k_run :
  ChatService.chat_client ready_session = Some some_client
  ∧ (0 <= 2)%Z
  ∧ (get_messages "thread-1" 2 (ready_session, boot ∅ [])).1
    = Ok [("success", VBool true);
          ("messages", VList [VDict (text_dict 1); VDict (text_dict 2)]);
          ("count", VInt 2)].
Proof.
  assert (Hk : (0 <= 2)%Z) by lia.
  assert (Hds : Forall2 (fun m d => message_dict m = Ok d)
                  (take (Z.to_nat 2)
                     [text_message 1; text_message 2; text_message 3;
                      text_message 4; text_message 5])
                  [text_dict 1; text_dict 2])
    by (repeat constructor).
  split; [reflexivity |]. split; [exact Hk |].
  apply (proj1 (get_messages_renders_first_k (P:=scripted_platform)
                  ready_session (boot ∅ []) some_client "thread-1" 2
                  [text_message 1; text_message 2; text_message 3;
                   text_message 4; text_message 5]
                  [text_dict 1; text_dict 2]
                  thread_1 scripted_world scripted_world
                  eq_refl Hk eq_refl eq_refl Hds)).
Defined.

(** X14 with the thread client down. *)
Lemma thread_client_failure_run :
  ChatService.chat_client ready_session = Some some_client
  ∧ calls
      (get_messages (P:=faulty (Some AtThreadClient) scripted_user)
         "thread-1" 20 (ready_session, boot ∅ [])).2.2
    = [CallGetChatThreadClient some_client "thread-1"]
  ∧ (send_message (P:=faulty (Some AtThreadClient) scripted_user)
       "thread-1" "Hello" "User" (ready_session, boot ∅ [])).1
    = Ok [("success", VBool false); ("error", VStr "Service unavailable")].
Proof.
  split; [reflexivity |].
  destruct (thread_client_failure (P:=faulty (Some AtThreadClient) scripted_user)
              ready_session (boot ∅ []) some_client "thread-1" service_down
              scripted_world eq_refl eq_refl)
    as [Hget Hsend].
  by rewrite Hget, Hsend.
Defined.

(** X15 on the scripted platform, and with the send down. *)
Lemma send_message_clock_run :
  ChatService.chat_client ready_session = Some some_client
  ∧ (send_message "thread-1" "Hello" "User" (ready_session, boot ∅ [])).1
    = Ok [("success", VBool true); ("message_id", VStr "m-1");
          ("sent_at", VStr "1970-01-01T00:00:00")]
  ∧ calls
      (send_message (P:=faulty (Some AtSendMessage) scripted_user)
         "thread-1" "Hello" "User" (ready_session, boot ∅ [])).2.2
    = [CallGetChatThreadClient some_client "thread-1";
       CallSendMessage thread_1
         {| chat_content := "Hello"; sender_display_name := "User";
            chat_message_type := "text" |}].
Proof.
  split; [reflexivity |]. split.
  - by rewrite (proj1 (send_message_clock (P:=scripted_platform)
                         ready_session (boot ∅ []) some_client "thread-1"
                         "Hello" "User" thread_1 scripted_world
                         eq_refl eq_refl)
                  {| SendChatMessageResult.id := VStr "m-1" |} scripted_world
                  eq_refl).
  - by rewrite (proj2 (send_message_clock
                         (P:=faulty (Some AtSendMessage) scripted_user)
                         ready_session (boot ∅ []) some_client "thread-1"
                         "Hello" "User" thread_1 scripted_world
                         eq_refl eq_refl)
                  service_down scripted_world eq_refl).
Defined.

(** X16 with an identity service whose user carries a [rawId] only. *)
Lemma create_user_without_id_run :
  dict_get "id" [("rawId", VStr "8:acs:user-1")] = None
  ∧ (create_user_and_token
       (P:=faulty None [("rawId", VStr "8:acs:user-1")])
       (fresh_session, boot ∅ [])).1
    = Ok [("success", VBool false); ("error", VStr "'id'")].
Proof.
  split; [reflexivity |].
  apply (create_user_without_id
           (P:=faulty None [("rawId", VStr "8:acs:user-1")])
           fresh_session (boot ∅ [])
           {| CommunicationUserIdentifier.properties :=
                [("rawId", VStr "8:acs:user-1")] |}
           {| AccessToken.token := VStr "token-1";
              AccessToken.expires_on := VDatetime epoch |}
           scripted_world eq_refl eq_refl).
Defined.

(** X26 with an identity service whose token carries its expiry as a
    string. *)
Lemma create_user_expiry_unreadable_run :
  dict_get "id" scripted_user = Some (VStr "8:acs:user-1")
  ∧ call_isoformat (VStr "2026-01-01T00:00:00+00:00")
    = Raise (Exception
               (AttributeError (VStr "2026-01-01T00:00:00+00:00") "isoformat"))
  ∧ (create_user_and_token (P:=string_expiry) (fresh_session, boot ∅ [])).1
    = Ok [("success", VBool false);
          ("error", VStr "'str' object has no attribute 'isoformat'")]
  ∧ calls
      (create_user_and_token (P:=string_expiry)
         (fresh_session, boot ∅ [])).2.2
    = [CallCreateUserAndToken (ChatService.identity_client fresh_session)
         ["chat"]].
Proof.
  split; [reflexivity |]. split; [reflexivity |].
  rewrite (create_user_expiry_unreadable (P:=string_expiry) fresh_session
             (boot ∅ [])
             {| CommunicationUserIdentifier.properties := scripted_user |}
             {| AccessToken.token := VStr "token-1";
                AccessToken.expires_on := VStr "2026-01-01T00:00:00+00:00" |}
             scripted_world (VStr "8:acs:user-1")
             (AttributeError (VStr "2026-01-01T00:00:00+00:00") "isoformat")
             eq_refl eq_refl eq_refl).
  by split.
Defined.

(** X17 with the credential constructor down, and with the chat client
    constructor down. *)
Lemma initialize_chat_client_propagates_run :
  initialize_chat_client (P:=faulty (Some AtCredential) scripted_user)
    (VStr "token-1") (fresh_session, boot ∅ [])
  = (Raise (Exception service_down),
     (fresh_session,
      emit (boot ∅ []) scripted_world [CallTokenCredential (VStr "token-1")]
        []))
  ∧ (initialize_chat_client (P:=faulty (Some AtChatClient) scripted_user)
       (VStr "token-1") (fresh_session, boot ∅ [])).2.1 = fresh_session.
Proof.
  split.
  - apply (proj1 (initialize_chat_client_propagates
                    (P:=faulty (Some AtCredential) scripted_user)
                    fresh_session (boot ∅ []) (VStr "token-1") service_down)
             scripted_world eq_refl).
  - by rewrite (proj2 (initialize_chat_client_propagates
                         (P:=faulty (Some AtChatClient) scripted_user)
                         fresh_session (boot ∅ []) (VStr "token-1")
                         service_down)
                  {| CommunicationTokenCredential.token := VStr "token-1" |}
                  scripted_world scripted_world eq_refl eq_refl).
Defined.

(** X18 on the scripted platform: a token is obtained, then a thread is
    asked for and a message sent, all without a chat client. *)
Lemma uninitialised_session_is_silent_run :
  ChatService.chat_client fresh_session = None
  ∧ ChatService.chat_client
      (chat_run
         [CreateUserAndToken; CreateChatThread "Support" ["a"; "b"];
          SendMessage "thread-1" "Hello" "User"; GetMessages "thread-1" 20]
         (fresh_session, boot ∅ [])).1 = None
  ∧ ∃ cs,
      calls
        (chat_run
           [CreateUserAndToken; CreateChatThread "Support" ["a"; "b"];
            SendMessage "thread-1" "Hello" "User"; GetMessages "thread-1" 20]
           (fresh_session, boot ∅ [])).2 = cs
      ∧ Forall (fun c => is_chat_call c = false) cs.
Proof.
  split; [reflexivity |].
  destruct (uninitialised_session_is_silent (P:=scripted_platform)
              [CreateUserAndToken; CreateChatThread "Support" ["a"; "b"];
               SendMessage "thread-1" "Hello" "User"; GetMessages "thread-1" 20]
              (fresh_session, boot ∅ []) eq_refl)
    as (Hnone & cs & Hcalls & Hok).
  { repeat constructor. }
  split; [exact Hnone |]. exists cs. split; [exact Hcalls | exact Hok].
Defined.

(** X19 on the scripted platform: two participants. *)
Lemma create_chat_thread_participants_run :
  ChatService.chat_client ready_session = Some some_client
  ∧ ["8:acs:a"; "8:acs:b"] !! 1%nat = Some "8:acs:b"
  ∧ ∃ participants,
      calls
        (create_chat_thread "Support" ["8:acs:a"; "8:acs:b"]
           (ready_session, boot ∅ [])).2.2
      = [CallCreateChatThread some_client "Support" participants]
      ∧ participants !! 1%nat
        = Some {| ChatParticipant.identifier :=
                    {| CommunicationUserIdentifier.properties :=
                         [("id", VStr "8:acs:b")] |};
                  ChatParticipant.display_name := "User-2" |}.
Proof.
  split; [reflexivity |]. split; [reflexivity |].
  destruct (create_chat_thread_participants (P:=scripted_platform)
              ready_session (boot ∅ []) some_client "Support"
              ["8:acs:a"; "8:acs:b"] eq_refl)
    as (participants & Hcalls & _ & Hnth).
  exists participants. split; [exact Hcalls |].
  apply (Hnth 1%nat "8:acs:b" eq_refl).
Defined.

(** X20 on the scripted platform: an empty environment. *)
Lemma main_not_configured_run :
  truthy_str ((∅ : gmap string string) !! "ACS_CONNECTION_STRING") = false
  ∧ truthy_str ((∅ : gmap string string) !! "KEY_VAULT_URL") = false
  ∧ main ascii_str ascii_slice50 (tt, boot ∅ [])
    = (Ok tt,
       (tt,
        emit (boot ∅ []) scripted_world []
          [banner; "❌ Error: ACS_CONNECTION_STRING not configured";
           "   Set the environment variable or KEY_VAULT_URL"])).
Proof.
  split; [reflexivity |]. split; [reflexivity |].
  assert (Hcs : truthy_str (environ (boot ∅ []) !! "ACS_CONNECTION_STRING")
                = false) by reflexivity.
  assert (Hkv : truthy_str (environ (boot ∅ []) !! "KEY_VAULT_URL") = false)
    by reflexivity.
  apply (main_not_configured (P:=scripted_platform) ascii_str ascii_slice50
           (boot ∅ []) Hcs Hkv).
Defined.

(** X21 on the scripted platform: only the connection secret is set. *)
Lemma main_without_endpoint_run :
  secret_only !! "ACS_CONNECTION_STRING"
  = Some "endpoint=https://x;accesskey=y"
  ∧ truthy_str (secret_only !! "ACS_ENDPOINT") = false
  ∧ calls (main ascii_str ascii_slice50 (tt, boot secret_only [])).2.2
    = [CallSmsClient "endpoint=https://x;accesskey=y";
       CallEmailClient "endpoint=https://x;accesskey=y"]
  ∧ (main ascii_str ascii_slice50 (tt, boot secret_only [])).1 = Ok tt.
Proof.
  assert (Hne : "endpoint=https://x;accesskey=y" ≠ "") by discriminate.
  assert (Hep : truthy_str (environ (boot secret_only []) !! "ACS_ENDPOINT")
                = false) by reflexivity.
  split; [reflexivity |]. split; [reflexivity |].
  rewrite (main_without_endpoint (P:=scripted_platform) ascii_str
             ascii_slice50 (boot secret_only [])
             "endpoint=https://x;accesskey=y"
             {| SmsClient.connection_string :=
                  "endpoint=https://x;accesskey=y" |} scripted_world
             {| EmailClient.connection_string :=
                  "endpoint=https://x;accesskey=y" |} scripted_world
             eq_refl Hne Hep eq_refl eq_refl).
  by split.
Defined.

(** X22 with the SMS client constructor down. *)
Lemma main_constructor_failure_run :
  (main (P:=faulty (Some AtSmsClient) scripted_user) ascii_str ascii_slice50
     (tt, boot secret_only [])).1 = Raise (Exception service_down)
  ∧ calls
      (main (P:=faulty (Some AtSmsClient) scripted_user) ascii_str
         ascii_slice50 (tt, boot secret_only [])).2.2
    = [CallSmsClient "endpoint=https://x;accesskey=y"].
Proof.
  assert (Hne : "endpoint=https://x;accesskey=y" ≠ "") by discriminate.
  rewrite (main_constructor_failure
             (P:=faulty (Some AtSmsClient) scripted_user) ascii_str
             ascii_slice50 (boot secret_only [])
             "endpoint=https://x;accesskey=y" service_down scripted_world
             eq_refl Hne eq_refl).
  by split.
Defined.

(** X23 with the identity request down. *)
Lemma main_identity_failure_run :
  (main (P:=faulty (Some AtIdentity) scripted_user) ascii_str ascii_slice50
     (tt, boot secret_and_endpoint [])).1 = Ok tt
  ∧ calls
      (main (P:=faulty (Some AtIdentity) scripted_user) ascii_str
         ascii_slice50 (tt, boot secret_and_endpoint [])).2.2
    = [CallSmsClient "endpoint=https://x;accesskey=y";
       CallEmailClient "endpoint=https://x;accesskey=y";
       CallIdentityClient "endpoint=https://x;accesskey=y";
       CallCreateUserAndToken
         {| CommunicationIdentityClient.connection_string :=
              "endpoint=https://x;accesskey=y" |} ["chat"]].
Proof.
  assert (Hne : "endpoint=https://x;accesskey=y" ≠ "") by discriminate.
  assert (Hne' : "https://acs.example" ≠ "") by discriminate.
  rewrite (main_identity_failure
             (P:=faulty (Some AtIdentity) scripted_user) ascii_str
             ascii_slice50 (boot secret_and_endpoint [])
             "endpoint=https://x;accesskey=y" "https://acs.example"
             {| SmsClient.connection_string :=
                  "endpoint=https://x;accesskey=y" |} scripted_world
             {| EmailClient.connection_string :=
                  "endpoint=https://x;accesskey=y" |} scripted_world
             {| CommunicationIdentityClient.connection_string :=
                  "endpoint=https://x;accesskey=y" |} scripted_world
             service_down scripted_world
             eq_refl Hne eq_refl Hne' eq_refl eq_refl eq_refl eq_refl).
  by split.
Defined.

(** X24 on the scripted platform: the connection secret and the endpoint
    are set. *)
Lemma main_initialises_chat_run :
  (main ascii_str ascii_slice50 (tt, boot secret_and_endpoint [])).1 = Ok tt
  ∧ calls (main ascii_str ascii_slice50 (tt, boot secret_and_endpoint [])).2.2
    = [CallSmsClient "endpoint=https://x;accesskey=y";
       CallEmailClient "endpoint=https://x;accesskey=y";
       CallIdentityClient "endpoint=https://x;accesskey=y";
       CallCreateUserAndToken
         {| CommunicationIdentityClient.connection_string :=
              "endpoint=https://x;accesskey=y" |} ["chat"];
       CallTokenCredential (VStr "token-1");
       CallChatClient "https://acs.example"
         {| CommunicationTokenCredential.token := VStr "token-1" |}].
Proof.
  assert (Hne : "endpoint=https://x;accesskey=y" ≠ "") by discriminate.
  assert (Hne' : "https://acs.example" ≠ "") by discriminate.
  rewrite (main_initialises_chat (P:=scripted_platform) ascii_str
             ascii_slice50 (boot secret_and_endpoint [])
             "endpoint=https://x;accesskey=y" "https://acs.example"
             {| SmsClient.connection_string :=
                  "endpoint=https://x;accesskey=y" |} scripted_world
             {| EmailClient.connection_string :=
                  "endpoint=https://x;accesskey=y" |} scripted_world
             {| CommunicationIdentityClient.connection_string :=
                  "endpoint=https://x;accesskey=y" |} scripted_world
             {| CommunicationUserIdentifier.properties :=
                  [("id", VStr "8:acs:user-1")] |}
             {| AccessToken.token := VStr "token-1";
                AccessToken.expires_on := VDatetime epoch |} scripted_world
             (VStr "8:acs:user-1") (VStr "8:acs:user-1") "1970-01-01T00:00:00"
             {| CommunicationTokenCredential.token := VStr "token-1" |}
             scripted_world
             {| ChatClient.endpoint := "https://acs.example";
                ChatClient.credential :=
                  {| CommunicationTokenCredential.token := VStr "token-1" |} |}
             scripted_world
             eq_refl Hne eq_refl Hne' eq_refl eq_refl eq_refl eq_refl eq_refl
             eq_refl eq_refl eq_refl eq_refl).
  by split.
Defined.

(** X27 with an identity service whose token carries its expiry as a
    string: the run stops short of the credential and ends normally. *)
Lemma main_expiry_unreadable_run :
  (main (P:=string_expiry) ascii_str ascii_slice50
     (tt, boot secret_and_endpoint [])).1 = Ok tt
  ∧ calls
      (main (P:=string_expiry) ascii_str ascii_slice50
         (tt, boot secret_and_endpoint [])).2.2
    = [CallSmsClient "endpoint=https://x;accesskey=y";
       CallEmailClient "endpoint=https://x;accesskey=y";
       CallIdentityClient "endpoint=https://x;accesskey=y";
       CallCreateUserAndToken
         {| CommunicationIdentityClient.connection_string :=
              "endpoint=https://x;accesskey=y" |} ["chat"]]
  ∧ In "   ❌ Error: 'str' object has no attribute 'isoformat'"
      (stdout
         (main (P:=string_expiry) ascii_str ascii_slice50
            (tt, boot secret_and_endpoint [])).2.2).
Proof.
  assert (Hne : "endpoint=https://x;accesskey=y" ≠ "") by discriminate.
  assert (Hne' : "https://acs.example" ≠ "") by discriminate.
  rewrite (main_expiry_unreadable (P:=string_expiry) ascii_str
             ascii_slice50 (boot secret_and_endpoint [])
             "endpoint=https://x;accesskey=y" "https://acs.example"
             {| SmsClient.connection_string :=
                  "endpoint=https://x;accesskey=y" |} scripted_world
             {| EmailClient.connection_string :=
                  "endpoint=https://x;accesskey=y" |} scripted_world
             {| CommunicationIdentityClient.connection_string :=
                  "endpoint=https://x;accesskey=y" |} scripted_world
             {| CommunicationUserIdentifier.properties := scripted_user |}
             {| AccessToken.token := VStr "token-1";
                AccessToken.expires_on := VStr "2026-01-01T00:00:00+00:00" |}
             scripted_world (VStr "8:acs:user-1")
             (AttributeError (VStr "2026-01-01T00:00:00+00:00") "isoformat")
             eq_refl Hne eq_refl Hne' eq_refl eq_refl eq_refl eq_refl eq_refl
             eq_refl).
  split; [reflexivity |]. split; [reflexivity |].
  vm_compute. repeat (first [left; reflexivity | right]).
Defined.
